(* ===== verification/_CoqProject ===== *)
-Q . S2P
Prelude.v
Model.v
TextComposer.v
Embeddings.v
Routes.v
Lifecycle.v
Statistics.v
Catalogue.v
Auth.v
Admin.v
Resolver.v
Urls.v
Users.v
