(* ===== verification/Prelude.v ===== *)
(** * A verification development of the Tropka walking-route backend

    Tropka is a Django REST backend (Python, sources under [src/apps/]):
    users ask for a walking route, later change its status, cancel it,
    leave feedback and read per-user statistics; an admin-only subsystem
    computes embedding vectors for the points of interest.  This library
    models the code as executable Rocq functions over an explicit database
    state and proves what the code does, including where it departs from
    the specification that accompanies it.

    ** The program and its parts

    - [src/apps/routes/models.py], [src/apps/partners/models.py]: the
      tables (City, CityArea, Interest, Mood, Point, PointEmbedding,
      Route with its WalkStatus enum, Feedback, Partner).  Modelled in
      [Model.v] as Records and Inductives, the whole database as the
      Record [Model.DB] of stdpp finite maps keyed by primary key
      ([gmap string _]); a foreign key is the key of the row it points
      to, a many-to-many relation a list or set of keys.  [Model.v] also
      holds the request, the response ([Ok], [Err], [Raised] for an
      uncaught exception, i.e. a 500), DRF's permission answers and the
      ORM helpers the views share ([get_owned_route], [create_row],
      [update_or_create]).
    - [src/apps/core/services.py] [build_point_text]: the text that is
      embedded for a point.  [TextComposer.v].
    - [src/apps/core/views.py]: the three admin embedding views
      (embed-missing, embed-refresh in one transaction, embed-update of
      one point).  [Embeddings.v]; the views call [generate_embedding]
      through the typeclass [Embeddings.EmbeddingClient], whose instance
      may fail, and are proved against any instance and any text
      composer; the repository's function is the instance
      [Embeddings.openai_client] ([response.data[0].embedding] of the
      SDK call, the SDK being the typeclass [Embeddings.EmbeddingsApi]).
    - [src/apps/routes/views.py]: the route lifecycle views (generate,
      edit-status, cancel, detail, feedback).  [Routes.v]; the generator
      stub of [src/apps/routes/generator/generator.py] is an instance of
      the interface [Routes.RouteGenerator].
    - [Lifecycle.v]: every request to a route view as one step of the
      relation [route_step] on the database, the invariant preserved along any sequence of requests,
      and an abstract specification of the lifecycle (owner, status and
      feedback ledger of each route) with the refinement theorems
      relating the views to it.
    - [src/apps/users/views.py]: the route list and the statistics
      views.  [Statistics.v]; it uses [Lifecycle.v] to show that the
      requests of other users never change what these views report.
    - [src/apps/routes/views.py] [FormDataView] and [CityAreaView] with
      the serializers, [src/apps/partners/admin.py] [PartnerAdmin] and
      [src/apps/articles/models.py]: [Catalogue.v].
    - [src/apps/users/serializers.py] and the register, login, refresh
      and profile views of [src/apps/users/views.py]: [Auth.v], over a
      user table of its own ([auth.User]); the password hasher, the
      project's validators and simplejwt's tokens are the interfaces
      [Auth.PasswordHasher], [Auth.AuthValidators], [Auth.TokenIssuer].
    - [src/apps/routes/admin.py], [src/apps/articles/admin.py], the
      options of [src/apps/partners/admin.py] and the models' [__str__]
      methods: [Admin.v], each registration as data checked against
      schemas of the models.
    - [src/apps/routes/urls.py], [src/apps/core/urls.py],
      [src/apps/users/urls.py]: [Urls.v], the three [urlpatterns] tables
      verbatim with the view classes' permission classes and handlers.
      What Django and DRF make of them is [Resolver.v], written for any
      type of views: [path()]'s route parsing ([_route_to_regex], a loop
      run with fuel), the converters, the backtracking match, [resolve]
      and [reverse], and [APIView.dispatch] (permission classes, then the
      handler or 405).  [Urls.serve_routes] composes them with the route
      views, so that
      the steps of [Lifecycle.v] are exactly the effects of HTTP
      requests, and [Urls.serve_core] with the embedding views of
      [Embeddings.v].
    - [Users.v] serves the users app: [Users.serve_users] resolves a
      path on the users table, dispatches it and runs the register,
      login, refresh, profile, route-list or statistics view, over a
      state of two parts, the user table of [Auth.v] and the route
      database of [Model.v] that the list and statistics views read;
      [Users.users_step] is one request as a step on that state.

    ** What the theorems show (claims C1 to C38 of the manifest)

    - Lifecycle (C1-C5): the invariant (routes keyed, point sequence in
      the point set, feedback on existing routes with ratings 1..5,
      unique feedback ids) along any run; the feedback table only grows
      at its end and routes change only in their status; edit-status and
      feedback refine the specification; after any run the owner can
      still set any status (liveness).
    - URL configuration (C6-C8): HTTP requests through the route table
      move the database exactly as [route_step] does (equivalence); the
      paths answered 404, and the permission classes answering 401/403
      before any 405; [reverse] and [resolve] inverse on the three tables
      (round trip).
    - Users app (C9-C12): any run of requests keeps the user table
      well formed (usernames unique, non-empty and within the column,
      ids unique), only appends to it, never touches the routes, and
      only [auth/register] writes (invariant by rule induction on the
      run); registering and then logging in through the two HTTP
      routes logs the new user in with the registration's tokens
      (round trip), when the email's domain is lower case and the
      email is new; the 404 of every path outside the six routes,
      [auth/register/] included, the 405 of the authentication routes
      and the 401 of the user routes; the profile answers the caller's
      own row and refresh the issuer's access token.
    - Route views (C13-C19): each view on every branch, the ownership
      rule answering 404 for foreign routes (cancel answering without
      saving the status), the rating bounds and the 500 raised by an
      unreadable rating, the validation of generate over any JSON input.
    - Embeddings and text (C20-C27): [build_point_text] always raises
      (so the views never write), and for a composer that succeeds the
      missing/refresh/update contracts, idempotence, the transaction of
      refresh against the per-row commits of embed-missing, and the
      embedding table kept well formed by any run of HTTP requests to
      the core app (C27, in [Urls.v]).  The newline round trip of the
      composed text is the theorem [TextComposer.build_point_text_split].
    - Statistics (C28-C34): each counter of the caller's routes and
      their partition, the empty caller, the bounds (the signed column
      widths, no [bigint] overflow), the favourite city a largest group
      (possibly [None]), isolation from other users, rows of the list
      view sorted, owned, filtered and bounded, and the [ValueError]
      cases.
    - Catalogue (C35-C37): the city-area answers, the form data listing
      each row once, the partner actions' effect, their count and
      message, and their overwrite laws.
    - Auth (C38): the failures of registration and login outside the
      round trip of C10 (a domain [normalize_email] changes, a
      duplicate, a missing or blank email, two accounts sharing a
      normalised email), for any hasher, validators and token issuer.

    ** Conventions shared by every file (this file)

    - Python's [sep.join(parts)] is [join]; the inverse split on one
      character is [split_on]; their round trip is [split_join].
    - Python truthiness of an optional request field is [truthy].
    - A queryset slice [qs[a:b]] is [py_slice].
    - The notation scope [tropka_scope] holds the error-monad notation
      [x <-? c ;; k] used by the views; the hint database [tropka]
      collects the rewriting lemmas the components share, and the tactic
      [tropka_simp] applies them.

    ** Bounds and fuel

    Every loop of the repository's code iterates over a finite table, so
    its model is structurally recursive.  The one loop that is not is
    Django's [while True] in [_route_to_regex], which [Resolver.v] runs with
    fuel one more than the length of the route: every iteration consumes
    at least the three characters of a [<name>] component, and
    [Resolver.route_to_regex_terminates] proves the loop returns, with one
    result, for every larger fuel (a lemma about Django's code, which the
    repository's tables rely on, not a claim about the repository).  Integers of the database (durations, costs,
    timestamps, ratings) are Python integers and are modelled as [Z];
    PostgreSQL's column widths enter only where they bound a result:
    the signed ranges [Model.pg_integer_min .. Model.pg_integer_max] and
    [Model.pg_bigint_min .. Model.pg_bigint_max] in the statistics
    bounds.

    ** Not modelled

    Password hashing, the password validators, the email validator and
    JWT issuance are library code and settings outside the repository:
    [Auth.v] states what it needs of them as typeclasses.  [Resolver.v]
    translates Django's and DRF's URL and dispatch code, which the
    repository calls and which is not in [src/]; its definitions are
    not mapped to the repository's lines.  The Django admin pages, forms
    and templates are Django's; [Admin.v] writes the registrations as
    data with Django's checks of their options and the models'
    [__str__], and states no claim: a check of constant data is a run,
    not a property.  The models' [Meta]
    options (table names, verbose names, indexes) and the admin actions'
    [short_description] labels only name and index things.  The
    project's root URLconf, which includes each app under a prefix, is
    not in the repository: [Urls.v] resolves paths relative to that
    prefix, and leaves out the percent-encoding [reverse] adds and the
    server removes.  DRF's throttling, content negotiation and the
    default permission classes come from settings that are not in the
    repository; the two views without [permission_classes] are taken as
    public, as the specification says.  Authentication of a request
    (simplejwt's [JWTAuthentication]) is library code: a request carries
    the id of its user, and [Users.request_user] looks the row up in the
    user table.  [EmbedMissingPointsView] is taken to run outside a
    transaction: [ATOMIC_REQUESTS] is not set in [src/].  JSON request
    values are decoded as DRF does (finite floats kept as exact
    rationals).  Strings are ASCII: Python's Unicode digits and
    whitespace in [int()] and [str.strip] are not modelled.  Timestamps are integers drawn by the request
    ([req_now]); [isoformat()] is not modelled.  The order of an
    unordered queryset is the primary-key order of the table, one of the
    orders the database may return.  The ORM itself is not part of the
    repository: its semantics (get, create, update_or_create, filter)
    are written out as the small helpers of [Model.v] that the views
    call. *)

From Stdlib Require Import String Ascii ZArith Lia.
From stdpp Require Import base list strings sorting.

Declare Scope tropka_scope.
Delimit Scope tropka_scope with tropka.
Open Scope string_scope.
(** [++] is list concatenation; strings are appended with [+:+]. *)
Open Scope list_scope.

Create HintDb tropka discriminated.
Create Rewrite HintDb tropka_rw.

(** ** Python strings *)

(** [sep.join(parts)]. *)
Fixpoint join (sep : string) (parts : list string) : string :=
  match parts with
  | [] => ""
  | [w] => w
  | w :: rest => w +:+ sep +:+ join sep rest
  end.

(** [s.split(c)] for a one-character separator: the inverse of [join]. *)
Fixpoint split_on (c : ascii) (s : string) : list string :=
  match s with
  | EmptyString => [""]
  | String a s' =>
      if Ascii.eqb a c then "" :: split_on c s'
      else match split_on c s' with
           | [] => [String a ""]
           | w :: ws => String a w :: ws
           end
  end.

(** The character [c] does not occur in [s]. *)
Fixpoint no_char (c : ascii) (s : string) : bool :=
  match s with
  | EmptyString => true
  | String a s' => negb (Ascii.eqb a c) && no_char c s'
  end.

Lemma split_on_no_char c w : no_char c w = true -> split_on c w = [w].
Proof.
  induction w as [|a w IH]; simpl; [done|].
  intros [Ha Hw]%andb_prop. apply negb_true_iff in Ha. rewrite Ha, IH; done.
Qed.

Lemma split_on_app c w rest :
  no_char c w = true -> split_on c (w +:+ String c rest) = w :: split_on c rest.
Proof.
  induction w as [|a w IH]; simpl.
  - by rewrite Ascii.eqb_refl.
  - intros [Ha Hw]%andb_prop. apply negb_true_iff in Ha. rewrite Ha, IH; done.
Qed.

(** Round trip: splitting a join on a separator that occurs in no part
    gives the parts back. *)
Lemma split_join c parts :
  parts <> [] -> Forall (fun w => no_char c w = true) parts ->
  split_on c (join (String c "") parts) = parts.
Proof.
  induction parts as [|w [|w' rest] IH]; intros Hne Hall; [done| |].
  - inversion Hall; subst. by apply split_on_no_char.
  - inversion Hall; subst. change (join (String c "") (w :: w' :: rest))
      with (w +:+ String c (join (String c "") (w' :: rest))).
    rewrite split_on_app by done. f_equal. by apply IH.
Qed.

Lemma no_char_append c s t : no_char c (s +:+ t) = no_char c s && no_char c t.
Proof. induction s as [|a s IH]; simpl; [done|]. by rewrite IH, andb_assoc. Qed.

(** ** Python truthiness of request fields *)

(** [not x] is false exactly for [None] and the empty string. *)
Definition truthy (o : option string) : bool :=
  match o with
  | Some s => negb (String.eqb s "")
  | None => false
  end.

Lemma truthy_Some s : s <> "" -> truthy (Some s) = true.
Proof. intros Hs. simpl. destruct (String.eqb_spec s ""); [done|]. reflexivity. Qed.

Lemma truthy_Some_iff s : truthy (Some s) = true <-> s <> "".
Proof. simpl. destruct (String.eqb_spec s ""); naive_solver. Qed.

(** ** Python's [int(s)] on a string *)

Definition is_py_space (a : ascii) : bool :=
  match nat_of_ascii a with 9 | 10 | 11 | 12 | 13 | 32 => true | _ => false end.

Definition digit_value (a : ascii) : option Z :=
  let n := nat_of_ascii a in
  if Nat.leb 48 n && Nat.leb n 57 then Some (Z.of_nat (n - 48)) else None.

(** Digits with single underscores between them, read in base 10;
    [after_digit] says whether the previous character was a digit. *)
Fixpoint parse_digits (cs : list ascii) (acc : Z) (after_digit : bool) : option Z :=
  match cs with
  | [] => if after_digit then Some acc else None
  | c :: cs' =>
      match digit_value c with
      | Some d => parse_digits cs' (10 * acc + d)%Z true
      | None =>
          if Ascii.eqb c "_" && after_digit then parse_digits cs' acc false else None
      end
  end.

Fixpoint drop_spaces (l : list ascii) : list ascii :=
  match l with c :: l' => if is_py_space c then drop_spaces l' else l | [] => [] end.

(** [s.strip()] on ASCII whitespace. *)
Definition strip (cs : list ascii) : list ascii := rev (drop_spaces (rev (drop_spaces cs))).

(** [int(s)]: optional surrounding whitespace, an optional sign, then
    digits; anything else raises [ValueError] ([None] here). *)
Definition parse_int (s : string) : option Z :=
  match strip (list_ascii_of_string s) with
  | c :: cs =>
      if Ascii.eqb c "-" then Z.opp <$> parse_digits cs 0 false
      else if Ascii.eqb c "+" then parse_digits cs 0 false
      else parse_digits (c :: cs) 0 false
  | [] => None
  end.

(** ** Queryset slicing [qs[a:b]] *)

(** Django refuses negative bounds ([ValueError]); otherwise the slice is
    Python's: rows [a] to [b - 1], nothing when [b <= a]. *)
Definition py_slice {A} (l : list A) (a b : Z) : option (list A) :=
  if (a <? 0)%Z || (b <? 0)%Z then None
  else Some (take (Z.to_nat b - Z.to_nat a) (drop (Z.to_nat a) l)).

Lemma py_slice_length {A} (l : list A) a b r :
  py_slice l a b = Some r -> (Z.of_nat (length r) <= Z.max 0 (b - a))%Z.
Proof.
  unfold py_slice. destruct (_ || _) eqn:E; [done|]. intros [= <-].
  apply orb_false_iff in E as [Ha Hb]. apply Z.ltb_ge in Ha, Hb.
  rewrite length_take. lia.
Qed.

Lemma py_slice_None {A} (l : list A) a b : py_slice l a b = None <-> (a < 0 \/ b < 0)%Z.
Proof.
  unfold py_slice. destruct (_ || _) eqn:E; rewrite ?orb_true_iff, ?orb_false_iff, ?Z.ltb_lt, ?Z.ltb_ge in E;
    split; intros; try done; lia.
Qed.

Lemma py_slice_Some {A} (l : list A) a b r : py_slice l a b = Some r -> (0 <= a /\ 0 <= b)%Z.
Proof. intros Hs. destruct (decide (a < 0 \/ b < 0)%Z) as [Hn|Hn]; [by apply (py_slice_None l) in Hn; congruence|lia]. Qed.

Lemma py_slice_sublist {A} (l : list A) a b r : py_slice l a b = Some r -> r `sublist_of` l.
Proof.
  unfold py_slice. destruct (_ || _); [done|]. intros [= <-].
  etrans; [apply sublist_take|apply sublist_drop].
Qed.

Lemma filter_none {A} (P : A -> Prop) `{!forall x, Decision (P x)} l :
  Forall (fun x => ~ P x) l -> filter P l = [].
Proof. induction 1; [done|]. rewrite filter_cons, decide_False; done. Qed.

(** ** Counting and summing over lists *)

Definition count_if {A} (p : A -> bool) (l : list A) : nat :=
  length (filter (fun x => p x = true) l).

Definition sum_Z (l : list Z) : Z := foldr Z.add 0%Z l.

Lemma sum_Z_app l1 l2 : sum_Z (l1 ++ l2) = (sum_Z l1 + sum_Z l2)%Z.
Proof. induction l1 as [|x l IH]; simpl; [done|]. unfold sum_Z in *; simpl. lia. Qed.

Lemma count_if_app {A} (p : A -> bool) l1 l2 :
  count_if p (l1 ++ l2) = count_if p l1 + count_if p l2.
Proof. unfold count_if. by rewrite filter_app, length_app. Qed.

Lemma count_if_le {A} (p : A -> bool) l : count_if p l <= length l.
Proof. unfold count_if. apply length_filter. Qed.

Lemma count_if_disjoint {A} (p q : A -> bool) l :
  (forall x, p x = true -> q x = true -> False) ->
  count_if p l + count_if q l <= length l.
Proof.
  intros Hd. induction l as [|x l IH]; [done|]. unfold count_if in *.
  rewrite !filter_cons. specialize (Hd x).
  destruct (p x), (q x); repeat case_decide; simpl in *;
    try congruence; try lia; exfalso; by apply Hd.
Qed.

Lemma count_if_cons {A} (p : A -> bool) x l :
  count_if p (x :: l) = (if p x then 1 else 0) + count_if p l.
Proof. unfold count_if. rewrite filter_cons. destruct (p x); case_decide; simpl; congruence. Qed.

Lemma count_if_ext {A} (p q : A -> bool) l :
  (forall x, x ∈ l -> p x = q x) -> count_if p l = count_if q l.
Proof.
  induction l as [|x l IH]; intros Hpq; [done|]. rewrite !count_if_cons.
  rewrite (Hpq x) by apply list_elem_of_here. f_equal. apply IH.
  intros y Hy. apply Hpq. by apply list_elem_of_further.
Qed.

(** ** Sorted lists *)

(** A sublist of a strongly sorted list is strongly sorted: filtering,
    dropping and taking keep a queryset's order. *)
Lemma StronglySorted_sublist {A} (R : relation A) l1 l2 :
  StronglySorted R l2 -> l1 `sublist_of` l2 -> StronglySorted R l1.
Proof.
  intros Hs Hsub. revert Hs. induction Hsub as [|x l1 l2 Hsub IH|x l1 l2 Hsub IH];
    intros Hs; [constructor| |]; apply StronglySorted_inv in Hs as [Hs Hx].
  - constructor; [by apply IH|]. rewrite Forall_forall in *.
    intros y Hy. by apply Hx, (elem_of_sublist l1).
  - by apply IH.
Qed.

Lemma length_omap_le {A B} (f : A -> option B) l : length (omap f l) <= length l.
Proof.
  induction l as [|x l IH]; [done|]. change (x :: l) with ([x] ++ l). rewrite omap_app, !length_app.
  simpl. destruct (f x); simpl; lia.
Qed.

(** A sum of [n] terms in [0..m] is in [0..n*m]. *)
Lemma sum_Z_range l lo hi :
  Forall (fun x => lo <= x <= hi)%Z l ->
  (Z.of_nat (length l) * lo <= sum_Z l <= Z.of_nat (length l) * hi)%Z.
Proof. induction 1 as [|x l Hx _ IH]; simpl; [lia|]. unfold sum_Z in *; simpl. lia. Qed.

#[export] Hint Rewrite @sum_Z_app @count_if_app @no_char_append : tropka_rw.

Ltac tropka_simp := repeat (autorewrite with tropka_rw in *; simpl in *).
