(* ===== verification/Model.v ===== *)
(** * The data model: tables, database state, requests and responses

    The Django models of [src/apps/routes/models.py] and
    [src/apps/partners/models.py] as Records (one per model class, the
    [choices] enumerations as Inductives), the database as the Record [DB]
    of finite maps keyed by primary key, and the ORM calls the views make
    ([objects.get], [objects.create], [update_or_create]) as total
    functions.  Float columns are rationals ([Q]); a
    [DecimalField(max_digits, decimal_places)] is the integer number of
    its smallest unit ([coordinates_lat] in millionths of a degree,
    [success_rate] and [monthly_fee] in hundredths); a timestamp is the
    [Z] the request's clock reads. *)

From Stdlib Require Import String ZArith QArith.
From stdpp Require Import base gmap list strings.
From S2P Require Import Prelude.

(** ** JSON columns *)

(** A decoded JSON value, as a [JSONField] or DRF's [JSONParser] gives
    it: a number without fraction or exponent is a Python [int], any
    other number a finite [float] (DRF's parser refuses [NaN] and
    [Infinity]), kept here as the exact rational it denotes. *)
#[warnings="-register-all"]
Inductive Json :=
| JNull
| JBool (b : bool)
| JNum (n : Z)
| JFloat (q : Q)
| JStr (s : string)
| JArr (xs : list Json)
| JObj (kvs : list (string * Json)).

(** Python truthiness of a decoded JSON value. *)
Definition json_truthy (j : Json) : bool :=
  match j with
  | JNull => false
  | JBool b => b
  | JNum n => negb (Z.eqb n 0)
  | JFloat q => negb (Qeq_bool q 0)
  | JStr s => negb (String.eqb s "")
  | JArr xs => negb (bool_decide (xs = []))
  | JObj kvs => negb (bool_decide (kvs = []))
  end.

(** A JSON array of strings, as the code reads [point_sequence]. *)
Fixpoint json_strings (xs : list Json) : option (list string) :=
  match xs with
  | [] => Some []
  | JStr s :: rest => (s ::.) <$> json_strings rest
  | _ :: _ => None
  end.

Definition json_string_list (j : Json) : option (list string) :=
  match j with JArr xs => json_strings xs | _ => None end.

(** ** routes/models.py *)

Record City := mkCity {
  city_id : string;
  city_name : string;
  city_image_url : option string;
  city_description : string;
  city_latitude : option Q;
  city_longitude : option Q;
  city_bbox : option Json
}.

Record CityArea := mkCityArea {
  area_id : Z;
  area_city : string;
  area_name : string;
  area_bbox : option Json;
  area_latitude : option Q;
  area_longitude : option Q;
  area_description : option string;
  area_image_url : option string
}.

Record Interest := mkInterest {
  interest_id : string;
  interest_label : string;
  interest_description : string
}.

Record Mood := mkMood {
  mood_id : string;
  mood_label : string;
  mood_description : string
}.

(** [Partner.TIER_CHOICES], [Partner.STATUS_CHOICES]. *)
Inductive PartnerTier := Basic | Premium | Vip.
Inductive PartnerStatus := PActive | PPaused | PSuspended.

#[export] Instance PartnerTier_eq_dec : EqDecision PartnerTier.
Proof. solve_decision. Defined.
#[export] Instance PartnerStatus_eq_dec : EqDecision PartnerStatus.
Proof. solve_decision. Defined.

Record Point := mkPoint {
  point_id : string;
  point_name : string;
  point_description : string;
  point_tags : Json;
  point_image_url : option string;
  point_city : string;
  point_area : option Z;
  point_interests : list string;
  point_moods : list string;
  coordinates_lat : Z;
  coordinates_lng : Z;
  point_address : option string;
  average_visit_duration : Z;
  average_cost : option Z;
  is_partner : bool;
  partner_tier : option PartnerTier;
  point_partner : option string;
  working_hours_json : option Json;
  best_visit_time : Json;
  is_seasonal : bool;
  seasonal_months : Json;
  view_count : Z;
  success_rate : Z;
  last_viewed_at : option Z
}.

(** One row of [point_embeddings]; the primary key is the point's. *)
Record PointEmbedding := mkPointEmbedding {
  pe_point : string;
  pe_embedding : list Q;
  pe_updated_at : Z
}.

(** [Route.WalkStatus]. *)
Inductive WalkStatus := GOING | DONE | CANCELLED.

#[export] Instance WalkStatus_eq_dec : EqDecision WalkStatus.
Proof. solve_decision. Defined.

Definition status_value (s : WalkStatus) : string :=
  match s with GOING => "going" | DONE => "done" | CANCELLED => "cancelled" end.

(** [Route.WalkStatus.values]. *)
Definition WalkStatus_values : list string := map status_value [GOING; DONE; CANCELLED].

(** The member whose value is [v], if any. *)
Definition parse_status (v : string) : option WalkStatus :=
  if String.eqb v "going" then Some GOING
  else if String.eqb v "done" then Some DONE
  else if String.eqb v "cancelled" then Some CANCELLED
  else None.

Record Route := mkRoute {
  route_id : string;
  created_at : Z;
  total_duration : Z;
  total_cost : option Z;
  route_city : option string;
  route_description : option string;
  route_user : option nat;
  point_sequence : Json;
  route_points : gset string;
  status : WalkStatus
}.

(** [route.status = s] on the in-memory object. *)
Definition with_status (r : Route) (s : WalkStatus) : Route :=
  {| route_id := route_id r; created_at := created_at r;
     total_duration := total_duration r; total_cost := total_cost r;
     route_city := route_city r; route_description := route_description r;
     route_user := route_user r; point_sequence := point_sequence r;
     route_points := route_points r; status := s |}.

Record Feedback := mkFeedback {
  fb_id : string;
  fb_route : string;
  fb_user : option nat;
  rating : option Z;
  comment : option string;
  going : bool;
  fb_created_at : Z
}.

(** ** partners/models.py *)

Record Partner := mkPartner {
  partner_id : string;
  partner_name : string;
  partner_email : option string;
  partner_phone : option string;
  tier : PartnerTier;
  monthly_fee : Z;
  partner_status : PartnerStatus;
  total_impressions : Z;
  impressions_this_month : Z;
  last_impression_date : option Z;
  partner_created_at : Z
}.

(** ** The database *)

(** Every table by primary key; the feedback table is the list of its
    rows in insertion order, because the code only ever appends to it. *)
Record DB := mkDB {
  cities : gmap string City;
  areas : gmap Z CityArea;
  interests : gmap string Interest;
  moods : gmap string Mood;
  points : gmap string Point;
  embeddings : gmap string PointEmbedding;
  routes : gmap string Route;
  feedbacks : list Feedback;
  partners : gmap string Partner
}.

Definition set_embeddings (db : DB) (e : gmap string PointEmbedding) : DB :=
  mkDB (cities db) (areas db) (interests db) (moods db) (points db) e
       (routes db) (feedbacks db) (partners db).

Definition set_routes (db : DB) (r : gmap string Route) : DB :=
  mkDB (cities db) (areas db) (interests db) (moods db) (points db)
       (embeddings db) r (feedbacks db) (partners db).

Definition set_feedbacks (db : DB) (f : list Feedback) : DB :=
  mkDB (cities db) (areas db) (interests db) (moods db) (points db)
       (embeddings db) (routes db) f (partners db).

Definition set_partners (db : DB) (p : gmap string Partner) : DB :=
  mkDB (cities db) (areas db) (interests db) (moods db) (points db)
       (embeddings db) (routes db) (feedbacks db) p.

(** ** Users, requests and responses *)

(** The fields of [request.user] the code reads. *)
Record User := mkUser { user_id : nat; is_staff : bool }.

(** What a request brings besides its data: the authenticated user (if
    any), the clock [timezone.now()] reads during the request, and the
    value [uuid.uuid4()] draws for a new primary key. *)
Record Request := mkRequest {
  req_user : option User;
  req_now : Z;
  req_uuid : string
}.

(** Exceptions the views do not catch: Django answers them with 500. *)
Inductive Exception :=
| FieldError (msg : string)
| TypeError
| ValueError
| IntegrityError
| ProviderError
| KeyError (key : string)
| MultipleObjectsReturned
| DataError
| DoesNotExist
| IndexError.

(** A view's answer: [Response({"status": "success", ...}, code)],
    [Response({"status": "error", "message": m}, code)], or an exception
    that escapes the view. *)
Inductive Response (A : Type) :=
| Ok (code : Z) (data : A)
| Err (code : Z) (message : string)
| Raised (e : Exception).
Arguments Ok {A}. Arguments Err {A}. Arguments Raised {A}.

Definition is_ok {A} (r : Response A) : bool :=
  match r with Ok _ _ => true | _ => false end.

(** Chaining a computation that may raise. *)
Notation "x <-? c ;; k" :=
  (match c with inl e => inl e | inr x => k end)
  (at level 100, c at next level, right associativity) : tropka_scope.
Open Scope tropka_scope.

(** ** Permission classes *)

Definition not_authenticated_msg := "Authentication credentials were not provided.".
Definition permission_denied_msg := "You do not have permission to perform this action.".

(** [permissions.IsAuthenticated]: the user, or the 401 answer. *)
Definition require_user (rq : Request) : option User := req_user rq.

(** [permissions.IsAdminUser]: a staff user. *)
Definition is_admin (rq : Request) : bool :=
  match req_user rq with Some u => is_staff u | None => false end.

(** ** The ORM calls *)

(** [Route.objects.get(id=route_id, user=request.user)]: a route of
    another user, or of no user, is not found. *)
Definition get_owned_route (db : DB) (rid : string) (u : nat) : option Route :=
  match routes db !! rid with
  | Some r => if decide (route_user r = Some u) then Some r else None
  | None => None
  end.

Lemma get_owned_route_Some db rid u r :
  get_owned_route db rid u = Some r <->
  routes db !! rid = Some r /\ route_user r = Some u.
Proof.
  unfold get_owned_route. destruct (routes db !! rid) as [r'|]; [|naive_solver].
  case_decide; naive_solver.
Qed.

Lemma get_owned_route_None db rid u :
  get_owned_route db rid u = None <->
  forall r, routes db !! rid = Some r -> route_user r <> Some u.
Proof.
  unfold get_owned_route. destruct (routes db !! rid) as [r'|]; [|naive_solver].
  case_decide; naive_solver.
Qed.

(** [Model.objects.create(pk=k, ...)] on a keyed table: an existing key
    violates the primary key. *)
Definition create_row {V} (m : gmap string V) (k : string) (v : V)
  : Exception + gmap string V :=
  match m !! k with
  | Some _ => inl IntegrityError
  | None => inr (<[k := v]> m)
  end.

(** [update_or_create(pk=k, defaults=...)]. *)
Definition update_or_create {V} (m : gmap string V) (k : string) (v : V) : gmap string V :=
  <[k := v]> m.

Lemma create_row_fresh {V} (m : gmap string V) k v :
  m !! k = None -> create_row m k v = inr (<[k := v]> m).
Proof. unfold create_row. by intros ->. Qed.

#[export] Hint Resolve create_row_fresh : tropka.

(** A property of every row of a table, decided by one boolean
    computation over its rows. *)
Lemma map_Forall_by_bool `{Countable K} {A} (P : K -> A -> Prop) (f : K -> A -> bool)
    (m : gmap K A) :
  (forall k a, f k a = true -> P k a) ->
  forallb (fun kv => f kv.1 kv.2) (map_to_list m) = true -> map_Forall P m.
Proof.
  intros Hf Hb. apply map_Forall_to_list, Forall_forall. intros [k a] Hka. apply Hf.
  by apply forallb_forall with (x := (k, a)) in Hb; [|apply list_elem_of_In].
Qed.

(** The widths of PostgreSQL's [integer] (Django's [IntegerField]) and
    [bigint] (the type of [SUM] over [integer]). *)
Definition pg_integer_min : Z := -2147483648.
Definition pg_integer_max : Z := 2147483647.
Definition pg_bigint_min : Z := -9223372036854775808.
Definition pg_bigint_max : Z := 9223372036854775807.

Lemma parse_status_value s : parse_status (status_value s) = Some s.
Proof. by destruct s. Qed.

(** ** Sample rows, used by the witnesses of the components *)

Definition empty_db : DB := mkDB ∅ ∅ ∅ ∅ ∅ ∅ ∅ [] ∅.

Definition sample_city : City :=
  mkCity "moscow" "Москва" None "Столица" None None None.

Definition sample_interest : Interest := mkInterest "parks" "Парки" "Зелёные зоны".
Definition sample_mood : Mood := mkMood "explore" "Исследовать" "Новые места".

(** A point with a description, one tag, one interest and no mood. *)
Definition sample_point : Point :=
  mkPoint "1" "Парк Горького" "Популярный парк" (JArr [JStr "🌳"]) None "moscow" None
    ["parks"] [] 55792000 37586000 None 30 None false None None None (JArr [])
    false (JArr []) 0 0 None.

(** A second point, with neither tags nor vocabulary links. *)
Definition sample_point2 : Point :=
  mkPoint "2" "ВкусОчка" "" (JArr []) None "moscow" None
    [] [] 55792000 37586000 None 30 (Some 1000%Z) false None None None (JArr [])
    false (JArr []) 0 0 None.

Definition sample_route : Route :=
  mkRoute "r1" 100 60 None (Some "moscow") None (Some 7%nat)
    (JArr [JStr "1"; JStr "2"]) {[ "1"; "2" ]} GOING.

Definition sample_db : DB :=
  mkDB {[ "moscow" := sample_city ]} ∅ {[ "parks" := sample_interest ]}
    {[ "explore" := sample_mood ]}
    {[ "1" := sample_point; "2" := sample_point2 ]} ∅
    {[ "r1" := sample_route ]} [] ∅.

(** The answer of a permission class that refuses the request: DRF
    answers 401 without credentials and 403 with credentials that lack
    the permission. *)
Definition deny {A} (rq : Request) : Response A :=
  match req_user rq with
  | None => Err 401 not_authenticated_msg
  | Some _ => Err 403 permission_denied_msg
  end.

(** The primary key of every point row is the key it is stored under. *)
Definition points_keyed (db : DB) : Prop :=
  map_Forall (fun k p => point_id p = k) (points db).

(** A request of a staff user, and one of an ordinary user. *)
Definition admin_rq : Request := mkRequest (Some (mkUser 1 true)) 500 "f0e1d2c3".
Definition user_rq (u : nat) : Request := mkRequest (Some (mkUser u false)) 600 "a1b2c3d4".
