(* ===== verification/TextComposer.v ===== *)
(** * The text embedded for a point: [build_point_text]

    [src/apps/core/services.py], lines 18-36.  The function joins with
    newlines the description, a tags line, an interests line and a moods
    line, the last three only when non-empty.  The interests and moods
    are read with [values_list("name", flat=True)], but neither [Interest]
    nor [Mood] has a field [name] (their fields are [id], [label] and
    [description]): Django raises [FieldError] before the queryset is
    ever evaluated.  The model keeps the field name as a parameter
    ([build_point_text_with]); the source's function is
    [build_point_text], its instance at ["name"].  The theorems show that
    the source's function never returns, and that the composed text
    splits back into its lines. *)

From Stdlib Require Import String Ascii ZArith.
From stdpp Require Import base gmap list strings.
From S2P Require Import Prelude Model.

(** ** Python's [", ".join(x)] on a JSON value *)

(** Joining iterates [x]: an array must hold strings, a string yields its
    characters, an object its keys; anything else is a [TypeError]. *)
Definition json_iter_strings (j : Json) : Exception + list string :=
  match j with
  | JArr xs =>
      match json_strings xs with Some ss => inr ss | None => inl TypeError end
  | JStr s => inr (map (fun a => String a "") (list_ascii_of_string s))
  | JObj kvs => inr (map fst kvs)
  | _ => inl TypeError
  end.

(** ** [values_list(field, flat=True)] on the related vocabularies *)

(** The fields a lookup on [Interest] or [Mood] may name. *)
Definition vocab_fields : list string := ["description"; "id"; "label"; "point"].

Definition field_error (fld : string) : Exception :=
  FieldError ("Cannot resolve keyword '" +:+ fld +:+ "' into field. Choices are: "
              +:+ join ", " vocab_fields).

(** The value of a column of one interest. *)
Definition interest_field (fld : string) (i : Interest) : option string :=
  if String.eqb fld "id" then Some (interest_id i)
  else if String.eqb fld "label" then Some (interest_label i)
  else if String.eqb fld "description" then Some (interest_description i)
  else None.

Definition mood_field (fld : string) (m : Mood) : option string :=
  if String.eqb fld "id" then Some (mood_id m)
  else if String.eqb fld "label" then Some (mood_label m)
  else if String.eqb fld "description" then Some (mood_description m)
  else None.

(** The ids of the points that list the vocabulary entry [k], in the
    order of the point table: the reverse relation [point] of
    [Point.interests] or [Point.moods]. *)
Definition points_with (db : DB) (sel : Point -> list string) (k : string) : list string :=
  fst <$> filter (fun kp => k ∈ sel kp.2) (map_to_list (points db)).

(** [point.interests.values_list(fld, flat=True)]: the field name is
    resolved first, for every point, whether it has interests or not; a
    column gives one value per interest, the reverse relation [point]
    one value per point that lists the interest. *)
Definition interests_values_list (fld : string) (db : DB) (p : Point)
  : Exception + list string :=
  if bool_decide (fld ∈ ["id"; "label"; "description"]) then
    inr (omap (fun k => interests db !! k ≫= interest_field fld) (point_interests p))
  else if String.eqb fld "point" then
    inr (concat ((fun k => if bool_decide (is_Some (interests db !! k))
                           then points_with db point_interests k else []) <$> point_interests p))
  else inl (field_error fld).

Definition moods_values_list (fld : string) (db : DB) (p : Point)
  : Exception + list string :=
  if bool_decide (fld ∈ ["id"; "label"; "description"]) then
    inr (omap (fun k => moods db !! k ≫= mood_field fld) (point_moods p))
  else if String.eqb fld "point" then
    inr (concat ((fun k => if bool_decide (is_Some (moods db !! k))
                           then points_with db point_moods k else []) <$> point_moods p))
  else inl (field_error fld).

(** ** The composer *)

Definition tags_prefix := "Теги: ".
Definition interests_prefix := "Интересы: ".
Definition moods_prefix := "Настроения: ".

(** [if xs: parts.append(prefix + ", ".join(xs))] for a list of labels. *)
Definition section (prefix : string) (xs : list string) : list string :=
  match xs with [] => [] | _ => [prefix +:+ join ", " xs] end.

(** The tags line: [if point.tags: parts.append("Теги: " + ", ".join(point.tags))]. *)
Definition tags_section (j : Json) : Exception + list string :=
  if json_truthy j then
    ts <-? json_iter_strings j ;; inr [tags_prefix +:+ join ", " ts]
  else inr [].

(** The list [parts] of lines 20-34, the field name of the two
    [values_list] calls as a parameter. *)
Definition point_text_parts (fld : string) (db : DB) (p : Point)
  : Exception + list string :=
  tags <-? tags_section (point_tags p) ;;
  ints <-? interests_values_list fld db p ;;
  mds <-? moods_values_list fld db p ;;
  inr ([point_description p] ++ tags ++ section interests_prefix ints
         ++ section moods_prefix mds)%list.

Definition newline : string := String "010"%char "".

(** [return "\n".join(parts)]. *)
Definition build_point_text_with (fld : string) (db : DB) (p : Point)
  : Exception + string :=
  parts <-? point_text_parts fld db p ;; inr (join newline parts).

(** The function of the source: both look-ups name the field ["name"]. *)
Definition build_point_text (db : DB) (p : Point) : Exception + string :=
  build_point_text_with "name" db p.

(** ** Lemmas *)

Lemma interests_values_list_name db p :
  interests_values_list "name" db p = inl (field_error "name").
Proof. unfold interests_values_list. by rewrite bool_decide_eq_false_2 by set_solver. Qed.

(** The source's composer raises on every point. *)
Lemma build_point_text_inl db p : exists e, build_point_text db p = inl e.
Proof.
  unfold build_point_text, build_point_text_with, point_text_parts.
  rewrite interests_values_list_name. destruct (tags_section _); simpl; eauto.
Qed.

(** ** Theorems *)

(** C21 (error).  The source's [build_point_text] never returns a
    text: for every point it raises, a [TypeError] when the tags cannot
    be joined, and otherwise the [FieldError] of [values_list("name")],
    since neither [Interest] nor [Mood] has a field [name]. *)
Theorem build_point_text_always_raises db p :
  build_point_text db p = inl TypeError \/
  build_point_text db p = inl (field_error "name").
Proof.
  unfold build_point_text, build_point_text_with, point_text_parts.
  rewrite interests_values_list_name.
  unfold tags_section. destruct (json_truthy _); [|by right].
  unfold json_iter_strings. repeat case_match; naive_solver.
Qed.

(** When no line contains a newline, splitting the
    composed text on newlines gives back exactly the lines [parts]
    that [build_point_text] joined, whatever field it reads. *)
Theorem build_point_text_split fld db p parts s :
  point_text_parts fld db p = inr parts ->
  Forall (fun w => no_char "010"%char w = true) parts ->
  build_point_text_with fld db p = inr s ->
  split_on "010"%char s = parts.
Proof.
  unfold build_point_text_with. intros Hp Hnl. rewrite Hp. intros [= <-].
  apply split_join; [|done].
  revert Hp. unfold point_text_parts. repeat case_match; naive_solver.
Qed.
