(* ===== verification/Embeddings.v ===== *)
(** * The embedding views of [src/apps/core/views.py]

    Three admin-only views keep one [PointEmbedding] per point:
    - [EmbedMissingPointsView.post] (lines 15-27) walks the points and
      creates an embedding for each point that has none; it runs outside
      any transaction, so the embeddings created before a failure stay;
    - [EmbedRefreshPointsView.post] (lines 33-48) recomputes every
      embedding inside [transaction.atomic()]: a failure rolls all of
      them back;
    - [EmbedUpdatePointView.post] (lines 52-75) recomputes the embedding
      of one point, answering 404 for an unknown point.

    The views call [generate_embedding] (services.py, lines 10-15)
    through the class [EmbeddingClient], so that they are proved for any
    client, which may fail; [openai_generate_embedding] is the
    repository's function, an instance of the class over the OpenAI
    SDK's [embeddings.create], itself the interface [EmbeddingsApi].  The
    text composer is a parameter of the section so that the theorems hold
    for any composer; the views of the source are the instances at
    [TextComposer.build_point_text] ([EmbedMissingPointsView_post] and its
    siblings).  [Point.objects.all()] iterates the table in an order the
    code does not fix; the model uses [map_to_list]. *)

From Stdlib Require Import String ZArith QArith.
From stdpp Require Import base gmap list strings fin_maps.
From S2P Require Import Prelude Model TextComposer.

(** What the views need of [generate_embedding]: text to vector, or an
    exception. *)
Class EmbeddingClient := generate_embedding : string -> Exception + list Q.

(** The OpenAI SDK's [client.embeddings.create(model=..., input=...)]:
    the [data] list of the response, one [embedding] per item, or the
    exception the SDK raises. *)
Class EmbeddingsApi := embeddings_create : string -> string -> Exception + list (list Q).

Definition embedding_model : string := "text-embedding-3-small".

(** [generate_embedding]: [response.data[0].embedding], an [IndexError]
    when [data] is empty. *)
Definition openai_generate_embedding `{EmbeddingsApi} (text : string) : Exception + list Q :=
  data <-? embeddings_create embedding_model text ;;
  match data with
  | e :: _ => inr e
  | [] => inl IndexError
  end.

#[export] Instance openai_client `{EmbeddingsApi} : EmbeddingClient := openai_generate_embedding.

Section Embeddings.
Context {client : EmbeddingClient}.
Context (compose : DB -> Point -> Exception + string).

(** The loop of [EmbedMissingPointsView.post]: [created] counts the
    rows created so far; an exception stops the loop and keeps the rows
    already created. *)
Fixpoint embed_missing_loop (db : DB) (now : Z) (ps : list (string * Point))
    (embs : gmap string PointEmbedding) (created : nat)
    : (Exception + nat) * gmap string PointEmbedding :=
  match ps with
  | [] => (inr created, embs)
  | (_, p) :: rest =>
      match embs !! point_id p with
      | Some _ => embed_missing_loop db now rest embs created
      | None =>
          match compose db p with
          | inl e => (inl e, embs)
          | inr text =>
              match generate_embedding text with
              | inl e => (inl e, embs)
              | inr v =>
                  match create_row embs (point_id p) (mkPointEmbedding (point_id p) v now) with
                  | inl e => (inl e, embs)
                  | inr embs' => embed_missing_loop db now rest embs' (S created)
                  end
              end
          end
      end
  end.

Definition embed_missing (rq : Request) (db : DB) : Response nat * DB :=
  if is_admin rq then
    let '(r, embs) :=
      embed_missing_loop db (req_now rq) (map_to_list (points db)) (embeddings db) 0 in
    (match r with inl e => Raised e | inr n => Ok 201 n end, set_embeddings db embs)
  else (deny rq, db).

(** The loop of [EmbedRefreshPointsView.post], inside the transaction. *)
Fixpoint embed_refresh_loop (db : DB) (now : Z) (ps : list (string * Point))
    (embs : gmap string PointEmbedding) (refreshed : nat)
    : Exception + (nat * gmap string PointEmbedding) :=
  match ps with
  | [] => inr (refreshed, embs)
  | (_, p) :: rest =>
      text <-? compose db p ;;
      v <-? generate_embedding text ;;
      embed_refresh_loop db now rest
        (update_or_create embs (point_id p) (mkPointEmbedding (point_id p) v now))
        (S refreshed)
  end.

(** [with transaction.atomic()]: an exception discards every upsert. *)
Definition embed_refresh (rq : Request) (db : DB) : Response nat * DB :=
  if is_admin rq then
    match embed_refresh_loop db (req_now rq) (map_to_list (points db)) (embeddings db) 0 with
    | inl e => (Raised e, db)
    | inr (n, embs) => (Ok 200 n, set_embeddings db embs)
    end
  else (deny rq, db).

(** [EmbedUpdatePointView.post(request, point_id)]. *)
Definition embed_update (rq : Request) (pid : string) (db : DB) : Response string * DB :=
  if is_admin rq then
    match points db !! pid with
    | None => (Err 404 "Not found.", db)
    | Some p =>
        match compose db p with
        | inl e => (Raised e, db)
        | inr text =>
            match generate_embedding text with
            | inl e => (Raised e, db)
            | inr v =>
                (Ok 200 (point_id p),
                 set_embeddings db (update_or_create (embeddings db) (point_id p)
                                      (mkPointEmbedding (point_id p) v (req_now rq))))
            end
        end
    end
  else (deny rq, db).
End Embeddings.

(** The views as the source wires them, with [build_point_text]. *)
Definition EmbedMissingPointsView_post `{EmbeddingClient} :=
  embed_missing build_point_text.
Definition EmbedRefreshPointsView_post `{EmbeddingClient} :=
  embed_refresh build_point_text.
Definition EmbedUpdatePointView_post `{EmbeddingClient} :=
  embed_update build_point_text.

(** ** Invariant of the embedding table *)

(** Every embedding row is stored under its own point's key, and that
    point exists (the one-to-one foreign key with [on_delete=CASCADE]). *)
Definition embeddings_wf (db : DB) : Prop :=
  map_Forall (fun k e => pe_point e = k /\ is_Some (points db !! k)) (embeddings db).

(** [embs'] only adds or replaces rows that are keyed by a point of [db]. *)
Definition grows_within (db : DB) (embs embs' : gmap string PointEmbedding) : Prop :=
  forall k e, embs' !! k = Some e ->
    embs !! k = Some e \/ (pe_point e = k /\ is_Some (points db !! k)).

(** The rows [(k, p)] the loops visit belong to the point table. *)
Definition listed (db : DB) (ps : list (string * Point)) : Prop :=
  Forall (fun kp => points db !! point_id kp.2 = Some kp.2) ps.

Section EmbeddingTheory.
Context {client : EmbeddingClient} (compose : DB -> Point -> Exception + string).
Implicit Types (db : DB) (embs : gmap string PointEmbedding).

Lemma set_embeddings_same db : set_embeddings db (embeddings db) = db.
Proof. by destruct db. Qed.

Lemma set_embeddings_points db e : points (set_embeddings db e) = points db.
Proof. done. Qed.

Lemma grows_within_refl db embs : grows_within db embs embs.
Proof. intros k e; by left. Qed.

Lemma grows_within_trans db e1 e2 e3 :
  grows_within db e1 e2 -> grows_within db e2 e3 -> grows_within db e1 e3.
Proof. intros H12 H23 k e He. destruct (H23 k e He) as [H|H]; [by apply H12|by right]. Qed.

Lemma grows_within_insert db embs p v t :
  points db !! point_id p = Some p ->
  grows_within db embs (<[point_id p := mkPointEmbedding (point_id p) v t]> embs).
Proof.
  intros Hp k e. rewrite lookup_insert. case_decide as Hk; [|by left].
  intros [= <-]. right. subst k. split; [done|]. by rewrite Hp.
Qed.

Lemma grows_within_wf db embs' :
  embeddings_wf db -> grows_within db (embeddings db) embs' ->
  embeddings_wf (set_embeddings db embs').
Proof.
  intros Hwf Hg k e He. destruct (Hg k e He) as [Ho|Hn]; [|done].
  by apply (Hwf k e).
Qed.

Lemma listed_map_to_list db : points_keyed db -> listed db (map_to_list (points db)).
Proof.
  intros Hk. apply Forall_forall. intros [k p] Hin.
  apply elem_of_map_to_list in Hin.
  simpl. by rewrite (Hk k p Hin).
Qed.

(** *** The loop of embed-missing *)

Lemma create_row_keeps {V} (m m' : gmap string V) k v k' e :
  create_row m k v = inr m' -> m !! k' = Some e -> m' !! k' = Some e.
Proof.
  unfold create_row. destruct (m !! k) eqn:Hk; [done|]. intros [= <-] He.
  rewrite lookup_insert_ne; [done|]. intros ->. congruence.
Qed.

Lemma create_row_has {V} (m m' : gmap string V) k v :
  create_row m k v = inr m' -> m' !! k = Some v.
Proof. unfold create_row. destruct (m !! k); [done|]. intros [= <-]. apply lookup_insert_eq. Qed.

Lemma embed_missing_loop_keeps db now ps embs n k e :
  embs !! k = Some e -> snd (embed_missing_loop compose db now ps embs n) !! k = Some e.
Proof.
  revert embs n. induction ps as [|[k' p] ps IH]; intros embs n Hk; simpl; [done|].
  repeat case_match; simplify_eq/=; try done; try by apply IH.
  apply IH. by eapply create_row_keeps.
Qed.

Lemma embed_missing_loop_grows db now ps embs n :
  listed db ps -> grows_within db embs (snd (embed_missing_loop compose db now ps embs n)).
Proof.
  revert embs n. induction ps as [|[k' p] ps IH]; intros embs n Hl; simpl;
    [apply grows_within_refl|].
  inversion Hl as [|? ? Hp Hl']; subst.
  repeat case_match; simplify_eq/=; try apply grows_within_refl; try by apply IH.
  match goal with H : create_row _ _ _ = inr _ |- _ =>
    unfold create_row in H; case_match; simplify_eq end.
  eapply grows_within_trans; [by apply grows_within_insert|by apply IH].
Qed.

Lemma embed_missing_loop_covers db now ps embs n m embs' :
  embed_missing_loop compose db now ps embs n = (inr m, embs') ->
  forall k p, (k, p) ∈ ps -> is_Some (embs' !! point_id p).
Proof.
  revert embs n. induction ps as [|[k0 p0] ps IH]; intros embs n Hrun k p Hin;
    simpl in *; [by apply elem_of_nil in Hin|].
  apply elem_of_cons in Hin as [[= -> ->]|Hin];
    repeat case_match; simplify_eq/=; try by eapply IH.
  all: match goal with
       | H : _ !! point_id _ = Some _ |- _ =>
           pose proof (embed_missing_loop_keeps db now ps embs n _ _ H) as Hk
       | H : create_row _ _ _ = inr ?g |- _ =>
           pose proof (embed_missing_loop_keeps db now ps g (S n) _ _ (create_row_has _ _ _ _ H)) as Hk
       end; rewrite Hrun in Hk; by eexists.
Qed.



(** *** Success of the loops *)

(** The composer and the client both succeed on [p]. *)
Definition embeds_ok (db : DB) (p : Point) : bool :=
  match compose db p with
  | inr t => match generate_embedding t with inr _ => true | inl _ => false end
  | inl _ => false
  end.

Lemma embeds_ok_spec db p :
  embeds_ok db p = true ->
  exists t v, compose db p = inr t /\ generate_embedding t = inr v.
Proof.
  unfold embeds_ok. destruct (compose db p) as [|t]; [done|].
  destruct (generate_embedding t) as [|v] eqn:Hv; [done|]. intros _. by exists t, v.
Qed.

Definition point_ids (ps : list (string * Point)) : list string :=
  map (fun kp => point_id kp.2) ps.

Lemma point_ids_elem_of ps k p : (k, p) ∈ ps -> point_id p ∈ point_ids ps.
Proof. intros Hin. apply list_elem_of_fmap. by exists (k, p). Qed.

Lemma embed_missing_loop_ok db now ps embs n :
  NoDup (point_ids ps) -> Forall (fun kp => embeds_ok db kp.2 = true) ps ->
  exists embs', embed_missing_loop compose db now ps embs n =
    (inr (n + count_if (fun kp => bool_decide (embs !! point_id kp.2 = None)) ps), embs').
Proof.
  revert embs n. induction ps as [|[k p] ps IH]; intros embs n Hnd Hok; simpl.
  - exists embs. by rewrite Nat.add_0_r.
  - apply NoDup_cons in Hnd as [Hnin Hnd]. apply Forall_cons in Hok as [Hp Hok].
    rewrite count_if_cons. simpl.
    destruct (embs !! point_id p) eqn:He; simpl.
    + destruct (IH embs n Hnd Hok) as [embs' ->]. by eexists.
    + destruct (embeds_ok_spec db p Hp) as (t & v & -> & ->).
      rewrite create_row_fresh by done.
      destruct (IH (<[point_id p := mkPointEmbedding (point_id p) v now]> embs) (S n) Hnd Hok)
        as [embs' ->].
      exists embs'. try rewrite bool_decide_eq_true_2 by done.
      rewrite (count_if_ext _ (fun kp => bool_decide (embs !! point_id kp.2 = None)) ps).
      { do 2 f_equal. lia. }
      intros [k' p'] Hin. simpl. rewrite lookup_insert_ne; [done|].
      intros Heq. apply Hnin. simpl. rewrite Heq. by apply point_ids_elem_of with k'.
Qed.

Lemma embed_refresh_loop_ok db now ps embs n :
  NoDup (point_ids ps) -> Forall (fun kp => embeds_ok db kp.2 = true) ps ->
  exists embs', embed_refresh_loop compose db now ps embs n = inr (n + length ps, embs') /\
    (forall k p, (k, p) ∈ ps -> exists t v, compose db p = inr t /\
       generate_embedding t = inr v /\
       embs' !! point_id p = Some (mkPointEmbedding (point_id p) v now)) /\
    (forall k, k ∉ point_ids ps -> embs' !! k = embs !! k).
Proof.
  revert embs n. induction ps as [|[k p] ps IH]; intros embs n Hnd Hok; simpl.
  - exists embs. rewrite Nat.add_0_r. split; [done|]. split; [|done].
    intros k p Hin. by apply elem_of_nil in Hin.
  - apply NoDup_cons in Hnd as [Hnin Hnd]. apply Forall_cons in Hok as [Hp Hok].
    destruct (embeds_ok_spec db p Hp) as (t & v & Ht & Hv). rewrite Ht, Hv.
    unfold update_or_create.
    destruct (IH (<[point_id p := mkPointEmbedding (point_id p) v now]> embs) (S n) Hnd Hok)
      as (embs' & -> & Hall & Hrest).
    exists embs'. split; [by rewrite Nat.add_succ_r|]. split.
    + intros k' p' Hin. apply elem_of_cons in Hin as [[= -> ->]|Hin]; [|by eapply Hall].
      exists t, v. do 2 (split; [done|]). rewrite Hrest by done. apply lookup_insert_eq.
    + intros k' Hk'. apply not_elem_of_cons in Hk' as [Hne Hk'].
      rewrite Hrest by done. by apply lookup_insert_ne.
Qed.

Lemma embed_refresh_loop_grows db now ps embs n m embs' :
  listed db ps -> embed_refresh_loop compose db now ps embs n = inr (m, embs') ->
  grows_within db embs embs'.
Proof.
  revert embs n. induction ps as [|[k p] ps IH]; intros embs n Hl; simpl.
  - intros [= _ <-]. apply grows_within_refl.
  - inversion Hl as [|? ? Hp Hl']; subst.
    destruct (compose db p) as [|t]; [done|].
    destruct (generate_embedding t) as [|v]; [done|]. intros Hrun.
    eapply grows_within_trans; [by apply grows_within_insert|]. by eapply IH.
Qed.

(** Under [points_keyed], the table's point ids are its keys. *)
Lemma point_ids_keys (l : list (string * Point)) :
  (forall kp, kp ∈ l -> point_id kp.2 = kp.1) -> point_ids l = l.*1.
Proof.
  induction l as [|[k p] l IH]; intros Hl; [done|].
  assert (point_id p = k) as Hp by exact (Hl (k, p) (list_elem_of_here _ _)).
  simpl. rewrite Hp. f_equal. apply IH.
  intros kp Hin. apply Hl. by apply list_elem_of_further.
Qed.

Lemma keyed_in_map_to_list db kp :
  points_keyed db -> kp ∈ map_to_list (points db) -> point_id kp.2 = kp.1.
Proof. destruct kp as [k p]. intros Hk Hin%elem_of_map_to_list. exact (Hk k p Hin). Qed.

Lemma point_ids_map_to_list db :
  points_keyed db -> point_ids (map_to_list (points db)) = (map_to_list (points db)).*1.
Proof. intros Hk. apply point_ids_keys. intros kp. by apply keyed_in_map_to_list. Qed.

Lemma NoDup_point_ids db : points_keyed db -> NoDup (point_ids (map_to_list (points db))).
Proof. intros Hk. rewrite point_ids_map_to_list by done. apply NoDup_fst_map_to_list. Qed.

Lemma all_embeds_ok db :
  map_Forall (fun _ p => embeds_ok db p = true) (points db) ->
  Forall (fun kp => embeds_ok db kp.2 = true) (map_to_list (points db)).
Proof.
  intros Hok. apply Forall_forall. intros [k p] Hin%elem_of_map_to_list. exact (Hok k p Hin).
Qed.
End EmbeddingTheory.

(** ** Behaviour of the three views *)

Section EmbeddingClaims.
Context {client : EmbeddingClient} (compose : DB -> Point -> Exception + string).

Lemma embed_missing_loop_compose_fails db now ps embs n :
  (forall p, exists e, compose db p = inl e) ->
  snd (embed_missing_loop compose db now ps embs n) = embs.
Proof.
  intros Hf. revert n. induction ps as [|[k p] ps IH]; intros n; simpl; [done|].
  destruct (Hf p) as [e ->]. repeat case_match; simplify_eq/=; try done; apply IH.
Qed.

Lemma embed_refresh_loop_compose_fails db now ps embs n m embs' :
  (forall p, exists e, compose db p = inl e) ->
  embed_refresh_loop compose db now ps embs n = inr (m, embs') -> embs' = embs.
Proof.
  intros Hf. destruct ps as [|[k p] ps]; simpl; [congruence|].
  by destruct (Hf p) as [e ->].
Qed.

Lemma keys_not_elem_of db k :
  points db !! k = None -> k ∉ (map_to_list (points db)).*1.
Proof.
  intros Hk Hin. apply list_elem_of_fmap in Hin as [[k' p] [-> Hin%elem_of_map_to_list]].
  simpl in *. congruence.
Qed.

(** C22 (functional).  [embed_missing] never changes an embedding that
    exists, whether it succeeds or raises; and when the composer and the
    client succeed on every point, it answers 201 with the number of
    points that had no embedding, and afterwards every point has one;
    only the embedding table changes. *)
Theorem embed_missing_creates_missing rq db :
  (forall k e, embeddings db !! k = Some e ->
     embeddings (snd (embed_missing compose rq db)) !! k = Some e) /\
  (is_admin rq = true -> points_keyed db ->
  map_Forall (fun _ p => embeds_ok compose db p = true) (points db) ->
  exists embs', embed_missing compose rq db =
    (Ok 201 (count_if (fun kp => bool_decide (embeddings db !! kp.1 = None))
               (map_to_list (points db))), set_embeddings db embs') /\
    forall k, is_Some (points db !! k) -> is_Some (embs' !! k)).
Proof.
  split.
  { intros k e He. unfold embed_missing. destruct (is_admin rq); [|done].
    pose proof (embed_missing_loop_keeps compose db (req_now rq)
                  (map_to_list (points db)) _ 0 k e He) as Hk.
    destruct (embed_missing_loop _ _ _ _ _ _) as [r embs]. exact Hk. }
  intros Ha Hk Hok. unfold embed_missing. rewrite Ha.
  destruct (embed_missing_loop_ok compose db (req_now rq) (map_to_list (points db))
              (embeddings db) 0 (NoDup_point_ids db Hk) (all_embeds_ok compose db Hok))
    as [embs' Hrun].
  rewrite Hrun. exists embs'. split.
  - do 3 f_equal. apply count_if_ext. intros kp Hin.
    by rewrite (keyed_in_map_to_list db kp Hk Hin).
  - intros k [p Hp]. rewrite <- (Hk k p Hp).
    eapply embed_missing_loop_covers; [exact Hrun|]. by apply elem_of_map_to_list.
Qed.

(** C23 (functional).  After a successful [embed_missing], running it again
    creates nothing and changes nothing. *)
Theorem embed_missing_idempotent rq db n db' :
  embed_missing compose rq db = (Ok 201 n, db') ->
  embed_missing compose rq db' = (Ok 201 0%nat, db').
Proof.
  unfold embed_missing. destruct (is_admin rq) eqn:Ha;
    [|unfold deny; destruct (req_user rq); discriminate].
  destruct (embed_missing_loop _ _ _ _ _ _) as [[e|m] embs] eqn:Hrun; [discriminate|].
  intros [= _ <-]. simpl.
  assert (Hnoop : forall d now ps embs n', (forall k p, (k, p) ∈ ps -> is_Some (embs !! point_id p)) ->
            embed_missing_loop compose d now ps embs n' = (inr n', embs)).
  { intros d now ps. induction ps as [|[k p] ps IH]; intros embs' n' Hall; simpl; [done|].
    destruct (Hall k p) as [e ->]; [by apply elem_of_cons; left|].
    apply IH. intros k' p' Hin. apply (Hall k' p'). by apply elem_of_cons; right. }
  rewrite Hnoop; [by rewrite set_embeddings_same|].
  intros k p Hin. eapply embed_missing_loop_covers; [exact Hrun|exact Hin].
Qed.

(** [embed_refresh] runs in one transaction: when it raises, the
    database is the one it started from. *)
Lemma embed_refresh_raised_unchanged rq db e db' :
  embed_refresh compose rq db = (Raised e, db') -> db' = db.
Proof.
  unfold embed_refresh. destruct (is_admin rq); [|congruence].
  destruct (embed_refresh_loop _ _ _ _ _ _) as [e'|[m embs]]; congruence.
Qed.

(** C25 (functional).  When the composer and the client succeed on every point,
    [embed_refresh] answers 200 with the number of points and stores,
    for every point, the vector the client returned for its text; rows
    of keys that are not points are left as they were. *)
Theorem embed_refresh_replaces_all rq db :
  is_admin rq = true -> points_keyed db ->
  map_Forall (fun _ p => embeds_ok compose db p = true) (points db) ->
  exists embs', embed_refresh compose rq db = (Ok 200 (size (points db)), set_embeddings db embs') /\
    (forall k p, points db !! k = Some p -> exists t v,
       compose db p = inr t /\ generate_embedding t = inr v /\
       embs' !! k = Some (mkPointEmbedding k v (req_now rq))) /\
    (forall k, points db !! k = None -> embs' !! k = embeddings db !! k).
Proof.
  intros Ha Hk Hok. unfold embed_refresh. rewrite Ha.
  destruct (embed_refresh_loop_ok compose db (req_now rq) (map_to_list (points db))
              (embeddings db) 0 (NoDup_point_ids db Hk) (all_embeds_ok compose db Hok))
    as (embs' & Hrun & Hall & Hrest).
  rewrite Hrun, length_map_to_list. exists embs'. split; [done|]. split.
  - intros k p Hp. rewrite <- (Hk k p Hp). apply (Hall k). by apply elem_of_map_to_list.
  - intros k Hn. apply Hrest. rewrite point_ids_map_to_list by done.
    by apply keys_not_elem_of.
Qed.
(** C26 (safety).  [embed_update] answers 404 for an unknown point and
    writes nothing; otherwise it writes at most the row of its point. *)
Theorem embed_update_touches_one_row rq pid db k :
  points_keyed db -> k <> pid ->
  (is_admin rq = true -> points db !! pid = None ->
     embed_update compose rq pid db = (Err 404 "Not found.", db)) /\
  exists embs', snd (embed_update compose rq pid db) = set_embeddings db embs' /\
    embs' !! k = embeddings db !! k.
Proof.
  intros Hk Hne. split; [unfold embed_update; by intros -> ->|].
  unfold embed_update. destruct (is_admin rq);
    [|exists (embeddings db); by rewrite set_embeddings_same].
  destruct (points db !! pid) as [p|] eqn:Hp;
    [|exists (embeddings db); by rewrite set_embeddings_same].
  destruct (compose db p) as [|t]; [exists (embeddings db); by rewrite set_embeddings_same|].
  destruct (generate_embedding t) as [|v];
    [exists (embeddings db); by rewrite set_embeddings_same|].
  eexists. split; [reflexivity|]. unfold update_or_create.
  rewrite (Hk pid p Hp). by apply lookup_insert_ne.
Qed.

(** The three views keep every embedding row keyed by an existing
    point. *)
Lemma embedding_views_preserve_wf rq pid db :
  points_keyed db -> embeddings_wf db ->
  embeddings_wf (snd (embed_missing compose rq db)) /\
  embeddings_wf (snd (embed_refresh compose rq db)) /\
  embeddings_wf (snd (embed_update compose rq pid db)).
Proof.
  intros Hk Hwf. split; [|split].
  - unfold embed_missing. destruct (is_admin rq); [|done].
    pose proof (embed_missing_loop_grows compose db (req_now rq) (map_to_list (points db))
                  (embeddings db) 0 (listed_map_to_list db Hk)) as Hg.
    destruct (embed_missing_loop _ _ _ _ _ _) as [r embs]. by apply grows_within_wf.
  - unfold embed_refresh. destruct (is_admin rq); [|done].
    destruct (embed_refresh_loop _ _ _ _ _ _) as [e|[m embs]] eqn:Hrun; [done|].
    apply grows_within_wf; [done|].
    eapply embed_refresh_loop_grows; [by apply listed_map_to_list|exact Hrun].
  - unfold embed_update. destruct (is_admin rq); [|done].
    destruct (points db !! pid) as [p|] eqn:Hp; [|done].
    destruct (compose db p) as [|t]; [done|].
    destruct (generate_embedding t) as [|v]; [done|].
    apply grows_within_wf; [done|]. apply grows_within_insert.
    by rewrite (Hk pid p Hp).
Qed.
End EmbeddingClaims.

(** C20 (safety).  Wired to the source's [build_point_text], which always
    raises, none of the three embedding views ever changes the
    database. *)
Theorem source_embedding_views_never_write {client : EmbeddingClient} rq pid db :
  snd (EmbedMissingPointsView_post rq db) = db /\
  snd (EmbedRefreshPointsView_post rq db) = db /\
  snd (EmbedUpdatePointView_post rq pid db) = db.
Proof.
  pose proof (build_point_text_inl db) as Hf.
  unfold EmbedMissingPointsView_post, EmbedRefreshPointsView_post, EmbedUpdatePointView_post.
  split; [|split].
  - unfold embed_missing. destruct (is_admin rq); [|done].
    pose proof (embed_missing_loop_compose_fails build_point_text db (req_now rq)
                  (map_to_list (points db)) (embeddings db) 0 Hf) as Hs.
    destruct (embed_missing_loop _ _ _ _ _ _) as [r embs]. simpl in *. subst embs.
    apply set_embeddings_same.
  - unfold embed_refresh. destruct (is_admin rq); [|done].
    destruct (embed_refresh_loop _ _ _ _ _ _) as [e|[m embs]] eqn:Hrun; [done|].
    apply embed_refresh_loop_compose_fails in Hrun; [|done]. subst embs.
    apply set_embeddings_same.
  - unfold embed_update. destruct (is_admin rq); [|done].
    destruct (points db !! pid) as [p|]; [|done].
    by destruct (Hf p) as [e ->].
Qed.

(** ** Sample clients *)

Definition sample_vector (t : string) : list Q := [inject_Z (Z.of_nat (String.length t))].

(** A client that always answers. *)
Definition sample_client : EmbeddingClient := fun t => inr (sample_vector t).

(** A client that refuses an empty text. *)
Definition flaky_client : EmbeddingClient :=
  fun t => if String.eqb t "" then inl ProviderError else inr (sample_vector t).

(** ** Examples and witnesses *)

Definition label_text : DB -> Point -> Exception + string := build_point_text_with "label".

Definition sample_embedding : PointEmbedding := mkPointEmbedding "1" [1%Q] 0.

Definition sample_db_embedded : DB := set_embeddings sample_db {[ "1" := sample_embedding ]}.

(** The repository's [generate_embedding] in the update view: an SDK
    response without [data] items makes the view raise [IndexError] (a
    500) without writing; of two items the first is stored. *)
Example openai_generate_embedding_in_update :
  @embed_update (@openai_client (fun _ _ => inr [])) label_text admin_rq "1" sample_db
    = (Raised IndexError, sample_db) /\
  embeddings (snd (@embed_update (@openai_client (fun _ _ => inr [[1%Q]; [2%Q]])) label_text
                     admin_rq "1" sample_db)) !! "1"
    = Some (mkPointEmbedding "1" [1%Q] (req_now admin_rq)).
Proof. split; vm_compute; reflexivity. Qed.

(** C24 (error).  [embed_refresh] runs in one transaction: whatever the
    client and the composer, when it raises, the database is the one it
    started from.  [embed_missing] has none: when the client fails on the
    second point, the embedding of the first point stays created although
    the view answers with an exception, while [embed_refresh], in the same
    situation, leaves the table as it was. *)
Theorem embed_refresh_atomic :
  (forall (client : EmbeddingClient) compose rq db e db',
     @embed_refresh client compose rq db = (Raised e, db') -> db' = db) /\
  fst (@embed_missing flaky_client label_text admin_rq sample_db) = Raised ProviderError /\
  is_Some (embeddings (snd (@embed_missing flaky_client label_text admin_rq sample_db)) !! "1") /\
  embeddings (snd (@embed_missing flaky_client label_text admin_rq sample_db)) !! "2" = None /\
  @embed_refresh flaky_client label_text admin_rq sample_db = (Raised ProviderError, sample_db).
Proof.
  split; [intros client; apply embed_refresh_raised_unchanged|].
  vm_compute. repeat split; by eexists.
Qed.

Lemma embed_missing_creates_missing_witness :
  embeddings (snd (@embed_missing flaky_client label_text admin_rq sample_db_embedded)) !! "1"
    = Some sample_embedding /\
  exists embs', @embed_missing sample_client label_text admin_rq sample_db
                = (Ok 201 2%nat, set_embeddings sample_db embs').
Proof.
  split.
  - apply (proj1 (embed_missing_creates_missing (client := flaky_client) label_text admin_rq
             sample_db_embedded) "1" sample_embedding).
    vm_compute. reflexivity.
  - destruct (proj2 (embed_missing_creates_missing (client := sample_client) label_text admin_rq sample_db))
      as [embs' [Hrun _]];
      [reflexivity
      |apply map_Forall_to_list; vm_compute; repeat constructor
      |apply map_Forall_to_list; vm_compute; repeat constructor|].
    exists embs'. rewrite Hrun. reflexivity.
Defined.

Lemma embed_missing_idempotent_witness :
  @embed_missing sample_client label_text admin_rq
    (snd (@embed_missing sample_client label_text admin_rq sample_db))
  = (Ok 201 0%nat, snd (@embed_missing sample_client label_text admin_rq sample_db)).
Proof.
  apply (embed_missing_idempotent (client := sample_client) label_text admin_rq sample_db 2).
  vm_compute. reflexivity.
Defined.

Lemma embed_refresh_atomic_witness :
  snd (@embed_refresh flaky_client label_text admin_rq sample_db) = sample_db.
Proof.
  apply (proj1 embed_refresh_atomic flaky_client label_text admin_rq sample_db ProviderError).
  vm_compute. reflexivity.
Defined.

Lemma embed_refresh_replaces_all_witness :
  exists embs', @embed_refresh sample_client label_text admin_rq sample_db
                = (Ok 200 2%nat, set_embeddings sample_db embs').
Proof.
  destruct (embed_refresh_replaces_all (client := sample_client) label_text admin_rq sample_db)
    as [embs' [Hrun _]];
    [reflexivity
    |apply map_Forall_to_list; vm_compute; repeat constructor
    |apply map_Forall_to_list; vm_compute; repeat constructor|].
  exists embs'. exact Hrun.
Defined.

Lemma embed_update_touches_one_row_witness :
  exists embs', snd (@embed_update sample_client label_text admin_rq "1" sample_db_embedded)
                = set_embeddings sample_db_embedded embs' /\
                embs' !! "2" = embeddings sample_db_embedded !! "2".
Proof.
  apply (embed_update_touches_one_row (client := sample_client) label_text admin_rq "1"
           sample_db_embedded "2");
    [apply map_Forall_to_list; vm_compute; repeat constructor|discriminate].
Defined.

