(* ===== verification/Routes.v ===== *)
(** * The route views of [src/apps/routes/views.py]

    The five authenticated views of the route lifecycle, each a function
    from a request, its data and the database to a response and the new
    database:
    - [GenerateRouteView.post] (lines 65-91) validates [city_id] and
      [duration_minutes] and answers with the generator's route, which
      it does not store;
    - [EditRouteStatusView.post] (lines 94-134) validates the target
      status, finds the caller's route and saves its new status;
    - [CancelRouteView.post] (lines 138-177) finds the caller's route,
      sets its status on the in-memory object only (there is no
      [save()]) and appends one feedback row;
    - [RouteDetailView.get] (lines 181-218) projects the caller's route;
    - [FeedbackView.post] (lines 221-268) finds the caller's route,
      checks the rating and appends one feedback row.

    The generator [generate_route_stub] of
    [src/apps/routes/generator/generator.py] is one instance of the
    interface [RouteGenerator]; [uuid.uuid4()] is the request's
    [req_uuid].  Request fields are the values [request.data.get] reads
    ([None] when absent): decoded JSON values where the code inspects
    them ([city_id], [duration_minutes], [rating]), strings where it
    only compares or stores them. *)

From Stdlib Require Import String Ascii ZArith QArith.
From stdpp Require Import base gmap list strings.
From S2P Require Import Prelude Model.

(** ** Messages of the error answers *)

Definition route_id_required := "route_id обязателен".
Definition route_not_found := "Маршрут не найден или не принадлежит пользователю".
Definition rating_out_of_range := "rating должен быть от 1 до 5".
Definition generate_fields_required := "city_id и duration_minutes обязательны".

(** Python's [str()] of an optional string inside an f-string. *)
Definition py_str (o : option string) : string :=
  match o with Some s => s | None => "None" end.

Definition invalid_status_msg (s : option string) : string :=
  "Недопустимый статус: " +:+ py_str s.

(** ** The route generator *)

(** The arguments of [generate_route_stub]: the decoded JSON values the
    view read, and the caller's id. *)
Record GenRequest := mkGenRequest {
  g_city_id : Json;
  g_time_of_day : Json;
  g_interests : Json;
  g_mood : Json;
  g_budget : Json;
  g_transport : Json;
  g_duration_minutes : Json;
  g_description : Json;
  g_user : nat
}.

Record GenPoint := mkGenPoint {
  gp_id : string;
  gp_name : string;
  gp_description : string;
  gp_image_url : string;
  gp_visit_time : string;
  gp_tags : list string;
  gp_lat : Q;
  gp_lng : Q
}.

Record GenRoute := mkGenRoute {
  gr_route_id : string;
  gr_user_id : nat;
  gr_map_url : string;
  gr_points : list GenPoint
}.

(** What the generator promises: a route for a request, or an exception,
    the value drawn by [uuid.uuid4()] being its first argument. *)
Class RouteGenerator := generate_route : string -> GenRequest -> Exception + GenRoute.

(** [generate_route_stub]: a fixed pair of points; the concatenation
    ["https://yandex.ru/maps/?text=" + city_id] raises [TypeError] when
    [city_id] is not a string. *)
Definition generate_route_stub (uuid : string) (g : GenRequest) : Exception + GenRoute :=
  match g_city_id g with
  | JStr c => inr
  {| gr_route_id := substring 0 8 uuid;
     gr_user_id := g_user g;
     gr_map_url := "https://yandex.ru/maps/?text=" +:+ c;
     gr_points :=
       [ mkGenPoint "1" "Парк Горького"
           "Один из самых популярных парков города — идеально для прогулки вечером."
           "https://example.com/gorky.jpg" "30 мин" ["🌳"; "💸 0 ₽"; "🚶 10 мин"]
           (55792 # 1000) (37586 # 1000);
         mkGenPoint "2" "ВкусОчка" "Элитный ресторан Москвы"
           "https://example.com/gorky.jpg" "30 мин" ["🌳"; "💸 1 ₽"; "🚶 10 мин"]
           (55792 # 1000) (37586 # 1000) ] |}
  | _ => inl TypeError
  end.

#[export] Instance stub_generator : RouteGenerator := generate_route_stub.

(** ** [GenerateRouteView.post] *)

(** The values [request.data.get] reads: [JNull] for an absent key
    ([None]), except [interests] and [mood], read with the default
    [[]]. *)
Record GenerateInput := mkGenerateInput {
  in_city_id : Json;
  in_time_of_day : Json;
  in_interests : Json;
  in_mood : Json;
  in_budget : Json;
  in_transport : Json;
  in_duration_minutes : Json;
  in_description : Json
}.

(** [if not city_id or not duration_minutes]: 400; otherwise the
    generator's route, or the exception it raises. *)
Definition generate_route_view `{RouteGenerator} (rq : Request) (inp : GenerateInput)
    (db : DB) : Response GenRoute * DB :=
  match req_user rq with
  | None => (deny rq, db)
  | Some u =>
      if json_truthy (in_city_id inp) && json_truthy (in_duration_minutes inp) then
        match generate_route (req_uuid rq)
                (mkGenRequest (in_city_id inp) (in_time_of_day inp) (in_interests inp) (in_mood inp)
                   (in_budget inp) (in_transport inp) (in_duration_minutes inp) (in_description inp)
                   (user_id u)) with
        | inl e => (Raised e, db)
        | inr g => (Ok 200 g, db)
        end
      else (Err 400 generate_fields_required, db)
  end.

(** ** [EditRouteStatusView.post] *)

Record StatusChange := mkStatusChange {
  sc_route_id : string;
  sc_new_status : WalkStatus;
  sc_updated_at : Z
}.

(** [route.save(update_fields=["status"])]: only the status column. *)
Definition save_status (db : DB) (r : Route) (s : WalkStatus) : DB :=
  set_routes db (<[route_id r := with_status r s]> (routes db)).

Definition edit_route_status (rq : Request) (route_id_in new_status : option string)
    (db : DB) : Response StatusChange * DB :=
  match req_user rq with
  | None => (deny rq, db)
  | Some u =>
      match route_id_in with
      | Some rid =>
          if truthy (Some rid) then
            match new_status ≫= parse_status with
            | None => (Err 400 (invalid_status_msg new_status), db)
            | Some s =>
                match get_owned_route db rid (user_id u) with
                | None => (Err 404 route_not_found, db)
                | Some r =>
                    (Ok 200 (mkStatusChange (route_id r) s (req_now rq)), save_status db r s)
                end
            end
          else (Err 400 route_id_required, db)
      | None => (Err 400 route_id_required, db)
      end
  end.

(** ** [CancelRouteView.post] *)

Record CancelData := mkCancelData {
  cd_route_id : string;
  cd_status : WalkStatus;
  cd_cancel_reason : option string;
  cd_updated_at : Z
}.

(** [Feedback.objects.create(...)]: the primary key is [uuid4()]; a key
    already used violates it. *)
Definition create_feedback (db : DB) (f : Feedback) : Exception + DB :=
  if bool_decide (fb_id f ∈ map fb_id (feedbacks db)) then inl IntegrityError
  else inr (set_feedbacks db (feedbacks db ++ [f])).

Definition cancel_route (rq : Request) (route_id_in reason : option string) (db : DB)
    : Response CancelData * DB :=
  match req_user rq with
  | None => (deny rq, db)
  | Some u =>
      match route_id_in with
      | Some rid =>
          if truthy (Some rid) then
            match get_owned_route db rid (user_id u) with
            | None => (Err 404 route_not_found, db)
            | Some r =>
                (* [route.status = CANCELLED] changes the object, not the row. *)
                let route := with_status r CANCELLED in
                match create_feedback db
                        (mkFeedback (req_uuid rq) (route_id route) (Some (user_id u)) None
                           reason false (req_now rq)) with
                | inl e => (Raised e, db)
                | inr db' =>
                    (Ok 200 (mkCancelData (route_id route) (status route) reason (req_now rq)), db')
                end
            end
          else (Err 400 route_id_required, db)
      | None => (Err 400 route_id_required, db)
      end
  end.

(** ** [RouteDetailView.get] *)

Record PointView := mkPointView {
  pv_id : string;
  pv_name : string;
  pv_description : string;
  pv_image_url : option string;
  pv_lat : Q;
  pv_lng : Q
}.

(** [float(p.coordinates_lat)]: the decimal in millionths, read as a
    rational. *)
Definition point_view (p : Point) : PointView :=
  mkPointView (point_id p) (point_name p) (point_description p) (point_image_url p)
    (coordinates_lat p # 1000000) (coordinates_lng p # 1000000).

Record RouteDetail := mkRouteDetail {
  rd_route_id : string;
  rd_user_id : option nat;
  rd_description : option string;
  rd_total_duration : Z;
  rd_total_cost : option Z;
  rd_status : WalkStatus;
  rd_point_sequence : Json;
  rd_points : list PointView;
  rd_created_at : Z;
  rd_updated_at : option Z
}.

(** [route.points.all()]: the rows of the point set, in the order the
    table yields them. *)
Definition route_points_all (db : DB) (r : Route) : list Point :=
  omap (fun k => points db !! k) (elements (route_points r)).

(** [Route] has no [updated_at] attribute, so [hasattr] is false and the
    field is always [None]. *)
Definition route_detail (rq : Request) (id_route : string) (db : DB) : Response RouteDetail :=
  match req_user rq with
  | None => deny rq
  | Some u =>
      match get_owned_route db id_route (user_id u) with
      | None => Err 404 route_not_found
      | Some r =>
          Ok 200 (mkRouteDetail (route_id r) (route_user r) (route_description r)
                    (total_duration r) (total_cost r) (status r) (point_sequence r)
                    (map point_view (route_points_all db r)) (created_at r) None)
      end
  end.

(** ** [FeedbackView.post] *)

(** [int(x)] on a decoded JSON value: [bool] is an [int], a [float] is
    truncated toward zero, a string is parsed, anything else raises
    [TypeError]. *)
Definition json_int (j : Json) : Exception + Z :=
  match j with
  | JBool b => inr (if b then 1 else 0)%Z
  | JNum n => inr n
  | JFloat q => inr (Z.quot (Qnum q) (Zpos (Qden q)))
  | JStr s => match parse_int s with Some n => inr n | None => inl ValueError end
  | _ => inl TypeError
  end.

Record FeedbackData := mkFeedbackData {
  fd_route_id : string;
  fd_user_id : nat;
  fd_rating : Json;
  fd_comment : option string;
  fd_created_at : Z
}.

(** The test [if rating is not None and (int(rating) < 1 or int(rating) > 5)]
    of lines 243-247: the value the integer field will store, the 400, or
    the exception [int()] raises. *)
Inductive RatingCheck :=
| RatingOk (stored : option Z)
| RatingOutOfRange
| RatingRaises (e : Exception).

Definition check_rating (j : Json) : RatingCheck :=
  match j with
  | JNull => RatingOk None
  | _ =>
      match json_int j with
      | inl e => RatingRaises e
      | inr n => if (n <? 1)%Z || (5 <? n)%Z then RatingOutOfRange else RatingOk (Some n)
      end
  end.

(** The rating arrives as any JSON value ([JNull] when absent); the row
    stores [int(rating)], while the answer echoes the value as given. *)
Definition feedback_view (rq : Request) (route_id_in : option string) (rating_in : Json)
    (comment_in : option string) (db : DB) : Response FeedbackData * DB :=
  match req_user rq with
  | None => (deny rq, db)
  | Some u =>
      match route_id_in with
      | Some rid =>
          if truthy (Some rid) then
            match get_owned_route db rid (user_id u) with
            | None => (Err 404 route_not_found, db)
            | Some r =>
                match check_rating rating_in with
                | RatingRaises e => (Raised e, db)
                | RatingOutOfRange => (Err 400 rating_out_of_range, db)
                | RatingOk stored =>
                    match create_feedback db
                            (mkFeedback (req_uuid rq) (route_id r) (Some (user_id u)) stored
                               comment_in false (req_now rq)) with
                    | inl e => (Raised e, db)
                    | inr db' =>
                        (Ok 201 (mkFeedbackData (route_id r) (user_id u) rating_in comment_in
                                   (req_now rq)), db')
                    end
                end
            end
          else (Err 400 route_id_required, db)
      | None => (Err 400 route_id_required, db)
      end
  end.

(** ** Lemmas *)

Lemma create_feedback_fresh db f :
  fb_id f ∉ map fb_id (feedbacks db) ->
  create_feedback db f = inr (set_feedbacks db (feedbacks db ++ [f])).
Proof. intros Hf. unfold create_feedback. by rewrite bool_decide_eq_false_2. Qed.

Lemma create_feedback_taken db f :
  fb_id f ∈ map fb_id (feedbacks db) -> create_feedback db f = inl IntegrityError.
Proof. intros Hf. unfold create_feedback. by rewrite bool_decide_eq_true_2. Qed.

Lemma get_owned_route_key db rid u r :
  get_owned_route db rid u = Some r -> routes db !! rid = Some r.
Proof. intros [Hr _]%get_owned_route_Some. done. Qed.

Lemma with_status_status r s : status (with_status r s) = s.
Proof. done. Qed.

Lemma with_status_user r s : route_user (with_status r s) = route_user r.
Proof. done. Qed.

#[export] Hint Rewrite with_status_status with_status_user : tropka_rw.
#[export] Hint Resolve get_owned_route_key create_feedback_fresh : tropka.

Lemma match_not_null {A} (j : Json) (x y : A) :
  j <> JNull -> match j with JNull => x | _ => y end = y.
Proof. by destruct j. Qed.

Lemma check_rating_stored j n : check_rating j = RatingOk (Some n) -> (1 <= n <= 5)%Z.
Proof.
  unfold check_rating. destruct j; try discriminate;
    destruct (json_int _) as [|m]; try discriminate;
    destruct (m <? 1)%Z eqn:H1, (5 <? m)%Z eqn:H2; simpl; try discriminate;
    intros [= <-]; apply Z.ltb_ge in H1, H2; lia.
Qed.

(** The route rows are stored under their own primary key. *)
Definition routes_keyed (db : DB) : Prop :=
  map_Forall (fun k r => route_id r = k) (routes db).

(** ** Theorems *)

(** C15 (functional).  The owner of a route changes its status to any
    value of [WalkStatus.values]: the answer carries the route id, the new
    status and the request time, only the status column of that row
    changes, no other table changes, and the detail view then reports the
    new status. *)
Theorem edit_route_status_by_owner rq u rid v s r db :
  req_user rq = Some u -> rid <> "" -> parse_status v = Some s ->
  routes_keyed db -> get_owned_route db rid (user_id u) = Some r ->
  exists db', edit_route_status rq (Some rid) (Some v) db
                = (Ok 200 (mkStatusChange rid s (req_now rq)), db') /\
    routes db' !! rid = Some (with_status r s) /\
    (forall k, k <> rid -> routes db' !! k = routes db !! k) /\
    feedbacks db' = feedbacks db /\ points db' = points db /\
    exists d, route_detail rq rid db' = Ok 200 d /\ rd_status d = s.
Proof.
  intros Hu Hrid Hs Hk Hr.
  pose proof (get_owned_route_key _ _ _ _ Hr) as Hrr.
  apply get_owned_route_Some in Hr as [_ Hown].
  assert (route_id r = rid) as Hid by exact (Hk rid r Hrr).
  unfold edit_route_status. rewrite Hu, truthy_Some by done. simpl. rewrite Hs.
  assert (get_owned_route db rid (user_id u) = Some r) as Hg
    by (apply get_owned_route_Some; done).
  rewrite Hg, Hid. eexists. split; [reflexivity|]. unfold save_status. simpl.
  rewrite Hid. split; [apply lookup_insert_eq|]. split; [intros k Hne; by apply lookup_insert_ne|].
  do 2 (split; [done|]). unfold route_detail. rewrite Hu.
  assert (get_owned_route (set_routes db (<[rid:=with_status r s]> (routes db))) rid (user_id u)
          = Some (with_status r s)) as ->.
  { apply get_owned_route_Some. simpl. split; [apply lookup_insert_eq|done]. }
  by eexists.
Qed.

(** C14 (safety).  A route the caller does not own, whether it
    belongs to another user, to no user or does not exist, is answered
    with the same 404 by every route view, and nothing is written; the
    feedback view answers 404 before it looks at the rating. *)
Theorem foreign_route_not_found rq u rid db :
  req_user rq = Some u -> rid <> "" -> get_owned_route db rid (user_id u) = None ->
  (forall v, parse_status v <> None ->
     edit_route_status rq (Some rid) (Some v) db = (Err 404 route_not_found, db)) /\
  (forall reason, cancel_route rq (Some rid) reason db = (Err 404 route_not_found, db)) /\
  (forall rating comment,
     feedback_view rq (Some rid) rating comment db = (Err 404 route_not_found, db)) /\
  route_detail rq rid db = Err 404 route_not_found.
Proof.
  intros Hu Hrid Hg. split; [|split; [|split]].
  - intros v Hv. unfold edit_route_status. rewrite Hu, truthy_Some by done. simpl.
    destruct (parse_status v); [by rewrite Hg|done].
  - intros reason. unfold cancel_route. by rewrite Hu, truthy_Some, Hg.
  - intros rating comment. unfold feedback_view. by rewrite Hu, truthy_Some, Hg.
  - unfold route_detail. by rewrite Hu, Hg.
Qed.

(** C17 (error).  A target status outside [WalkStatus.values]
    (or no status at all) is answered 400 before the route is looked up,
    so for any route id, owned or not, and nothing is written. *)
Theorem edit_route_status_invalid rq u rid v db :
  req_user rq = Some u -> rid <> "" -> (v ≫= parse_status) = None ->
  edit_route_status rq (Some rid) v db = (Err 400 (invalid_status_msg v), db).
Proof. intros Hu Hrid Hv. unfold edit_route_status. by rewrite Hu, truthy_Some, Hv. Qed.

(** C13 (functional).  Cancelling a route of the caller answers
    "cancelled" and appends exactly one feedback row, with the reason as
    comment, no rating and [going = false]; but the route row is not
    saved, so its status in the database and in the detail view stays
    what it was. *)
Theorem cancel_route_not_saved rq u rid reason r db :
  req_user rq = Some u -> rid <> "" -> get_owned_route db rid (user_id u) = Some r ->
  req_uuid rq ∉ map fb_id (feedbacks db) ->
  exists db', cancel_route rq (Some rid) reason db
                = (Ok 200 (mkCancelData (route_id r) CANCELLED reason (req_now rq)), db') /\
    feedbacks db' = (feedbacks db ++
      [mkFeedback (req_uuid rq) (route_id r) (Some (user_id u)) None reason false (req_now rq)])%list /\
    routes db' = routes db /\
    exists d, route_detail rq rid db' = Ok 200 d /\ rd_status d = status r.
Proof.
  intros Hu Hrid Hg Hfresh. unfold cancel_route. rewrite Hu, truthy_Some, Hg by done.
  rewrite create_feedback_fresh by done. eexists. split; [reflexivity|].
  split; [done|]. split; [done|]. unfold route_detail. rewrite Hu.
  assert (get_owned_route (set_feedbacks db (feedbacks db ++
            [mkFeedback (req_uuid rq) (route_id (with_status r CANCELLED)) (Some (user_id u))
               None reason false (req_now rq)])%list) rid (user_id u) = Some r) as -> by exact Hg.
  by eexists.
Qed.

(** C16 (error).  For a route of the caller and a rating that is not
    JSON null: a rating [int()] cannot read (a non-numeric string, a
    list, an object) makes the view raise, a 500 and not the 400 of an
    out-of-range rating; an integer rating [n] outside 1..5 is answered
    400 and nothing is written; inside, one feedback row is appended
    with rating [n] after the earlier rows, which are kept as they were,
    and no route changes. *)
Theorem feedback_rating_bounds rq u rid j comment r db :
  req_user rq = Some u -> rid <> "" -> get_owned_route db rid (user_id u) = Some r ->
  j <> JNull ->
  (forall e, json_int j = inl e -> feedback_view rq (Some rid) j comment db = (Raised e, db)) /\
  (forall n, json_int j = inr n ->
   ((n < 1 \/ 5 < n)%Z ->
     feedback_view rq (Some rid) j comment db = (Err 400 rating_out_of_range, db)) /\
   ((1 <= n <= 5)%Z -> req_uuid rq ∉ map fb_id (feedbacks db) ->
     exists db', feedback_view rq (Some rid) j comment db
                   = (Ok 201 (mkFeedbackData (route_id r) (user_id u) j comment (req_now rq)), db') /\
       feedbacks db' = (feedbacks db ++
         [mkFeedback (req_uuid rq) (route_id r) (Some (user_id u)) (Some n) comment false
            (req_now rq)])%list /\
       routes db' = routes db)).
Proof.
  intros Hu Hrid Hg Hj. unfold feedback_view, check_rating.
  rewrite Hu, truthy_Some, Hg by done. rewrite match_not_null by done.
  split; [intros e He; by rewrite He|intros n Hn; rewrite Hn; split].
  - intros Hout. assert (((n <? 1) || (5 <? n))%Z = true) as ->; [|done].
    destruct Hout; apply orb_true_iff; [left|right]; by apply Z.ltb_lt.
  - intros Hin Hfresh. assert (((n <? 1) || (5 <? n))%Z = false) as ->.
    { apply orb_false_iff. split; apply Z.ltb_ge; lia. }
    rewrite create_feedback_fresh by done. by eexists.
Qed.

(** C19 (error).  The generate view validates before it generates: an
    authenticated caller is answered 400 exactly when [city_id] or
    [duration_minutes] is falsy in Python's sense (absent, [null], [0],
    [0.0], [false], an empty string, list or object), so a duration of 0
    is refused like a missing one while the string ["0"] is accepted;
    otherwise the answer is what the generator gives.  With the
    repository's stub the view answers with a route exactly when the
    caller is authenticated, [city_id] is a non-empty string and
    [duration_minutes] is truthy, and a truthy [city_id] that is not a
    string raises [TypeError] (a 500). *)
Theorem generate_route_validation {gen : RouteGenerator} rq inp db :
  (forall u, req_user rq = Some u ->
     (fst (@generate_route_view gen rq inp db) = Err 400 generate_fields_required <->
      json_truthy (in_city_id inp) = false \/ json_truthy (in_duration_minutes inp) = false)) /\
  (is_ok (fst (@generate_route_view stub_generator rq inp db)) = true <->
     is_Some (req_user rq) /\ (exists c, in_city_id inp = JStr c /\ c <> "") /\
     json_truthy (in_duration_minutes inp) = true) /\
  (forall u, req_user rq = Some u -> json_truthy (in_city_id inp) = true ->
     json_truthy (in_duration_minutes inp) = true -> (forall c, in_city_id inp <> JStr c) ->
     fst (@generate_route_view stub_generator rq inp db) = Raised TypeError).
Proof.
  unfold generate_route_view. split_and!.
  - intros u Hu. rewrite Hu.
    destruct (json_truthy (in_city_id inp)), (json_truthy (in_duration_minutes inp)); simpl;
      [|naive_solver..]. split; [by case_match|naive_solver].
  - destruct (req_user rq) as [u|] eqn:Hu;
      [|unfold deny; rewrite Hu; simpl; split; [discriminate|naive_solver]].
    unfold generate_route, stub_generator, generate_route_stub.
    destruct (in_city_id inp) as [|b|n|q|c|xs|kvs] eqn:Hc;
      destruct (json_truthy (in_duration_minutes inp)) eqn:Hd; simpl;
      rewrite ?andb_false_r; simpl; try (split; [discriminate|naive_solver]).
    all: try (destruct b); try (destruct (Z.eqb n 0)); try (destruct (Qeq_bool q 0));
      try (destruct (bool_decide (xs = []))); try (destruct (bool_decide (kvs = [])));
      try (destruct (String.eqb_spec c "")); simpl; naive_solver.
  - intros u Hu Hc Hd Hns. rewrite Hu, Hc, Hd. simpl.
    unfold generate_route, stub_generator, generate_route_stub. simpl.
    destruct (in_city_id inp); try done. by destruct (Hns s).
Qed.

(** C18 (safety).  The generate view never writes: the route it
    answers with is not stored, so a later status change of that route
    id by the same user is answered 404 (when no route had that id). *)
Theorem generate_route_not_stored `{RouteGenerator} rq inp db :
  snd (generate_route_view rq inp db) = db /\
  forall g v, fst (generate_route_view rq inp db) = Ok 200 g ->
    gr_route_id g <> "" -> routes db !! gr_route_id g = None -> parse_status v <> None ->
    edit_route_status rq (Some (gr_route_id g)) (Some v) (snd (generate_route_view rq inp db))
    = (Err 404 route_not_found, db).
Proof.
  assert (snd (generate_route_view rq inp db) = db) as Hdb.
  { unfold generate_route_view. repeat case_match; done. }
  split; [done|]. intros g v Hok Hid Hnone Hv. rewrite Hdb.
  destruct (req_user rq) as [u|] eqn:Hu;
    [|unfold generate_route_view, deny in Hok; rewrite Hu in Hok; discriminate].
  unfold edit_route_status. rewrite Hu, truthy_Some by done. simpl.
  destruct (parse_status v); [|done].
  unfold get_owned_route. by rewrite Hnone.
Qed.

(** ** Witnesses *)

Lemma edit_route_status_by_owner_witness :
  exists db', edit_route_status (user_rq 7) (Some "r1") (Some "done") sample_db
                = (Ok 200 (mkStatusChange "r1" DONE 600), db') /\
              exists d, route_detail (user_rq 7) "r1" db' = Ok 200 d /\ rd_status d = DONE.
Proof.
  destruct (edit_route_status_by_owner (user_rq 7) (mkUser 7 false) "r1" "done" DONE
              sample_route sample_db) as (db' & Hrun & _ & _ & _ & _ & Hd);
    [reflexivity|discriminate|reflexivity|apply map_Forall_to_list; vm_compute; repeat constructor
    |reflexivity|].
  exists db'. split; [exact Hrun|exact Hd].
Defined.

Lemma foreign_route_not_found_witness :
  edit_route_status (user_rq 8) (Some "r1") (Some "done") sample_db
    = (Err 404 route_not_found, sample_db) /\
  route_detail (user_rq 8) "r1" sample_db = Err 404 route_not_found.
Proof.
  destruct (foreign_route_not_found (user_rq 8) (mkUser 8 false) "r1" sample_db)
    as (Hedit & _ & _ & Hdet); [reflexivity|discriminate|reflexivity|].
  split; [apply Hedit; discriminate|exact Hdet].
Defined.

Lemma edit_route_status_invalid_witness :
  edit_route_status (user_rq 7) (Some "r1") (Some "finished") sample_db
    = (Err 400 "Недопустимый статус: finished", sample_db).
Proof.
  apply (edit_route_status_invalid (user_rq 7) (mkUser 7 false) "r1" (Some "finished") sample_db);
    [reflexivity|discriminate|reflexivity].
Defined.

Lemma cancel_route_not_saved_witness :
  exists db', cancel_route (user_rq 7) (Some "r1") (Some "too far") sample_db
                = (Ok 200 (mkCancelData "r1" CANCELLED (Some "too far") 600), db') /\
              exists d, route_detail (user_rq 7) "r1" db' = Ok 200 d /\ rd_status d = GOING.
Proof.
  destruct (cancel_route_not_saved (user_rq 7) (mkUser 7 false) "r1" (Some "too far")
              sample_route sample_db) as (db' & Hrun & _ & _ & Hd);
    [reflexivity|discriminate|reflexivity|vm_compute; apply not_elem_of_nil|].
  exists db'. split; [exact Hrun|exact Hd].
Defined.

Lemma feedback_rating_bounds_witness :
  feedback_view (user_rq 7) (Some "r1") (JStr "five") None sample_db
    = (Raised ValueError, sample_db) /\
  feedback_view (user_rq 7) (Some "r1") (JNum 6) None sample_db
    = (Err 400 rating_out_of_range, sample_db) /\
  exists db', feedback_view (user_rq 7) (Some "r1") (JNum 5) None sample_db
    = (Ok 201 (mkFeedbackData "r1" 7 (JNum 5) None 600), db').
Proof.
  pose proof (fun j => feedback_rating_bounds (user_rq 7) (mkUser 7 false) "r1" j None
                         sample_route sample_db eq_refl ltac:(discriminate) eq_refl) as Hb.
  split_and!.
  - apply (proj1 (Hb (JStr "five") ltac:(discriminate))). reflexivity.
  - apply (proj1 (proj2 (Hb (JNum 6) ltac:(discriminate)) 6%Z eq_refl)). lia.
  - destruct (proj2 (proj2 (Hb (JNum 5) ltac:(discriminate)) 5%Z eq_refl)) as (db' & Hrun & _);
      [lia|vm_compute; apply not_elem_of_nil|].
    by exists db'.
Defined.

Definition sample_generate_input : GenerateInput :=
  mkGenerateInput (JStr "moscow") JNull (JArr []) (JArr []) JNull JNull (JNum 90) JNull.

Lemma generate_route_not_stored_witness :
  edit_route_status (user_rq 7) (Some "a1b2c3d4") (Some "done")
    (snd (generate_route_view (user_rq 7) sample_generate_input sample_db))
  = (Err 404 route_not_found, sample_db).
Proof.
  apply (proj2 (generate_route_not_stored (user_rq 7) sample_generate_input sample_db)
           (match generate_route_stub "a1b2c3d4"
                    (mkGenRequest (JStr "moscow") JNull (JArr []) (JArr []) JNull JNull (JNum 90) JNull 7)
            with inr g => g | inl _ => mkGenRoute "" 0 "" [] end) "done");
    [reflexivity|discriminate|reflexivity|discriminate].
Defined.
