(* ===== verification/Lifecycle.v ===== *)
(** * The route lifecycle as a state machine

    Every request to a route view of [src/apps/routes/views.py] is one
    step of the relation [route_step] on the database: [handle] runs the
    view of the request (generate, edit-status, cancel, detail, feedback)
    and keeps the database it returns.  The file proves:
    - the invariant [lifecycle_inv] (route rows keyed by their id, their
      point sequence inside their point set, their points existing, every
      feedback row on an existing route with a rating in 1..5 and a
      unique id) holds in every database reachable from one where it
      holds;
    - along any sequence of requests the feedback table only grows at its
      end, no route is created or deleted, and a route changes at most in
      its status;
    - against the abstract specification of the lifecycle ([spec_*]:
      each route an owner, a status and its list of feedback records),
      the edit-status and feedback views refine their specification
      (the cancel view does not save the status it sets; [Routes.v]
      shows what it does instead). *)

From Stdlib Require Import String ZArith QArith.
From stdpp Require Import base gmap list strings relations.
From S2P Require Import Prelude Model Routes.

(** ** Requests and steps *)

Inductive RouteRequest :=
| RqGenerate (inp : GenerateInput)
| RqEditStatus (route_id_in new_status : option string)
| RqCancel (route_id_in reason : option string)
| RqDetail (id_route : string)
| RqFeedback (route_id_in : option string) (rating_in : Json) (comment_in : option string).

Definition handle `{RouteGenerator} (rq : Request) (req : RouteRequest) (db : DB) : DB :=
  match req with
  | RqGenerate inp => snd (generate_route_view rq inp db)
  | RqEditStatus rid s => snd (edit_route_status rq rid s db)
  | RqCancel rid reason => snd (cancel_route rq rid reason db)
  | RqDetail _ => db
  | RqFeedback rid j c => snd (feedback_view rq rid j c db)
  end.

Inductive route_step `{RouteGenerator} : relation DB :=
| route_step_handle rq req db : route_step db (handle rq req db).

(** ** What one step can do *)

(** A feedback row the views may append to [db]. *)
Definition good_feedback (db : DB) (f : Feedback) : Prop :=
  is_Some (routes db !! fb_route f) /\ fb_id f ∉ map fb_id (feedbacks db) /\
  (forall n, rating f = Some n -> (1 <= n <= 5)%Z).

Section Steps.
Context `{RouteGenerator}.

Lemma create_feedback_good db f db' :
  create_feedback db f = inr db' -> fb_id f ∉ map fb_id (feedbacks db) /\
  db' = set_feedbacks db (feedbacks db ++ [f])%list.
Proof. unfold create_feedback. case_bool_decide; [done|]. by intros [= <-]. Qed.

(** What one view may do to the database: leave it as it was, save the
    status of one existing route of the caller, or append one acceptable
    feedback row. *)
Definition step_outcome (rq : Request) (db db' : DB) : Prop :=
  db' = db \/
  (exists r s u, req_user rq = Some u /\ route_user r = Some (user_id u) /\
     routes db !! route_id r = Some r /\ db' = save_status db r s) \/
  (exists f, good_feedback db f /\ db' = set_feedbacks db (feedbacks db ++ [f])%list).

Lemma generate_outcome rq inp db : step_outcome rq db (snd (generate_route_view rq inp db)).
Proof. left. unfold generate_route_view. repeat case_match; done. Qed.

Lemma edit_outcome rq rid v db :
  routes_keyed db -> step_outcome rq db (snd (edit_route_status rq rid v db)).
Proof.
  intros Hk. unfold edit_route_status. repeat case_match; try by left.
  right; left. simplify_eq/=. match goal with Hg : get_owned_route _ _ _ = Some ?r |- _ =>
    apply get_owned_route_Some in Hg as [Hr Hu] end.
  do 3 eexists. split_and!; [done|done| |reflexivity]. by rewrite (Hk _ _ Hr).
Qed.

Lemma cancel_outcome rq rid reason db :
  routes_keyed db -> step_outcome rq db (snd (cancel_route rq rid reason db)).
Proof.
  intros Hk. unfold cancel_route. repeat case_match; try by left.
  right; right. simplify_eq/=.
  match goal with
  | Hg : get_owned_route _ _ _ = Some ?r, Hc : create_feedback _ _ = inr _ |- _ =>
    pose proof (get_owned_route_key _ _ _ _ Hg) as Hr;
    apply create_feedback_good in Hc as [Hf ->]
  end.
  eexists. split; [|reflexivity]. split_and!; [simpl; rewrite (Hk _ _ Hr); by eexists|done|done].
Qed.

Lemma feedback_outcome rq rid j c db :
  routes_keyed db -> step_outcome rq db (snd (feedback_view rq rid j c db)).
Proof.
  intros Hk. unfold feedback_view. repeat case_match; try by left.
  right; right. simplify_eq/=.
  match goal with
  | Hg : get_owned_route _ _ _ = Some ?r, Hc : create_feedback _ _ = inr _,
    Hck : check_rating _ = RatingOk _ |- _ =>
    pose proof (get_owned_route_key _ _ _ _ Hg) as Hr;
    apply create_feedback_good in Hc as [Hf ->]
  end.
  eexists. split; [|reflexivity]. split_and!; [simpl; rewrite (Hk _ _ Hr); by eexists|done|].
  intros n Hn. simpl in Hn. subst. by eapply check_rating_stored.
Qed.

(** Every request has one of the outcomes of a view. *)
Lemma handle_cases rq req db : routes_keyed db -> step_outcome rq db (handle rq req db).
Proof.
  intros Hk. destruct req; simpl;
    first [ apply generate_outcome | by apply edit_outcome | by apply cancel_outcome
          | by apply feedback_outcome | by left ].
Qed.

(** ** The invariant *)

(** The denormalised pair of a route: every id of [point_sequence] is in
    the point set, and every point of the set exists. *)
Definition route_wf (db : DB) (r : Route) : bool :=
  match json_string_list (point_sequence r) with
  | Some ids => forallb (fun i => bool_decide (i ∈ route_points r)) ids
  | None => false
  end &&
  forallb (fun i => bool_decide (is_Some (points db !! i))) (elements (route_points r)).

(** A feedback row is on an existing route and its rating is in 1..5. *)
Definition feedback_ok (db : DB) (f : Feedback) : bool :=
  bool_decide (is_Some (routes db !! fb_route f)) &&
  match rating f with Some n => (1 <=? n)%Z && (n <=? 5)%Z | None => true end.

Definition lifecycle_inv (db : DB) : Prop :=
  routes_keyed db /\
  map_Forall (fun _ r => route_wf db r = true) (routes db) /\
  Forall (fun f => feedback_ok db f = true) (feedbacks db) /\
  NoDup (map fb_id (feedbacks db)).

Lemma route_wf_points db db' r : points db = points db' -> route_wf db r = route_wf db' r.
Proof. intros Hp. unfold route_wf. by rewrite Hp. Qed.

Lemma route_wf_with_status db r s : route_wf db (with_status r s) = route_wf db r.
Proof. done. Qed.

Lemma feedback_ok_routes db db' f :
  (forall k, is_Some (routes db !! k) <-> is_Some (routes db' !! k)) ->
  feedback_ok db f = feedback_ok db' f.
Proof.
  intros Hd. unfold feedback_ok. f_equal. apply bool_decide_ext, Hd.
Qed.

Lemma save_status_dom db r s k :
  routes db !! route_id r = Some r ->
  is_Some (routes db !! k) <-> is_Some (routes (save_status db r s) !! k).
Proof.
  intros Hr. simpl. rewrite lookup_insert. case_decide as Hk; [subst k|done].
  rewrite Hr. split; by eexists.
Qed.

Lemma good_feedback_ok db f : good_feedback db f -> feedback_ok db f = true.
Proof.
  intros (Hr & _ & Hn). unfold feedback_ok. rewrite bool_decide_eq_true_2 by done.
  destruct (rating f) as [n|]; [|done]. destruct (Hn n eq_refl).
  rewrite !andb_true_iff, !Z.leb_le. lia.
Qed.

Lemma save_status_inv db r s :
  routes db !! route_id r = Some r -> lifecycle_inv db -> lifecycle_inv (save_status db r s).
Proof.
  intros Hr (Hk & Hwf & Hfb & Hnd). split_and!; simpl; [| | |done].
  - apply map_Forall_insert_2; [done|]. intros k r' Hk'. by apply Hk.
  - apply map_Forall_insert_2; [by rewrite route_wf_with_status; apply (Hwf _ _ Hr)|].
    intros k r' Hk'. by apply Hwf in Hk'.
  - eapply Forall_impl; [exact Hfb|]. intros f Hf.
    rewrite <- (feedback_ok_routes db); [done|]. intros k. by apply save_status_dom.
Qed.

Lemma append_feedback_inv db f :
  good_feedback db f -> lifecycle_inv db ->
  lifecycle_inv (set_feedbacks db (feedbacks db ++ [f])%list).
Proof.
  intros Hg (Hk & Hwf & Hfb & Hnd). split_and!; simpl; [done|done| |].
  - apply Forall_app; split; [done|]. constructor; [|done]. by apply (good_feedback_ok db).
  - rewrite map_app. apply NoDup_app. split_and!; [done| |by apply NoDup_singleton].
    intros i Hi Hi'. apply list_elem_of_singleton in Hi' as ->. by destruct Hg as (_ & Hf & _).
Qed.

Lemma route_step_inv db db' : route_step db db' -> lifecycle_inv db -> lifecycle_inv db'.
Proof.
  intros [rq req db0] Hinv. pose proof Hinv as (Hk & _).
  destruct (handle_cases rq req db0 Hk) as [->|[(r & s & u & _ & _ & Hr & ->)|(f & Hf & ->)]];
    [done|by apply save_status_inv|by apply append_feedback_inv].
Qed.
End Steps.

(** ** How the database evolves along requests *)

Definition evolves (db db' : DB) : Prop :=
  feedbacks db `prefix_of` feedbacks db' /\
  (forall k r, routes db !! k = Some r -> exists s, routes db' !! k = Some (with_status r s)) /\
  (forall k, routes db !! k = None -> routes db' !! k = None) /\
  points db' = points db.

Lemma with_status_twice r s s' : with_status (with_status r s) s' = with_status r s'.
Proof. done. Qed.

Lemma with_status_self r : with_status r (status r) = r.
Proof. by destruct r. Qed.

Lemma evolves_refl db : evolves db db.
Proof.
  split_and!; [done| |done|done]. intros k r Hr. exists (status r). by rewrite with_status_self.
Qed.

Lemma evolves_trans db1 db2 db3 : evolves db1 db2 -> evolves db2 db3 -> evolves db1 db3.
Proof.
  intros (Hf12 & Hr12 & Hn12 & Hp12) (Hf23 & Hr23 & Hn23 & Hp23). split_and!.
  - by trans (feedbacks db2).
  - intros k r Hr. destruct (Hr12 k r Hr) as [s Hs]. destruct (Hr23 k _ Hs) as [s' Hs'].
    exists s'. by rewrite Hs', with_status_twice.
  - intros k Hk. by apply Hn23, Hn12.
  - congruence.
Qed.

Section Evolution.
Context `{RouteGenerator}.

Lemma route_step_evolves db db' : routes_keyed db -> route_step db db' -> evolves db db'.
Proof.
  intros Hk Hs. inversion Hs as [rq req db0]; subst.
  destruct (handle_cases rq req db Hk) as [->|[(r & s & u & _ & _ & Hr & ->)|(f & Hf & ->)]].
  - apply evolves_refl.
  - split_and!; simpl; [done| | |done].
    + intros k r' Hr'. rewrite lookup_insert. case_decide as Hkr; [subst k|by exists (status r'); rewrite with_status_self].
      rewrite Hr in Hr'. simplify_eq. by exists s.
    + intros k Hn. rewrite lookup_insert_ne; [done|]. intros <-. congruence.
  - split_and!; simpl; [by apply prefix_app_r| | |done].
    + intros k r Hr. exists (status r). by rewrite with_status_self.
    + done.
Qed.

(** C1 (invariant).  In every database reachable from one that
    satisfies [lifecycle_inv] by any sequence of route requests, of any
    users, the invariant still holds: route rows keyed by their id, each
    point sequence inside its point set over existing points, every
    feedback row on an existing route with a rating in 1..5, feedback ids
    unique. *)
Theorem reachable_lifecycle_inv db db' :
  lifecycle_inv db -> rtc route_step db db' -> lifecycle_inv db'.
Proof.
  intros Hinv Hrtc. induction Hrtc as [|x y z Hxy Hyz IH]; [done|].
  apply IH. by eapply route_step_inv.
Qed.

(** C2 (safety).  Along any sequence of route requests from a
    database satisfying [lifecycle_inv], the feedback table only grows at
    its end (earlier rows are never changed or removed), no route is
    created or deleted, a route changes at most in its status, and the
    point table does not change. *)
Theorem reachable_history db db' :
  lifecycle_inv db -> rtc route_step db db' -> evolves db db'.
Proof.
  intros Hinv Hrtc. induction Hrtc as [x|x y z Hxy Hyz IH]; [apply evolves_refl|].
  eapply evolves_trans; [|apply IH; by eapply route_step_inv].
  apply route_step_evolves; [by destruct Hinv|done].
Qed.
(** C5 (liveness).  However a run of requests, of any users, has gone
    from a database satisfying [lifecycle_inv], the owner of a route can
    still give it any status, in one more request: no request locks a
    route away from its owner or removes it. *)
Theorem owner_can_always_set_status db db' u r s :
  lifecycle_inv db -> routes db !! route_id r = Some r -> route_user r = Some (user_id u) ->
  route_id r <> "" -> rtc route_step db db' ->
  exists db'', route_step db' db'' /\ routes db'' !! route_id r = Some (with_status r s).
Proof.
  intros Hinv Hr Ho Hid Hrtc.
  assert (Hev : evolves db db').
  { clear Hr Ho Hid. induction Hrtc as [x|x y z Hxy Hyz IH]; [apply evolves_refl|].
    eapply evolves_trans; [|apply IH; by eapply route_step_inv].
    apply route_step_evolves; [by destruct Hinv|done]. }
  destruct Hev as (_ & Hroutes & _ & _). destruct (Hroutes _ _ Hr) as [s0 Hs0].
  set (rq := mkRequest (Some u) 0 "").
  exists (handle rq (RqEditStatus (Some (route_id r)) (Some (status_value s))) db').
  split; [constructor|].
  unfold handle, edit_route_status, rq. cbn [req_user]. rewrite truthy_Some by done.
  change (Some (status_value s) ≫= parse_status) with (parse_status (status_value s)).
  rewrite parse_status_value.
  rewrite (proj2 (get_owned_route_Some db' (route_id r) (user_id u) _) (conj Hs0 Ho)).
  unfold save_status. simpl. by rewrite lookup_insert_eq, with_status_twice.
Qed.
End Evolution.

(** ** The abstract specification of the lifecycle *)

(** What the specification knows of a route: its owner, its status and
    the ledger of its feedback records (rating, comment, going). *)
Record ARoute := mkARoute {
  a_owner : option nat;
  a_status : WalkStatus;
  a_feedback : list (option Z * option string * bool)
}.

Notation AState := (gmap string ARoute).

Definition feedback_row (f : Feedback) : option Z * option string * bool :=
  (rating f, comment f, going f).

Definition feedback_rows (fs : list Feedback) (k : string) : list (option Z * option string * bool) :=
  map feedback_row (filter (fun f => fb_route f = k) fs).

Definition abs_route (db : DB) (r : Route) : ARoute :=
  mkARoute (route_user r) (status r) (feedback_rows (feedbacks db) (route_id r)).

(** The abstraction of a database. *)
Definition abs (db : DB) : AState := abs_route db <$> routes db.

(** The single ownership rule of the specification. *)
Definition spec_owned (A : AState) (u : nat) (rid : string) : option ARoute :=
  match A !! rid with
  | Some a => if decide (a_owner a = Some u) then Some a else None
  | None => None
  end.

Definition rating_valid (ro : option Z) : bool :=
  match ro with Some n => (1 <=? n)%Z && (n <=? 5)%Z | None => true end.

(** ChangeStatus and Feedback as the specification states them;
    a refused request leaves the state as it was. *)
Definition spec_change_status (u : nat) (rid : string) (s : WalkStatus) (A : AState) : AState :=
  match spec_owned A u rid with
  | Some a => <[rid := mkARoute (a_owner a) s (a_feedback a)]> A
  | None => A
  end.

Definition spec_feedback (u : nat) (rid : string) (ro : option Z) (c : option string)
    (A : AState) : AState :=
  match spec_owned A u rid with
  | Some a =>
      if rating_valid ro
      then <[rid := mkARoute (a_owner a) (a_status a) (a_feedback a ++ [(ro, c, false)])]> A
      else A
  | None => A
  end.

(** The rating a request carries, when [int()] can read it. *)
Definition rating_of (j : Json) : option (option Z) :=
  match j with
  | JNull => Some None
  | _ => match json_int j with inr n => Some (Some n) | inl _ => None end
  end.

(** ** Refinement lemmas *)

Lemma spec_owned_abs db u rid :
  spec_owned (abs db) u rid = abs_route db <$> get_owned_route db rid u.
Proof.
  unfold spec_owned, abs, get_owned_route. rewrite lookup_fmap.
  destruct (routes db !! rid) as [r|]; simpl; [|done]. by case_decide.
Qed.

Lemma abs_save_status db r s :
  abs (save_status db r s) = <[route_id r := abs_route db (with_status r s)]> (abs db).
Proof. unfold abs, save_status. simpl. by rewrite fmap_insert. Qed.

Lemma feedback_rows_app fs f k :
  feedback_rows (fs ++ [f]) k =
  feedback_rows fs k ++ (if decide (fb_route f = k) then [feedback_row f] else []).
Proof.
  unfold feedback_rows. rewrite filter_app, map_app. f_equal.
  rewrite filter_cons, filter_nil. by case_decide.
Qed.

Lemma abs_append db f r :
  routes_keyed db -> routes db !! fb_route f = Some r ->
  abs (set_feedbacks db (feedbacks db ++ [f])%list) =
  <[fb_route f := mkARoute (route_user r) (status r)
                    (feedback_rows (feedbacks db) (fb_route f) ++ [feedback_row f])]> (abs db).
Proof.
  intros Hk Hr. apply map_eq. intros k. unfold abs. simpl.
  rewrite lookup_insert, !lookup_fmap. case_decide as Hkf.
  - subst k. rewrite Hr. simpl. unfold abs_route. simpl.
    rewrite (Hk _ _ Hr), feedback_rows_app. by rewrite decide_True.
  - destruct (routes db !! k) as [r'|] eqn:Hr'; [|done]. simpl. unfold abs_route. simpl.
    rewrite (Hk _ _ Hr'), feedback_rows_app, decide_False by done. by rewrite app_nil_r.
Qed.

Lemma check_rating_of j ro :
  rating_of j = Some ro ->
  check_rating j = if rating_valid ro then RatingOk ro else RatingOutOfRange.
Proof.
  unfold rating_of, check_rating. intros Hro.
  assert (j = JNull \/ j <> JNull) as [->|Hj]
    by (destruct j; [left|right..]; congruence).
  { by injection Hro as <-. }
  rewrite !match_not_null in * by done.
  destruct (json_int j) as [|m]; [discriminate|]. injection Hro as <-. simpl.
  destruct (1 <=? m)%Z eqn:H1, (m <=? 5)%Z eqn:H2, (m <? 1)%Z eqn:H3, (5 <? m)%Z eqn:H4;
    simpl; try reflexivity; exfalso;
    rewrite ?Z.leb_le, ?Z.leb_gt, ?Z.ltb_lt, ?Z.ltb_ge in *; lia.
Qed.

(** ** Refinement *)

(** C3 (refinement).  Abstracted, the edit-status view is the
    specification's ChangeStatus: for an authenticated caller and a
    non-empty route id, a valid target status changes the status of the
    caller's route and nothing else, and everything else is refused
    without effect. *)
Theorem edit_route_status_refines rq u rid v db :
  req_user rq = Some u -> rid <> "" -> routes_keyed db ->
  abs (snd (edit_route_status rq (Some rid) (Some v) db)) =
  match parse_status v with
  | Some s => spec_change_status (user_id u) rid s (abs db)
  | None => abs db
  end.
Proof.
  intros Hu Hrid Hk. unfold edit_route_status, spec_change_status.
  rewrite Hu, truthy_Some by done. simpl. rewrite spec_owned_abs.
  destruct (parse_status v) as [s|]; [|done].
  destruct (get_owned_route db rid (user_id u)) as [r|] eqn:Hg; [|done]. simpl.
  rewrite abs_save_status. unfold abs_route. simpl.
  pose proof (get_owned_route_key _ _ _ _ Hg) as Hr. by rewrite (Hk _ _ Hr).
Qed.

(** C4 (refinement).  Abstracted, the feedback view is the
    specification's Feedback: for a readable rating, a valid rating
    appends one record to the ledger of the caller's route, keeping the
    earlier records, and everything else is refused without effect. *)
Theorem feedback_view_refines rq u rid j c db ro :
  req_user rq = Some u -> rid <> "" -> routes_keyed db ->
  req_uuid rq ∉ map fb_id (feedbacks db) -> rating_of j = Some ro ->
  abs (snd (feedback_view rq (Some rid) j c db)) = spec_feedback (user_id u) rid ro c (abs db).
Proof.
  intros Hu Hrid Hk Hfresh Hro. unfold feedback_view, spec_feedback.
  rewrite Hu, truthy_Some by done. rewrite spec_owned_abs.
  destruct (get_owned_route db rid (user_id u)) as [r|] eqn:Hg; [|done]. simpl.
  rewrite (check_rating_of j ro Hro). destruct (rating_valid ro); [|done].
  rewrite create_feedback_fresh by done. cbn [snd].
  pose proof (get_owned_route_key _ _ _ _ Hg) as Hr. pose proof (Hk _ _ Hr) as Hid.
  rewrite (abs_append db _ r Hk); [|simpl; by rewrite Hid]. simpl. by rewrite Hid.
Qed.

(** ** Witnesses *)

Lemma sample_lifecycle_inv : lifecycle_inv sample_db.
Proof.
  split_and!; [apply (map_Forall_by_bool _ (fun k r => bool_decide (route_id r = k)));
                 [intros ? ?; apply bool_decide_eq_true_1|vm_compute; reflexivity]
              |apply (map_Forall_by_bool _ (fun _ r => route_wf sample_db r)); [done|vm_compute; reflexivity]
              |constructor|constructor].
Qed.

Lemma reachable_lifecycle_inv_witness :
  lifecycle_inv (handle (user_rq 7) (RqFeedback (Some "r1") (JNum 5) None)
                  (handle (user_rq 7) (RqEditStatus (Some "r1") (Some "done")) sample_db)).
Proof.
  apply (reachable_lifecycle_inv sample_db); [apply sample_lifecycle_inv|].
  eapply rtc_l; [apply route_step_handle|]. apply rtc_once, route_step_handle.
Defined.

Lemma reachable_history_witness :
  evolves sample_db (handle (user_rq 7) (RqCancel (Some "r1") (Some "too far")) sample_db).
Proof.
  apply reachable_history; [apply sample_lifecycle_inv|]. apply rtc_once, route_step_handle.
Defined.

Lemma edit_route_status_refines_witness :
  abs (snd (edit_route_status (user_rq 7) (Some "r1") (Some "done") sample_db))
  = spec_change_status 7 "r1" DONE (abs sample_db).
Proof.
  apply (edit_route_status_refines (user_rq 7) (mkUser 7 false) "r1" "done" sample_db);
    [reflexivity|discriminate|apply map_Forall_to_list; vm_compute; repeat constructor].
Defined.

Lemma feedback_view_refines_witness :
  abs (snd (feedback_view (user_rq 7) (Some "r1") (JStr "5") (Some "nice") sample_db))
  = spec_feedback 7 "r1" (Some 5%Z) (Some "nice") (abs sample_db).
Proof.
  apply (feedback_view_refines (user_rq 7) (mkUser 7 false) "r1" (JStr "5") (Some "nice")
           sample_db);
    [reflexivity|discriminate|apply map_Forall_to_list; vm_compute; repeat constructor
    |vm_compute; apply not_elem_of_nil|reflexivity].
Defined.

Lemma owner_can_always_set_status_witness :
  exists db'', route_step (handle (user_rq 8) (RqCancel (Some "r1") None)
                            (handle (user_rq 7) (RqEditStatus (Some "r1") (Some "done")) sample_db)) db'' /\
    routes db'' !! route_id sample_route = Some (with_status sample_route CANCELLED).
Proof.
  apply (owner_can_always_set_status sample_db _ (mkUser 7 false)); [apply sample_lifecycle_inv|reflexivity|reflexivity|discriminate|].
  eapply rtc_l; [apply route_step_handle|]. apply rtc_once, route_step_handle.
Defined.
