(* ===== verification/Statistics.v ===== *)
(** * The user views of [src/apps/users/views.py]: route list and statistics

    - [UserRoutesListView.get] (lines 70-98): the caller's routes, newest
      first ([order_by("-created_at")]), optionally filtered by status,
      sliced by [offset] and [limit] read with [int()];
    - [UserStatisticsView.get] (lines 101-143): counts, sums, distinct
      points, last activity and the favourite city of the caller's routes.

    The queryset [Route.objects.filter(user=request.user)] is
    [user_routes], the caller's rows in table order.  [order_by] sorts
    with stdpp's [merge_sort], stable on the table order, which is one of
    the orders PostgreSQL may return for equal timestamps.  The favourite
    city is [values("city__name").annotate(cnt=Count("id"))
    .order_by("-cnt").first()]: the groups of the caller's routes by city
    name (the routes without a city form the group [None]) and, among the
    largest groups, the one met first; the source fixes no tie-break, and
    the theorems hold for this one as they would for any. *)

From Stdlib Require Import String ZArith QArith Sorting.
From stdpp Require Import base gmap list strings sorting.
From S2P Require Import Prelude Model Routes Lifecycle.

(** ** The caller's routes *)

(** [Route.objects.filter(user=request.user)] as a table ... *)
Definition owned_routes (db : DB) (uid : nat) : gmap string Route :=
  filter (fun kv => route_user kv.2 = Some uid) (routes db).

(** ... and its rows in table (primary-key) order. *)
Definition user_routes (db : DB) (uid : nat) : list Route :=
  (map_to_list (owned_routes db uid)).*2.

(** ** [UserRoutesListView.get] *)

Record RouteRow := mkRouteRow {
  rr_route_id : string;
  rr_description : option string;
  rr_total_duration : Z;
  rr_total_cost : option Z;
  rr_status : WalkStatus;
  rr_created_at : Z;
  rr_updated_at : option Z
}.

Definition route_row (r : Route) : RouteRow :=
  mkRouteRow (route_id r) (route_description r) (total_duration r) (total_cost r) (status r)
    (created_at r) None.

(** [order_by("-created_at")]. *)
Definition newer_first (a b : Route) : Prop := (created_at b <= created_at a)%Z.

#[export] Instance newer_first_dec : RelDecision newer_first.
Proof. intros a b. unfold newer_first. apply _. Defined.

(** [int(request.query_params.get(name, default))]. *)
Definition int_param (v : option string) (default : Z) : Exception + Z :=
  match v with
  | None => inr default
  | Some s => match parse_int s with Some n => inr n | None => inl ValueError end
  end.

(** [if status_filter: qs = qs.filter(status=status_filter)]. *)
Definition status_filtered (status_filter : option string) (qs : list Route) : list Route :=
  if truthy status_filter
  then filter (fun r => Some (status_value (status r)) = status_filter) qs
  else qs.

Definition user_routes_list (rq : Request) (status_filter limit offset : option string)
    (db : DB) : Response (list RouteRow) :=
  match req_user rq with
  | None => deny rq
  | Some u =>
      match int_param limit 20, int_param offset 0 with
      | inl e, _ => Raised e
      | _, inl e => Raised e
      | inr lim, inr off =>
          let qs := merge_sort newer_first (user_routes db (user_id u)) in
          let qs := status_filtered status_filter qs in
          match py_slice qs off (off + lim) with
          | None => Raised ValueError
          | Some rs => Ok 200 (route_row <$> rs)
          end
      end
  end.

(** ** [UserStatisticsView.get] *)

Record Statistics := mkStatistics {
  total_routes : nat;
  completed_routes : nat;
  active_routes : nat;
  total_duration_minutes : Z;
  total_distance_km : Q;
  total_cost_sum : Z;
  unique_places : nat;
  favourite_city : option string;
  last_activity : option Z
}.

(** [city__name] of a route: [None] for a route without a city. *)
Definition route_city_name (db : DB) (r : Route) : option string :=
  route_city r ≫= fun c => city_name <$> cities db !! c.

(** [values("city__name").annotate(cnt=Count("id"))]: the groups in the
    order they are first met. *)
Definition city_names (db : DB) (uid : nat) : list (option string) :=
  route_city_name db <$> user_routes db uid.

Fixpoint add_to_group (n : option string) (gs : list (option string * nat))
    : list (option string * nat) :=
  match gs with
  | [] => [(n, 1)]
  | (m, c) :: gs' => if decide (m = n) then (m, S c) :: gs' else (m, c) :: add_to_group n gs'
  end.

Definition city_groups (names : list (option string)) : list (option string * nat) :=
  foldl (fun gs n => add_to_group n gs) [] names.

(** [.order_by("-cnt").first()]: a largest group, the first one met. *)
Definition keep_larger (best : option (option string * nat)) (g : option string * nat)
    : option (option string * nat) :=
  match best with
  | Some b => if Nat.ltb b.2 g.2 then Some g else best
  | None => Some g
  end.

Definition first_largest (gs : list (option string * nat)) : option (option string * nat) :=
  foldl keep_larger None gs.

Definition favourite_group (db : DB) (uid : nat) : option (option string * nat) :=
  first_largest (city_groups (city_names db uid)).

(** [favourite_city["city__name"] if favourite_city else None]. *)
Definition favourite_city_name (db : DB) (uid : nat) : option string :=
  match favourite_group db uid with Some (n, _) => n | None => None end.

(** [Max("created_at")]. *)
Definition max_created (rs : list Route) : option Z :=
  foldr (fun r acc => Some (match acc with Some m => Z.max (created_at r) m
                                         | None => created_at r end)) None rs.

(** [Point.objects.filter(route__user=...).values("id").distinct().count()]. *)
Definition distinct_points (db : DB) (rs : list Route) : nat :=
  length (filter (fun k => is_Some (points db !! k)) (elements (⋃ (route_points <$> rs)))).

Definition has_status (s : WalkStatus) (r : Route) : bool := bool_decide (status r = s).

(** [Sum(...)] ignores [NULL]; [or 0] turns the sum of no row into 0. *)
Definition user_statistics (rq : Request) (db : DB) : Response Statistics :=
  match req_user rq with
  | None => deny rq
  | Some u =>
      let qs := user_routes db (user_id u) in
      Ok 200 (mkStatistics (length qs) (count_if (has_status DONE) qs)
                (count_if (has_status GOING) qs) (sum_Z (total_duration <$> qs)) 0
                (sum_Z (omap total_cost qs)) (distinct_points db qs)
                (favourite_city_name db (user_id u)) (max_created qs))
  end.

(** ** Sample data *)

Definition spb_city : City :=
  mkCity "spb" "Санкт-Петербург" None "Северная столица" None None None.

(** Sample routes after the specification's scenario: user 7 has a finished route in
    Moscow (60 minutes) and a route in Saint Petersburg they are going on
    (90 minutes); user 8 has a route of their own. *)
Definition route_moscow_done : Route :=
  mkRoute "r1" 100 60 None (Some "moscow") None (Some 7%nat)
    (JArr [JStr "1"; JStr "2"]) {[ "1"; "2" ]} DONE.

Definition route_spb_going : Route :=
  mkRoute "r2" 200 90 (Some 500%Z) (Some "spb") None (Some 7%nat) (JArr [JStr "1"]) {[ "1" ]} GOING.

Definition route_other_user : Route :=
  mkRoute "r3" 300 45 None (Some "spb") None (Some 8%nat) (JArr []) ∅ GOING.

(** User 9 has two routes without a city and one in Moscow. *)
Definition route_no_city (k : string) (t : Z) : Route :=
  mkRoute k t 30 None None None (Some 9%nat) (JArr []) ∅ DONE.

Definition stats_db : DB :=
  mkDB {[ "moscow" := sample_city; "spb" := spb_city ]} ∅ ∅ ∅
    {[ "1" := sample_point; "2" := sample_point2 ]} ∅
    {[ "r1" := route_moscow_done; "r2" := route_spb_going; "r3" := route_other_user;
       "r4" := route_no_city "r4" 400; "r5" := route_no_city "r5" 500;
       "r6" := mkRoute "r6" 600 30 None (Some "moscow") None (Some 9%nat) (JArr []) ∅ GOING ]}
    [] ∅.

(** ** Lemmas *)

Lemma elem_of_user_routes db uid r :
  r ∈ user_routes db uid <-> exists k, routes db !! k = Some r /\ route_user r = Some uid.
Proof.
  unfold user_routes, owned_routes. rewrite list_elem_of_fmap. split.
  - intros [[k r'] [-> Hk%elem_of_map_to_list]]. apply map_lookup_filter_Some in Hk. naive_solver.
  - intros (k & Hk & Hu). exists (k, r). split; [done|]. apply elem_of_map_to_list.
    by apply map_lookup_filter_Some.
Qed.

(** How many names of [names] are [n]: [Count("id")] of the group [n]. *)
Definition count_name (n : option string) (names : list (option string)) : nat :=
  count_if (fun m => bool_decide (m = n)) names.

Lemma count_name_snoc n m names :
  count_name n (names ++ [m]) = count_name n names + (if decide (m = n) then 1 else 0).
Proof.
  unfold count_name. rewrite count_if_app, count_if_cons. simpl.
  case_bool_decide; case_decide; simpl; try done; lia.
Qed.

Lemma count_name_not_elem n names : n ∉ names -> count_name n names = 0.
Proof.
  induction names as [|m names IH]; intros Hn; [done|]. unfold count_name in *.
  rewrite count_if_cons. case_bool_decide; [set_solver|]. apply IH. set_solver.
Qed.

(** The groups of [names]: one per distinct name, with its count. *)
Definition groups_ok (gs : list (option string * nat)) (names : list (option string)) : Prop :=
  NoDup gs.*1 /\ (forall m, m ∈ gs.*1 <-> m ∈ names) /\
  (forall m c, (m, c) ∈ gs -> c = count_name m names).

Lemma add_to_group_fst n gs :
  (add_to_group n gs).*1 = if bool_decide (n ∈ gs.*1) then gs.*1 else gs.*1 ++ [n].
Proof.
  induction gs as [|[m c] gs IH]; cbn [add_to_group fmap list_fmap].
  { rewrite bool_decide_false; [done|]. apply not_elem_of_nil. }
  destruct (decide (m = n)) as [->|Hmn]; rewrite !fmap_cons.
  - rewrite bool_decide_true; [done|]. apply list_elem_of_here.
  - simpl. rewrite IH. rewrite (bool_decide_ext (n ∈ m :: gs.*1) (n ∈ gs.*1)); [by case_bool_decide|].
    set_solver.
Qed.

Lemma add_to_group_elem n gs m c :
  NoDup gs.*1 -> (m, c) ∈ add_to_group n gs ->
  (m <> n /\ (m, c) ∈ gs) \/
  (m = n /\ ((n ∉ gs.*1 /\ c = 1) \/ exists c0, (n, c0) ∈ gs /\ c = S c0)).
Proof.
  induction gs as [|[m0 c0] gs IH]; simpl; intros Hnd Hin.
  - apply list_elem_of_singleton in Hin. simplify_eq. right. split; [done|]. left. set_solver.
  - apply NoDup_cons in Hnd as [Hm0 Hnd]. case_decide as Hmn; subst.
    + apply elem_of_cons in Hin as [Hin|Hin]; simplify_eq.
      * right. split; [done|]. right. exists c0. split; [apply list_elem_of_here|done].
      * left. split; [|by apply list_elem_of_further]. intros ->. apply Hm0.
        apply list_elem_of_fmap. by exists (n, c).
    + apply elem_of_cons in Hin as [Hin|Hin]; simplify_eq.
      * left. split; [done|apply list_elem_of_here].
      * destruct (IH Hnd Hin) as [[? ?]|[-> [[? ->]|(c1 & ? & ->)]]].
        -- left. split; [done|by apply list_elem_of_further].
        -- right. split; [done|]. left. set_solver.
        -- right. split; [done|]. right. exists c1. split; [by apply list_elem_of_further|done].
Qed.

Lemma add_to_group_ok n gs names :
  groups_ok gs names -> groups_ok (add_to_group n gs) (names ++ [n]).
Proof.
  intros (Hnd & Hkeys & Hcnt). split_and!.
  - rewrite add_to_group_fst. case_bool_decide; [done|].
    apply NoDup_app. split_and!; [done| |apply NoDup_singleton]. set_solver.
  - intros m. rewrite add_to_group_fst. case_bool_decide; set_solver.
  - intros m c Hin. rewrite count_name_snoc.
    destruct (add_to_group_elem n gs m c Hnd Hin) as [[Hmn Hmc]|[-> [[Hn ->]|(c0 & Hc0 & ->)]]].
    + rewrite (Hcnt _ _ Hmc), decide_False; [lia|done].
    + rewrite decide_True, count_name_not_elem; [done|set_solver|done].
    + rewrite (Hcnt _ _ Hc0), decide_True; [lia|done].
Qed.

Lemma city_groups_ok names : groups_ok (city_groups names) names.
Proof.
  induction names as [|n names IH] using rev_ind.
  - split_and!; [constructor|set_solver|set_solver].
  - unfold city_groups. rewrite foldl_app. by apply add_to_group_ok.
Qed.

Lemma keep_larger_largest gs b :
  exists g, foldl keep_larger (Some b) gs = Some g /\ g ∈ b :: gs /\
    forall g', g' ∈ b :: gs -> g'.2 <= g.2.
Proof.
  revert b. induction gs as [|x gs IH]; intros b; simpl.
  - exists b. split_and!; [done|apply list_elem_of_here|]. intros g' ->%list_elem_of_singleton. done.
  - destruct (Nat.ltb_spec b.2 x.2).
    + destruct (IH x) as (g & -> & Hg & Hmax). exists g. split_and!; [done|set_solver|].
      assert (x.2 <= g.2) by (apply Hmax, list_elem_of_here).
      intros g' [->|Hg']%elem_of_cons; [lia|by apply Hmax].
    + destruct (IH b) as (g & -> & Hg & Hmax). exists g. split_and!; [done|set_solver|].
      assert (b.2 <= g.2) by (apply Hmax, list_elem_of_here).
      intros g' [->|[->|Hg']%elem_of_cons]%elem_of_cons; [done|lia|apply Hmax; set_solver].
Qed.

Lemma first_largest_groups gs names :
  groups_ok gs names -> names <> [] ->
  exists m c, first_largest gs = Some (m, c) /\ m ∈ names /\
    forall n, count_name n names <= count_name m names.
Proof.
  intros (Hnd & Hkeys & Hcnt) Hne. destruct gs as [|x gs].
  { destruct names as [|n0 names]; [done|]. exfalso. by apply (not_elem_of_nil n0), Hkeys, list_elem_of_here. }
  destruct (keep_larger_largest gs x) as ([m c] & Hf & Hin & Hmax).
  assert (Hm : m ∈ names) by (apply Hkeys, list_elem_of_fmap; by exists (m, c)).
  exists m, c. split_and!; [done|done|]. intros n. rewrite <-(Hcnt m c Hin).
  destruct (decide (n ∈ names)) as [Hn|Hn]; [|rewrite count_name_not_elem; [lia|done]].
  apply Hkeys, list_elem_of_fmap in Hn as ([n' c'] & -> & Hn'). simpl.
  rewrite <-(Hcnt _ _ Hn'). apply (Hmax (n', c') Hn').
Qed.

Lemma status_partition l :
  length l = count_if (has_status DONE) l + count_if (has_status GOING) l +
             count_if (has_status CANCELLED) l.
Proof.
  induction l as [|r l IH]; [done|]. rewrite !count_if_cons. unfold has_status in *.
  destruct (status r); repeat case_bool_decide; simpl; try congruence; lia.
Qed.

Lemma length_user_routes db uid : length (user_routes db uid) = size (owned_routes db uid).
Proof. unfold user_routes. by rewrite length_fmap, length_map_to_list. Qed.

Lemma max_created_spec rs m :
  max_created rs = Some m <-> (exists r, r ∈ rs /\ created_at r = m) /\ forall r, r ∈ rs -> (created_at r <= m)%Z.
Proof.
  revert m. induction rs as [|r rs IH]; intros m; simpl.
  { split; [done|]. intros [(r & Hr & _) _]. by apply not_elem_of_nil in Hr. }
  destruct (max_created rs) as [m'|] eqn:E.
  - destruct (proj1 (IH m') eq_refl) as [(r' & Hr' & <-) Hle]. split.
    + intros [= <-]. split.
      * destruct (Z.max_spec (created_at r) (created_at r')) as [[_ ->]|[_ ->]];
          [exists r'; split; [by apply list_elem_of_further|done]|exists r; split; [apply list_elem_of_here|done]].
      * intros r0 [->|Hr0]%elem_of_cons; [lia|]. specialize (Hle r0 Hr0). lia.
    + intros [(r0 & Hr0 & <-) Hle0]. f_equal.
      assert (created_at r <= created_at r0)%Z by (apply Hle0, list_elem_of_here).
      assert (created_at r' <= created_at r0)%Z by (apply Hle0, list_elem_of_further, Hr').
      apply elem_of_cons in Hr0 as [->|Hr0]; [lia|]. specialize (Hle r0 Hr0). lia.
  - assert (rs = []) as ->.
    { destruct rs as [|r' rs]; [done|]. simpl in E. done. }
    split.
    + intros [= <-]. split; [exists r; split; [apply list_elem_of_here|done]|].
      intros r0 [->|Hr0]%elem_of_cons; [lia|by apply not_elem_of_nil in Hr0].
    + intros [(r0 & [->|Hr0]%elem_of_cons & <-) _]; [done|by apply not_elem_of_nil in Hr0].
Qed.

(** The two views read the database only through the caller's routes,
    the point table and the city table. *)
Lemma user_views_congr db1 db2 uid :
  owned_routes db1 uid = owned_routes db2 uid -> points db1 = points db2 ->
  cities db1 = cities db2 ->
  user_routes db1 uid = user_routes db2 uid /\ city_names db1 uid = city_names db2 uid /\
  favourite_city_name db1 uid = favourite_city_name db2 uid /\
  distinct_points db1 (user_routes db1 uid) = distinct_points db2 (user_routes db2 uid).
Proof.
  intros Ho Hp Hc. unfold favourite_city_name, favourite_group, city_names, distinct_points.
  assert (Hu : user_routes db1 uid = user_routes db2 uid) by (unfold user_routes; by rewrite Ho).
  assert (Hn : route_city_name db1 = route_city_name db2).
  { unfold route_city_name. by rewrite Hc. }
  by rewrite Hu, Hn, Hp.
Qed.

Lemma status_filtered_sublist sf qs : status_filtered sf qs `sublist_of` qs.
Proof. unfold status_filtered. destruct (truthy sf); [apply sublist_filter|done]. Qed.

Lemma elem_of_status_filtered sf qs r :
  r ∈ status_filtered sf qs -> r ∈ qs /\ (truthy sf = true -> Some (status_value (status r)) = sf).
Proof.
  unfold status_filtered. destruct (truthy sf); [|done].
  intros [? ?]%list_elem_of_filter. done.
Qed.

Lemma newer_first_total : Total newer_first.
Proof. intros a b. unfold newer_first. lia. Qed.

Lemma newer_first_trans : Transitive newer_first.
Proof. intros a b c. unfold newer_first. lia. Qed.

#[export] Hint Resolve newer_first_total newer_first_trans : tropka.

(** The queryset [Route.objects.filter(user=...).order_by("-created_at")]. *)
Lemma sorted_user_routes db uid :
  StronglySorted newer_first (merge_sort newer_first (user_routes db uid)) /\
  merge_sort newer_first (user_routes db uid) ≡ₚ user_routes db uid.
Proof.
  split; [apply StronglySorted_merge_sort; auto with tropka|apply merge_sort_Permutation].
Qed.

(** One route request of another user, or an anonymous one, leaves the
    caller's routes, the points and the cities as they are. *)
Lemma other_step_keeps_owned `{RouteGenerator} db rq req uid :
  routes_keyed db -> (forall v, req_user rq = Some v -> user_id v <> uid) ->
  owned_routes (handle rq req db) uid = owned_routes db uid /\
  points (handle rq req db) = points db /\ cities (handle rq req db) = cities db.
Proof.
  intros Hk Hv. destruct (handle_cases rq req db Hk) as [->|[(r & s & v & Hrq & Hru & Hr & ->)|(f & _ & ->)]];
    [done| |done].
  split_and!; [|done|done]. unfold owned_routes. simpl.
  specialize (Hv v Hrq). apply map_filter_insert_not'; simpl; [rewrite Hru; congruence|].
  intros y Hy. rewrite Hr in Hy. simplify_eq. rewrite Hru. congruence.
Qed.

Lemma other_steps_keep_owned `{RouteGenerator} db db' u :
  lifecycle_inv db -> rtc (fun x y => exists rq req, y = handle rq req x /\
                                  forall v, req_user rq = Some v -> user_id v <> user_id u) db db' ->
  owned_routes db' (user_id u) = owned_routes db (user_id u) /\
  points db' = points db /\ cities db' = cities db.
Proof.
  intros Hinv Hrtc. induction Hrtc as [|x y z (rq & req & -> & Hv) _ IH]; [done|].
  destruct (other_step_keeps_owned x rq req (user_id u)) as (Ho & Hp & Hc); [apply Hinv|done|].
  destruct IH as (Ho' & Hp' & Hc'); [eapply route_step_inv; [constructor|done]|].
  split_and!; congruence.
Qed.

(** ** Theorems *)

(** C28 (functional).  The statistics view answers every authenticated
    caller with 200; its counters partition the caller's routes:
    [total_routes] is the number of rows of the caller in the route
    table, and it is the sum of the [done], [going] and [cancelled]
    counts, the first two being [completed_routes] and [active_routes];
    [last_activity] is the creation time of one of the caller's routes,
    no earlier than any other, and is [None] only for a caller without
    routes. *)
Theorem user_statistics_counts rq u db :
  req_user rq = Some u ->
  exists st, user_statistics rq db = Ok 200 st /\
    total_routes st = size (owned_routes db (user_id u)) /\
    completed_routes st = count_if (has_status DONE) (user_routes db (user_id u)) /\
    active_routes st = count_if (has_status GOING) (user_routes db (user_id u)) /\
    total_routes st = completed_routes st + active_routes st +
                      count_if (has_status CANCELLED) (user_routes db (user_id u)) /\
    (forall m, last_activity st = Some m <->
       (exists r, r ∈ user_routes db (user_id u) /\ created_at r = m) /\
       forall r, r ∈ user_routes db (user_id u) -> (created_at r <= m)%Z) /\
    (last_activity st = None <-> user_routes db (user_id u) = []).
Proof.
  intros Hu. unfold user_statistics. rewrite Hu. eexists. split; [reflexivity|]. simpl.
  split_and!; [apply length_user_routes|done|done|apply status_partition|intros m; apply max_created_spec|].
  destruct (user_routes db (user_id u)); simpl; done.
Qed.


(** C30 (bounds).  The statistics stay within the tables and the column
    widths: [unique_places] is at most the number of points and at most
    the number of distinct points of the caller's routes; as every
    [total_duration] and every non-null [total_cost] is an [integer]
    value, in [-2^31 .. 2^31-1], the two sums lie between [total_routes]
    times those bounds, so that for at most 2^32 routes they are within
    the range of the [bigint] PostgreSQL's [SUM] returns. *)
Theorem user_statistics_bounds rq u db st :
  req_user rq = Some u -> user_statistics rq db = Ok 200 st ->
  unique_places st <= size (points db) /\
  unique_places st <= size (⋃ (route_points <$> user_routes db (user_id u)) : gset string) /\
  (Forall (fun r => pg_integer_min <= total_duration r <= pg_integer_max /\
                    forall c, total_cost r = Some c -> pg_integer_min <= c <= pg_integer_max)%Z
          (user_routes db (user_id u)) ->
   (Z.of_nat (total_routes st) * pg_integer_min <= total_duration_minutes st
      <= Z.of_nat (total_routes st) * pg_integer_max)%Z /\
   (Z.of_nat (total_routes st) * pg_integer_min <= total_cost_sum st
      <= Z.of_nat (total_routes st) * pg_integer_max)%Z /\
   (Z.of_nat (total_routes st) <= 2 ^ 32 ->
      pg_bigint_min <= total_duration_minutes st <= pg_bigint_max /\
      pg_bigint_min <= total_cost_sum st <= pg_bigint_max)%Z).
Proof.
  intros Hu. unfold user_statistics. rewrite Hu. intros [= <-]. simpl.
  split_and!.
  { unfold distinct_points. rewrite <-size_dom. unfold size, set_size. simpl.
    apply submseteq_length, NoDup_submseteq; [apply NoDup_filter, NoDup_elements|].
    intros k [Hk _]%list_elem_of_filter. by apply elem_of_elements, elem_of_dom. }
  { unfold distinct_points, size, set_size. simpl. apply length_filter. }
  intros Hall. unfold pg_integer_min, pg_integer_max, pg_bigint_min, pg_bigint_max in *.
  assert (Hd := sum_Z_range (total_duration <$> user_routes db (user_id u)) (-2147483648) 2147483647).
  assert (Hc := sum_Z_range (omap total_cost (user_routes db (user_id u))) (-2147483648) 2147483647).
  rewrite length_fmap in Hd. pose proof (length_omap_le total_cost (user_routes db (user_id u))).
  destruct Hd as [Hd0 Hd1]; [apply Forall_fmap; eapply Forall_impl; [exact Hall|naive_solver]|].
  destruct Hc as [Hc0 Hc1].
  { apply Forall_forall. intros c (r & Hr & Hrc)%list_elem_of_omap.
    rewrite Forall_forall in Hall. by apply (Hall r). }
  split_and!; nia.
Qed.

(** C31 (functional).  The favourite city is a city name (or [None],
    the group of the routes without a city) carried by at least as many
    of the caller's routes as any other name, and, when the caller has
    routes, it is the name of one of them. *)
Theorem favourite_city_most_routes db uid :
  (user_routes db uid <> [] -> favourite_city_name db uid ∈ city_names db uid) /\
  forall n, count_name n (city_names db uid) <= count_name (favourite_city_name db uid) (city_names db uid).
Proof.
  unfold favourite_city_name, favourite_group.
  destruct (decide (city_names db uid = [])) as [He|Hne].
  - rewrite He. split; [|intros n; unfold count_name, count_if; simpl; lia].
    intros Hr. exfalso. apply Hr. unfold city_names in He. by apply fmap_nil_inv in He.
  - destruct (first_largest_groups _ _ (city_groups_ok (city_names db uid)) Hne)
      as (m & c & -> & Hm & Hmax). done.
Qed.

(** C32 (safety).  The requests of other users, and anonymous
    requests, of any kind and along any sequence, never change what a
    user's statistics and route list report. *)
Theorem other_users_keep_user_views `{RouteGenerator} db db' u :
  lifecycle_inv db -> rtc (fun x y => exists rq req, y = handle rq req x /\
                                  forall v, req_user rq = Some v -> user_id v <> user_id u) db db' ->
  owned_routes db' (user_id u) = owned_routes db (user_id u) /\
  points db' = points db /\ cities db' = cities db /\
  forall rq sf lim off, req_user rq = Some u ->
    user_statistics rq db' = user_statistics rq db /\
    user_routes_list rq sf lim off db' = user_routes_list rq sf lim off db.
Proof.
  intros Hinv Hrtc. destruct (other_steps_keep_owned _ _ _ Hinv Hrtc) as (Ho & Hp & Hc).
  split_and!; [done|done|done|]. intros rq sf lim off Hu.
  destruct (user_views_congr _ _ _ Ho Hp Hc) as (Hr & _ & Hf & Hd).
  unfold user_statistics, user_routes_list. rewrite Hu, Hd, Hf, Hr. done.
Qed.

(** C33 (safety).  Every page of the route list holds rows of the
    caller's own routes only, newest first, each with the requested
    status when a status filter is given, and at most [limit] of them;
    without parameters, a caller with at most 20 routes gets all of
    them, each once, newest first. *)
Theorem user_routes_list_rows rq u db :
  req_user rq = Some u ->
  (forall sf lim off rows, user_routes_list rq sf lim off db = Ok 200 rows ->
   exists l rs, int_param lim 20 = inr l /\ rows = route_row <$> rs /\
    (Z.of_nat (length rs) <= Z.max 0 l)%Z /\ StronglySorted newer_first rs /\
    forall r, r ∈ rs -> (exists k, routes db !! k = Some r) /\ route_user r = Some (user_id u) /\
      (truthy sf = true -> Some (status_value (status r)) = sf)) /\
  (length (user_routes db (user_id u)) <= 20 ->
   exists rs, user_routes_list rq None None None db = Ok 200 (route_row <$> rs) /\
    rs ≡ₚ user_routes db (user_id u) /\ StronglySorted newer_first rs).
Proof.
  intros Hu. destruct (sorted_user_routes db (user_id u)) as [Hsort Hperm]. split.
  - intros sf lim off rows. unfold user_routes_list. rewrite Hu.
    destruct (int_param lim 20) as [|l]; [done|]. destruct (int_param off 0) as [|o]; [done|].
    destruct (py_slice _ _ _) as [rs|] eqn:Hs; [|done]. intros [= <-].
    pose proof (py_slice_sublist _ _ _ _ Hs) as Hsub.
    exists l, rs. split_and!; [done|done| | |].
    + apply py_slice_length in Hs. lia.
    + eapply StronglySorted_sublist; [exact Hsort|]. etrans; [exact Hsub|apply status_filtered_sublist].
    + intros r Hr. pose proof (elem_of_sublist _ _ _ Hr Hsub) as Hm.
      apply elem_of_status_filtered in Hm as [Hm Hf].
      rewrite Hperm in Hm. apply elem_of_user_routes in Hm as (k & Hk & Hr').
      split_and!; [by exists k|done|done].
  - intros Hlen. exists (merge_sort newer_first (user_routes db (user_id u))). split_and!; [|done|done].
    unfold user_routes_list. rewrite Hu. simpl. unfold py_slice, status_filtered. simpl.
    rewrite drop_0, take_ge; [done|]. rewrite Hperm. lia.
Qed.

(** C34 (error).  An authenticated list request fails with [ValueError]
    (a server error, the view has no handler) exactly when [limit] or
    [offset] is not an integer, or the offset or [offset + limit] is
    negative (Django refuses negative slice bounds). *)
Theorem user_routes_list_value_error rq u sf lim off db :
  req_user rq = Some u ->
  user_routes_list rq sf lim off db = Raised ValueError <->
  (exists s, lim = Some s /\ parse_int s = None) \/
  (exists s, off = Some s /\ parse_int s = None) \/
  (exists l o, int_param lim 20 = inr l /\ int_param off 0 = inr o /\ (o < 0 \/ o + l < 0)%Z).
Proof.
  intros Hu. unfold user_routes_list. rewrite Hu.
  destruct (int_param lim 20) as [e|l] eqn:El.
  { destruct lim as [s|]; simpl in El; [|done]. destruct (parse_int s) eqn:Es; naive_solver. }
  destruct (int_param off 0) as [e|o] eqn:Eo.
  { destruct off as [s|]; simpl in Eo; [|done]. destruct (parse_int s) eqn:Es; naive_solver. }
  assert (forall v d n, int_param v d = inr n -> ~ exists s, v = Some s /\ parse_int s = None)
    as Hok by (intros v d n Hv [s [-> Hs]]; simpl in Hv; by rewrite Hs in Hv).
  destruct (py_slice _ _ _) eqn:Es.
  - split; [done|]. apply py_slice_Some in Es. intros [Hx|[Hx|(l' & o' & [= <-] & [= <-] & Hx)]];
      [by destruct (Hok _ _ _ El)|by destruct (Hok _ _ _ Eo)|lia].
  - apply py_slice_None in Es. naive_solver.
Qed.

(** ** Witnesses *)

Lemma stats_db_inv : lifecycle_inv stats_db.
Proof.
  split_and!; [apply (map_Forall_by_bool _ (fun k r => bool_decide (route_id r = k)));
                 [intros ? ?; apply bool_decide_eq_true_1|vm_compute; reflexivity]
              |apply (map_Forall_by_bool _ (fun _ r => route_wf stats_db r)); [done|vm_compute; reflexivity]
              |constructor|constructor].
Qed.

Lemma user_statistics_counts_witness :
  exists st, user_statistics (user_rq 7) stats_db = Ok 200 st /\
    total_routes st = size (owned_routes stats_db 7) /\
    completed_routes st = count_if (has_status DONE) (user_routes stats_db 7) /\
    active_routes st = count_if (has_status GOING) (user_routes stats_db 7) /\
    total_routes st = completed_routes st + active_routes st +
                      count_if (has_status CANCELLED) (user_routes stats_db 7) /\
    (forall m, last_activity st = Some m <->
       (exists r, r ∈ user_routes stats_db 7 /\ created_at r = m) /\
       forall r, r ∈ user_routes stats_db 7 -> (created_at r <= m)%Z) /\
    (last_activity st = None <-> user_routes stats_db 7 = []).
Proof. apply (user_statistics_counts (user_rq 7) (mkUser 7 false)). reflexivity. Defined.


Lemma user_statistics_bounds_witness :
  unique_places (mkStatistics 2 1 1 150 0 500 2 (Some "Москва") (Some 200%Z)) <= size (points stats_db).
Proof.
  destruct (user_statistics_bounds (user_rq 7) (mkUser 7 false) stats_db
              (mkStatistics 2 1 1 150 0 500 2 (Some "Москва") (Some 200%Z)))
    as (Hp & _); [reflexivity|vm_compute; reflexivity|exact Hp].
Defined.

Lemma other_users_keep_user_views_witness :
  user_statistics (user_rq 7)
    (handle (user_rq 8) (RqEditStatus (Some "r3") (Some "done")) stats_db)
    = user_statistics (user_rq 7) stats_db /\
  user_routes_list (user_rq 7) (Some "going") None None
    (handle (user_rq 8) (RqEditStatus (Some "r3") (Some "done")) stats_db)
    = user_routes_list (user_rq 7) (Some "going") None None stats_db.
Proof.
  destruct (other_users_keep_user_views stats_db
    (handle (user_rq 8) (RqEditStatus (Some "r3") (Some "done")) stats_db) (mkUser 7 false))
    as (_ & _ & _ & Hv); [apply stats_db_inv| |].
  - apply rtc_once. exists (user_rq 8), (RqEditStatus (Some "r3") (Some "done")).
    split; [reflexivity|]. intros v [= <-]. simpl. lia.
  - by apply Hv.
Defined.

Lemma favourite_city_most_routes_witness :
  favourite_city_name stats_db 7 ∈ city_names stats_db 7.
Proof. apply (proj1 (favourite_city_most_routes stats_db 7)). vm_compute. discriminate. Defined.

Lemma user_routes_list_rows_witness :
  (exists l rs, int_param (Some "1") 20 = inr l /\
    [mkRouteRow "r2" None 90 (Some 500%Z) GOING 200 None] = route_row <$> rs /\
    (Z.of_nat (length rs) <= Z.max 0 l)%Z /\ StronglySorted newer_first rs /\
    forall r, r ∈ rs -> (exists k, routes stats_db !! k = Some r) /\ route_user r = Some 7%nat /\
      (truthy None = true -> Some (status_value (status r)) = None)) /\
  (exists rs, user_routes_list (user_rq 7) None None None stats_db = Ok 200 (route_row <$> rs) /\
    rs ≡ₚ user_routes stats_db 7 /\ StronglySorted newer_first rs).
Proof.
  destruct (user_routes_list_rows (user_rq 7) (mkUser 7 false) stats_db eq_refl) as [Hrows Hdef].
  split; [apply (Hrows None (Some "1") None); vm_compute; reflexivity|apply Hdef; vm_compute; lia].
Defined.

Lemma user_routes_list_value_error_witness :
  user_routes_list (user_rq 7) None (Some "5") (Some "-1") stats_db = Raised ValueError.
Proof.
  apply (user_routes_list_value_error (user_rq 7) (mkUser 7 false)); [reflexivity|].
  right; right. exists 5%Z, (-1)%Z. split_and!; [reflexivity|reflexivity|lia].
Defined.

