(* ===== verification/Catalogue.v ===== *)
(** * The catalogue: public look-ups, partner admin actions, articles

    - [src/apps/routes/views.py] [FormDataView] (lines 12-25) and
      [CityAreaView] (lines 28-62), with the serializers of
      [src/apps/routes/serializers.py]: the two views that need no login;
    - [src/apps/partners/admin.py] [PartnerAdmin]: the three bulk
      actions [activate_partners], [pause_partners] and
      [reset_monthly_stats] (a [queryset.update] over the selected rows
      followed by a message) and the [conversion_rate] column;
    - [src/apps/articles/models.py] [Article] with [get_seo_title].

    An admin action receives the queryset of the rows ticked in the
    change list: here the set [sel] of their primary keys.
    [queryset.update(...)] writes every selected row that exists and
    returns how many it matched. *)

From Stdlib Require Import String ZArith QArith.
From stdpp Require Import base gmap list strings pretty.
From S2P Require Import Prelude Model.

(** ** Serializers of [routes/serializers.py] *)






(** ** [FormDataView.get] *)


(** [Model.objects.all()]: the rows of a table in table order. *)
Definition all_rows {K A} `{Countable K} (t : gmap K A) : list A := (map_to_list t).*2.


(** ** [CityAreaView.get] *)

Record AreaRow := mkAreaRow {
  ar_name : string; ar_description : option string; ar_image_url : option string
}.

(** [area.image_url.url if area.image_url else None]: a file field is
    false when its name is empty or [NULL]; [.url] is the storage's URL
    for the name, which is the name itself for the default storage with
    Django's default [MEDIA_URL] of [""] (the settings are not in
    [src/]). *)
Definition image_url_value (f : option string) : option string :=
  match f with Some n => if String.eqb n "" then None else Some n | None => None end.

Definition area_row (a : CityArea) : AreaRow :=
  mkAreaRow (area_name a) (area_description a) (image_url_value (area_image_url a)).

Record CityAreas := mkCityAreas { ca_city_id : string; ca_city_name : string; ca_areas : list AreaRow }.

Definition city_id_required : string := "Параметр city_id обязателен".

Definition city_not_found (c : string) : string := "Город " +:+ c +:+ " не найден".

(** [CityArea.objects.filter(city=city)]. *)
Definition areas_of (db : DB) (c : string) : gmap Z CityArea :=
  filter (fun kv => area_city kv.2 = c) (areas db).

Definition city_areas (city_id_in : option string) (db : DB) : Response CityAreas :=
  match city_id_in with
  | Some c =>
      if truthy city_id_in then
        match cities db !! c with
        | None => Err 404 (city_not_found c)
        | Some city => Ok 200 (mkCityAreas (city_id city) (city_name city)
                                 (area_row <$> all_rows (areas_of db c)))
        end
      else Err 400 city_id_required
  | None => Err 400 city_id_required
  end.

(** ** [PartnerAdmin] *)

(** [queryset.update(...)] on the selected rows: the new table and the
    number of rows matched. *)
Definition queryset_update (sel : gset string) (f : Partner -> Partner)
    (t : gmap string Partner) : gmap string Partner * nat :=
  let qs := filter (fun kv => kv.1 ∈ sel) t in
  ((f <$> qs) ∪ t, size qs).

Definition set_partner_status (s : PartnerStatus) (p : Partner) : Partner :=
  mkPartner (partner_id p) (partner_name p) (partner_email p) (partner_phone p) (tier p)
    (monthly_fee p) s (total_impressions p) (impressions_this_month p) (last_impression_date p)
    (partner_created_at p).

Definition reset_month (p : Partner) : Partner :=
  mkPartner (partner_id p) (partner_name p) (partner_email p) (partner_phone p) (tier p)
    (monthly_fee p) (partner_status p) (total_impressions p) 0 (last_impression_date p)
    (partner_created_at p).

(** [f'...{updated}...']. *)
Definition count_message (before after : string) (n : nat) : string :=
  before +:+ pretty (N.of_nat n) +:+ after.

(** An action answers with the new database and the message it shows. *)
Definition run_action (sel : gset string) (f : Partner -> Partner) (before after : string)
    (db : DB) : DB * string :=
  let '(t, updated) := queryset_update sel f (partners db) in
  (set_partners db t, count_message before after updated).

Definition activate_partners (sel : gset string) (db : DB) : DB * string :=
  run_action sel (set_partner_status PActive) "Активировано " " партнеров" db.

Definition pause_partners (sel : gset string) (db : DB) : DB * string :=
  run_action sel (set_partner_status PPaused) "Приостановлено " " партнеров" db.

Definition reset_monthly_stats (sel : gset string) (db : DB) : DB * string :=
  run_action sel reset_month "Сброшена месячная статистика для " " партнеров" db.

Definition conversion_rate (p : Partner) : string := "N/A".

(** ** [articles/models.py] *)

Record Article := mkArticle {
  article_id : Z;
  title : string;
  slug : string;
  content : string;
  cover : option string;
  seo_title : option string;
  seo_description : option string;
  seo_keywords : option string;
  article_created_at : Z;
  article_updated_at : Z;
  published_at : option Z;
  is_published : bool
}.

(** [self.seo_title or self.title]: an empty SEO title is falsy. *)
Definition get_seo_title (a : Article) : string :=
  if truthy (seo_title a) then default "" (seo_title a) else title a.

(** ** Sample data *)

Definition sample_partner (k : string) (s : PartnerStatus) (month : Z) : Partner :=
  mkPartner k ("Кофейня " +:+ k) None None Basic 1000 s 120 month None 0.

Definition sample_area (k : Z) (c n : string) : CityArea :=
  mkCityArea k c n None None None None None.

(** Two cities, three areas, two partners. *)
Definition catalogue_db : DB :=
  mkDB {[ "moscow" := sample_city;
          "spb" := mkCity "spb" "Санкт-Петербург" None "Северная столица" None None None ]}
    {[ 1%Z := sample_area 1 "moscow" "Центр"; 2%Z := sample_area 2 "spb" "Васильевский остров";
       3%Z := sample_area 3 "moscow" "Хамовники" ]}
    {[ "parks" := sample_interest ]} {[ "explore" := sample_mood ]} ∅ ∅ ∅ []
    {[ "p1" := sample_partner "p1" PPaused 7; "p2" := sample_partner "p2" PSuspended 3 ]}.

(** ** Lemmas *)

Lemma queryset_update_lookup sel f t k :
  (queryset_update sel f t).1 !! k = if decide (k ∈ sel) then f <$> t !! k else t !! k.
Proof.
  unfold queryset_update; simpl. rewrite lookup_union, lookup_fmap, map_lookup_filter.
  destruct (t !! k); simpl; case_decide; simpl; try done;
    [rewrite option_guard_True by done|rewrite option_guard_False by done]; done.
Qed.

Lemma queryset_update_count sel f t :
  (queryset_update sel f t).2 = size (dom t ∩ sel).
Proof.
  unfold queryset_update; simpl. rewrite <-size_dom. f_equal.
  apply set_eq. intros k. rewrite elem_of_dom, elem_of_intersection, elem_of_dom.
  unfold is_Some. setoid_rewrite map_lookup_filter_Some. naive_solver.
Qed.

(** What an admin action does to the partner table and what it says. *)
Lemma run_action_spec sel f before after db :
  let r := run_action sel f before after db in
  r.1 = set_partners db (r.1).(partners) /\
  (forall k, partners r.1 !! k = if decide (k ∈ sel) then f <$> partners db !! k else partners db !! k) /\
  r.2 = count_message before after (size (dom (partners db) ∩ sel)).
Proof.
  unfold run_action. rewrite <-(queryset_update_count sel f (partners db)).
  destruct (queryset_update sel f (partners db)) as [t n] eqn:E. simpl. split_and!; [done| |done].
  intros k. by rewrite <-queryset_update_lookup, E.
Qed.

Lemma set_partners_twice db t t' : set_partners (set_partners db t) t' = set_partners db t'.
Proof. done. Qed.


Lemma elem_of_all_rows {K A} `{Countable K} (t : gmap K A) a :
  a ∈ all_rows t <-> exists k, t !! k = Some a.
Proof.
  unfold all_rows. rewrite list_elem_of_fmap. split.
  - intros ([k a'] & -> & Hk%elem_of_map_to_list). by exists k.
  - intros [k Hk]. exists (k, a). split; [done|]. by apply elem_of_map_to_list.
Qed.

Lemma length_all_rows {K A} `{Countable K} (t : gmap K A) : length (all_rows t) = size t.
Proof. unfold all_rows. by rewrite length_fmap, length_map_to_list. Qed.

(** Running an action [f] after an action [g] on the same selection is
    running [f] alone, when [f] overwrites what [g] writes. *)
Lemma run_action_absorb sel f g b a b' a' db :
  (forall p, f (g p) = f p) ->
  run_action sel f b a (run_action sel g b' a' db).1 = run_action sel f b a db.
Proof.
  intros Hfg.
  destruct (run_action_spec sel g b' a' db) as (Hg1 & Hg2 & _).
  destruct (run_action_spec sel f b a (run_action sel g b' a' db).1) as (Hf1 & Hf2 & Hf3).
  destruct (run_action_spec sel f b a db) as (He1 & He2 & He3).
  assert (Ht : partners (run_action sel f b a (run_action sel g b' a' db).1).1 =
               partners (run_action sel f b a db).1).
  { apply map_eq. intros k. rewrite Hf2, He2, Hg2. case_decide; [|done].
    destruct (partners db !! k); simpl; by rewrite ?Hfg. }
  assert (Hd : dom (partners (run_action sel g b' a' db).1) = dom (partners db)).
  { apply set_eq. intros k. rewrite !elem_of_dom, Hg2. case_decide; [|done].
    by rewrite fmap_is_Some. }
  apply injective_projections.
  - rewrite Hf1, Ht, He1, Hg1. done.
  - by rewrite Hf3, He3, Hd.
Qed.

(** ** Theorems *)

(** C35 (functional).  The city-area look-up answers 400 when [city_id]
    is missing or empty, 404 with the id in the message when no city has
    that id, and otherwise 200 with the city's id and name and one row
    for each area of that city, and only for those. *)
Theorem city_areas_answers q db :
  (truthy q = false -> city_areas q db = Err 400 city_id_required) /\
  (forall c, q = Some c -> c <> "" -> cities db !! c = None ->
     city_areas q db = Err 404 (city_not_found c)) /\
  (forall c city, q = Some c -> c <> "" -> cities db !! c = Some city ->
     exists rows, city_areas q db = Ok 200 (mkCityAreas (city_id city) (city_name city) rows) /\
       length rows = size (areas_of db c) /\
       forall row, row ∈ rows <-> exists k a, areas db !! k = Some a /\ area_city a = c /\ row = area_row a).
Proof.
  unfold city_areas. split_and!.
  - destruct q as [c|]; [|done]. by intros ->.
  - intros c -> Hc Hn. by rewrite truthy_Some, Hn.
  - intros c city -> Hc Hs. rewrite truthy_Some, Hs by done. eexists. split; [reflexivity|].
    split; [by rewrite length_fmap, length_all_rows|]. intros row.
    rewrite list_elem_of_fmap. setoid_rewrite elem_of_all_rows.
    unfold areas_of. setoid_rewrite map_lookup_filter_Some. naive_solver.
Qed.

(** C37 (functional).  [activate_partners] and [pause_partners] give
    every selected partner the status [active], resp. [paused];
    [reset_monthly_stats] sets [impressions_this_month] to 0 for the
    selected partners and keeps their status, tier, fee and
    [total_impressions].  Every other partner and every other table stays
    as it was, and the messages report the number of selected partners
    that exist.  Actions on one selection overwrite each other:
    activating after pausing is activating, pausing after activating is
    pausing, and resetting twice is resetting once, in the database and
    in the message. *)
Theorem partner_actions_effect sel db k p :
  partners db !! k = Some p ->
  partners (activate_partners sel db).1 !! k =
    Some (if decide (k ∈ sel) then set_partner_status PActive p else p) /\
  partners (pause_partners sel db).1 !! k =
    Some (if decide (k ∈ sel) then set_partner_status PPaused p else p) /\
  (exists p', partners (reset_monthly_stats sel db).1 !! k = Some p' /\
    impressions_this_month p' = (if decide (k ∈ sel) then 0 else impressions_this_month p)%Z /\
    total_impressions p' = total_impressions p /\ partner_status p' = partner_status p /\
    tier p' = tier p /\ monthly_fee p' = monthly_fee p) /\
  (activate_partners sel db).1 = set_partners db (partners (activate_partners sel db).1) /\
  (reset_monthly_stats sel db).1 = set_partners db (partners (reset_monthly_stats sel db).1) /\
  (activate_partners sel db).2 = "Активировано " +:+ pretty (N.of_nat (size (dom (partners db) ∩ sel))) +:+ " партнеров" /\
  (pause_partners sel db).2 = "Приостановлено " +:+ pretty (N.of_nat (size (dom (partners db) ∩ sel))) +:+ " партнеров" /\
  activate_partners sel (pause_partners sel db).1 = activate_partners sel db /\
  pause_partners sel (activate_partners sel db).1 = pause_partners sel db /\
  reset_monthly_stats sel (reset_monthly_stats sel db).1 = reset_monthly_stats sel db.
Proof.
  intros Hp. unfold activate_partners, pause_partners, reset_monthly_stats.
  destruct (run_action_spec sel (set_partner_status PActive) "Активировано " " партнеров" db)
    as (Ha1 & Ha2 & Ha3).
  destruct (run_action_spec sel (set_partner_status PPaused) "Приостановлено " " партнеров" db)
    as (_ & Hp2 & Hp3).
  destruct (run_action_spec sel reset_month "Сброшена месячная статистика для " " партнеров" db)
    as (Hr1 & Hr2 & _).
  rewrite Ha2, Hp2, Hr2, Hp.
  split_and!; [by case_decide|by case_decide| |done|done|done|done|..];
    [|apply run_action_absorb; intros q; reflexivity..].
  case_decide; eexists; (split; [reflexivity|]); simpl;
    rewrite ?decide_True, ?decide_False by done; split_and!; done.
Qed.


(** ** Witnesses *)

Lemma city_areas_answers_witness :
  city_areas (Some "") catalogue_db = Err 400 city_id_required /\
  city_areas (Some "kazan") catalogue_db = Err 404 (city_not_found "kazan") /\
  exists rows, city_areas (Some "moscow") catalogue_db =
    Ok 200 (mkCityAreas "moscow" "Москва" rows) /\ length rows = size (areas_of catalogue_db "moscow") /\
    forall row, row ∈ rows <-> exists k a, areas catalogue_db !! k = Some a /\ area_city a = "moscow" /\
                                    row = area_row a.
Proof.
  destruct (city_areas_answers (Some "moscow") catalogue_db) as (_ & _ & H).
  split_and!.
  - apply (city_areas_answers (Some "")). reflexivity.
  - apply (city_areas_answers (Some "kazan")); [reflexivity|discriminate|reflexivity].
  - apply (H "moscow" sample_city); [reflexivity|discriminate|reflexivity].
Defined.

Lemma partner_actions_effect_witness :
  partners (activate_partners {[ "p1" ]} catalogue_db).1 !! "p1" =
    Some (set_partner_status PActive (sample_partner "p1" PPaused 7)) /\
  (activate_partners {[ "p1"; "p9" ]} catalogue_db).2 = "Активировано 1 партнеров" /\
  exists p', partners (reset_monthly_stats {[ "p2" ]} catalogue_db).1 !! "p2" = Some p' /\
    impressions_this_month p' = 0%Z /\ total_impressions p' = 120%Z.
Proof.
  split_and!.
  - destruct (partner_actions_effect {[ "p1" ]} catalogue_db "p1" (sample_partner "p1" PPaused 7))
      as (H & _); [reflexivity|]. rewrite H. reflexivity.
  - destruct (partner_actions_effect {[ "p1"; "p9" ]} catalogue_db "p1" (sample_partner "p1" PPaused 7))
      as (_ & _ & _ & _ & _ & H & _); [reflexivity|]. rewrite H. vm_compute. reflexivity.
  - destruct (partner_actions_effect {[ "p2" ]} catalogue_db "p2" (sample_partner "p2" PSuspended 3))
      as (_ & _ & (p' & H1 & H2 & H3 & _) & _); [reflexivity|].
    exists p'. rewrite decide_True in H2 by set_solver. split_and!; done.
Defined.

