(* ===== verification/Auth.v ===== *)
(** * Registration, login and token refresh

    [src/apps/users/serializers.py] ([RegisterSerializer],
    [LoginSerializer], [UserSerializer]) and the views of
    [src/apps/users/views.py] that use them ([RegisterView],
    [LoginView], [RefreshView], [UserView]).

    The user table is Django's [auth.User]: a list of rows in id order,
    [username] unique.  What the repository only calls is an interface:
    - [PasswordHasher]: [make_password] and [check_password], with the
      law that a password checks against its own hash and no other;
    - [AuthValidators]: the project's [AUTH_PASSWORD_VALIDATORS] and
      Django's [EmailValidator] (settings and library code, not in the
      repository);
    - [TokenIssuer]: simplejwt's [RefreshToken.for_user] and the
      decoding of a refresh token.
    The DRF field machinery is written out: a [CharField] strips
    surrounding whitespace, refuses a missing value when required and an
    empty one unless [allow_blank], then runs its validators; a
    serializer collects the errors of every field in declaration order
    and calls [validate] only when there are none.  Strings are ASCII
    here: [str.lower], [str.strip] and NFKC normalisation act on ASCII
    as written. *)

From Stdlib Require Import String Ascii ZArith.
From stdpp Require Import base list strings.
From S2P Require Import Prelude Model.

(** ** The user table and the external services *)

Record AuthUser := mkAuthUser {
  au_id : nat;
  username : string;
  au_email : string;
  password_hash : string;
  is_active : bool;
  date_joined : Z
}.

Class PasswordHasher := {
  make_password : string -> string;
  check_password : string -> string -> bool;
  check_password_make p q : check_password q (make_password p) = String.eqb q p
}.

Class AuthValidators := {
  password_errors : string -> list string;
  email_errors : string -> list string
}.

Class TokenIssuer := {
  for_user : AuthUser -> string * string;
  refresh_access : string -> option string
}.

(** ** Python and Django string helpers *)

Definition ascii_lower (c : ascii) : ascii :=
  let n := nat_of_ascii c in if (65 <=? n)%nat && (n <=? 90)%nat then ascii_of_nat (n + 32) else c.

(** [s.lower()]. *)
Definition lower (s : string) : string := string_of_list_ascii (ascii_lower <$> list_ascii_of_string s).

(** [s.strip()]. *)
Definition py_strip (s : string) : string := string_of_list_ascii (strip (list_ascii_of_string s)).

(** [s.rsplit("@", 1)] when [s] has an ["@"]. *)
Definition rsplit_at (s : string) : option (string * string) :=
  match reverse (split_on "@" s) with
  | d :: (_ :: _) as rest => Some (join "@" (reverse rest), d)
  | _ => None
  end.

(** [BaseUserManager.normalize_email]: the domain part in lower case. *)
Definition normalize_email (email : string) : string :=
  match rsplit_at (py_strip email) with
  | Some (name, domain) => name +:+ "@" +:+ lower domain
  | None => email
  end.

(** ** DRF fields *)

Definition field_required : string := "This field is required.".
Definition field_blank : string := "This field may not be blank.".
Definition max_length_msg : string := "Ensure this field has no more than 254 characters.".

Inductive FieldResult := Absent | Value (v : string) | Invalid (msgs : list string).

(** [CharField.run_validation]. *)
Definition char_field (required allow_blank : bool) (validators : string -> list string)
    (data : option string) : FieldResult :=
  match data with
  | None => if required then Invalid [field_required] else Absent
  | Some s =>
      let t := py_strip s in
      if String.eqb t "" then (if allow_blank then Value "" else Invalid [field_blank])
      else match validators t with [] => Value t | errs => Invalid errs end
  end.

(** A [validate_<field>] method run on the field's value. *)
Definition then_validate (r : FieldResult) (check : string -> list string) : FieldResult :=
  match r with
  | Value v => match check v with [] => Value v | errs => Invalid errs end
  | r => r
  end.

Definition field_errors (fields : list (string * FieldResult)) : list (string * list string) :=
  omap (fun '(name, r) => match r with Invalid m => Some (name, m) | _ => None end) fields.

(** ** [RegisterSerializer] and [RegisterView] *)

Record RegisterData := mkRegisterData { rd_email : option string; rd_password : option string }.

(** The [email] field of [auth.User] ([blank=True], [max_length=254]):
    optional, blank allowed, length then format checked. *)
Definition register_email_field `{AuthValidators} (v : option string) : FieldResult :=
  char_field false true
    (fun t => (if (254 <? String.length t)%nat then [max_length_msg] else []) ++ email_errors t) v.

(** [validate_password]: the [ValidationError] messages of the project's
    validators become the field's errors. *)
Definition register_password_field `{AuthValidators} (v : option string) : FieldResult :=
  then_validate (char_field true false (fun _ => []) v) password_errors.

Definition next_user_id (users : list AuthUser) : nat := S (foldr Nat.max 0 (au_id <$> users)).

(** [User.objects.create_user(username=..., email=..., password=...)]:
    [ValueError] for an empty username; the [INSERT] then fails with
    [DataError] on a username longer than the column ([varchar(150)];
    [create_user] runs no validator) and with [IntegrityError] on a
    username that is taken. *)
Definition create_user `{PasswordHasher} (uname email pw : string) (now : Z)
    (users : list AuthUser) : Exception + (AuthUser * list AuthUser) :=
  if String.eqb uname "" then inl ValueError
  else if (150 <? String.length uname)%nat then inl DataError
  else if existsb (fun u => String.eqb (username u) uname) users then inl IntegrityError
  else
    let u := mkAuthUser (next_user_id users) uname (normalize_email email) (make_password pw) true now in
    inr (u, users ++ [u]).

Inductive AuthResponse :=
| AuthOk (access : string) (refresh : option string)
| AuthErrors (errors : list (string * list string))
| AuthRaised (e : Exception).

(** [RegisterSerializer.to_representation]: the pair of tokens
    [RefreshToken.for_user] issues for the new user. *)
Definition register_representation `{TokenIssuer} (u : AuthUser) : AuthResponse :=
  let '(a, r) := for_user u in AuthOk a (Some r).

Definition register_view `{AuthValidators, PasswordHasher, TokenIssuer} (rd : RegisterData)
    (now : Z) (users : list AuthUser) : AuthResponse * list AuthUser :=
  let fe := register_email_field (rd_email rd) in
  let fp := register_password_field (rd_password rd) in
  match field_errors [("email", fe); ("password", fp)] with
  | _ :: _ as errs => (AuthErrors errs, users)
  | [] =>
      match fe, fp with
      | Value e, Value p =>
          match create_user e e p now users with
          | inl ex => (AuthRaised ex, users)
          | inr (u, users') => (register_representation u, users')
          end
      | _, Value _ => (AuthRaised (KeyError "email"), users)
      | _, _ => (AuthErrors [], users)
      end
  end.

(** ** [LoginSerializer] and [LoginView] *)

Record LoginData := mkLoginData { ld_email : option string; ld_password : option string }.

Definition invalid_credentials : string := "Invalid credentials".

(** [authenticate(username=..., password=...)] with [ModelBackend]. *)
Definition authenticate `{PasswordHasher} (uname pw : string) (users : list AuthUser) : option AuthUser :=
  match filter (fun u => username u = uname) users with
  | u :: _ => if check_password pw (password_hash u) && is_active u then Some u else None
  | [] => None
  end.

(** The end of [LoginSerializer.validate]: the tokens of the
    authenticated user, which [LoginView] returns as they are. *)
Definition login_tokens `{TokenIssuer} (u : AuthUser) : AuthResponse :=
  let '(a, r) := for_user u in AuthOk a (Some r).

(** [User.objects.get(email=email)]: [None] for [DoesNotExist], which
    [validate] turns into "Invalid credentials"; two rows raise. *)
Definition get_user_by_email (e : string) (users : list AuthUser) : Exception + option AuthUser :=
  match filter (fun u => au_email u = e) users with
  | [] => inr None
  | [u] => inr (Some u)
  | _ => inl MultipleObjectsReturned
  end.

(** [LoginSerializer.validate] on the validated email and password. *)
Definition login_validate `{PasswordHasher, TokenIssuer} (e p : string) (users : list AuthUser)
    : AuthResponse :=
  match get_user_by_email e users with
  | inl ex => AuthRaised ex
  | inr None => AuthErrors [("non_field_errors", [invalid_credentials])]
  | inr (Some u) =>
      match authenticate (username u) p users with
      | None => AuthErrors [("non_field_errors", [invalid_credentials])]
      | Some u' => login_tokens u'
      end
  end.

(** [LoginView.post]: [serializer.is_valid()] runs the fields'
    validation and then [validate]; valid data is answered 200 as it
    is, errors 400. *)
Definition login_view `{AuthValidators, PasswordHasher, TokenIssuer} (ld : LoginData)
    (users : list AuthUser) : AuthResponse :=
  let fe := char_field true false email_errors (ld_email ld) in
  let fp := char_field true false (fun _ => []) (ld_password ld) in
  match fe, fp with
  | Value e, Value p => login_validate e p users
  | _, _ => AuthErrors (field_errors [("email", fe); ("password", fp)])
  end.

(** ** [RefreshView] and [UserView] *)

Definition refresh_required : string := "This field is required.".
Definition refresh_invalid : string := "Invalid or expired token.".

Definition refresh_view `{TokenIssuer} (refresh_in : option string) : AuthResponse :=
  match refresh_in with
  | Some t =>
      if truthy refresh_in then
        match refresh_access t with
        | Some a => AuthOk a None
        | None => AuthErrors [("refresh", [refresh_invalid])]
        end
      else AuthErrors [("refresh", [refresh_required])]
  | None => AuthErrors [("refresh", [refresh_required])]
  end.

(** [UserSerializer]: [("id", "email", "username", "date_joined")]. *)
Definition user_data (u : AuthUser) : nat * string * string * Z :=
  (au_id u, au_email u, username u, date_joined u).

(** [UserView.get] ([IsAuthenticated]): the serialized caller. *)
Definition user_view (caller : option AuthUser) : Response (nat * string * string * Z) :=
  match caller with
  | Some u => Ok 200 (user_data u)
  | None => Err 401 not_authenticated_msg
  end.

(** ** Sample services *)

(** A hasher with a fixed tag, validators requiring eight characters
    and an ["@"], and tokens naming their user. *)
Definition sample_hasher : PasswordHasher := {|
  make_password p := "pbkdf2$" +:+ p;
  check_password q h := String.eqb h ("pbkdf2$" +:+ q);
  check_password_make p q := String.eqb_sym p q
|}.

Definition sample_validators : AuthValidators := {|
  password_errors p :=
    if (String.length p <? 8)%nat
    then ["This password is too short. It must contain at least 8 characters."] else [];
  email_errors e :=
    if existsb (fun c => Ascii.eqb c "@") (list_ascii_of_string e) then []
    else ["Enter a valid email address."]
|}.

Definition sample_tokens : TokenIssuer := {|
  for_user u := ("access." +:+ username u, "refresh." +:+ username u);
  refresh_access t :=
    if String.prefix "refresh." t then Some ("access." +:+ substring 8 (String.length t - 8) t) else None
|}.

#[local] Existing Instances sample_hasher sample_validators sample_tokens.

Definition sample_walker : AuthUser :=
  mkAuthUser 1 "walker@example.com" "walker@example.com" "pbkdf2$secret123" true 100.

(** ** Lemmas *)

Section AuthTheory.
Context `{AuthValidators, PasswordHasher, TokenIssuer}.

Lemma create_user_inr uname e p now users u users' :
  create_user uname e p now users = inr (u, users') ->
  users' = users ++ [u] /\ username u = uname /\ au_email u = normalize_email e /\
  password_hash u = make_password p /\ is_active u = true /\ uname <> "" /\
  String.length uname <= 150 /\ Forall (fun v => username v <> uname) users.
Proof.
  unfold create_user. destruct (String.eqb_spec uname "") as [|Hne]; [done|].
  destruct (150 <? _)%nat eqn:Hl; [done|]. apply Nat.ltb_ge in Hl.
  destruct (existsb _ users) eqn:Ex; [done|]. intros [= <- <-]. split_and!; try done.
  apply Forall_forall. intros v Hv Heq. apply not_true_iff_false in Ex. apply Ex, existsb_exists.
  exists v. split; [by apply list_elem_of_In|]. rewrite Heq. apply String.eqb_refl.
Qed.

Lemma register_view_ok rd now users a r users' :
  register_view rd now users = (AuthOk a r, users') ->
  exists e p u, register_email_field (rd_email rd) = Value e /\
    register_password_field (rd_password rd) = Value p /\
    create_user e e p now users = inr (u, users') /\ r = Some (for_user u).2 /\ a = (for_user u).1.
Proof.
  unfold register_view. destruct (field_errors _) as [|? ?]; [|done].
  destruct (register_email_field _) as [| e |], (register_password_field _) as [| p |]; try done.
  destruct (create_user e e p now users) as [|[u us]] eqn:Hc; [done|].
  unfold register_representation.
  destruct (for_user u) as [a' r'] eqn:Ht. intros [= <- <- <-]. exists e, p, u. by rewrite Ht.
Qed.

Lemma char_field_Value req blank vs d v :
  char_field req blank vs d = Value v ->
  exists s, d = Some s /\ py_strip s = v /\ ((v = "" /\ blank = true) \/ (v <> "" /\ vs v = [])).
Proof.
  unfold char_field. destruct d as [s|]; [|by destruct req]. intros Hv. exists s. split; [done|].
  revert Hv. destruct (String.eqb_spec (py_strip s) "") as [->|Hne];
    [by destruct blank; intros [= <-]; auto|].
  destruct (vs (py_strip s)) eqn:E; [intros [= <-]; auto|done].
Qed.

Lemma then_validate_Value r c v : then_validate r c = Value v -> r = Value v.
Proof. destruct r; simpl; [done| |done]. by destruct (c v0). Qed.

Lemma char_field_strip req blank vs s :
  py_strip s <> "" -> vs (py_strip s) = [] -> char_field req blank vs (Some s) = Value (py_strip s).
Proof. intros Hne Hv. unfold char_field. destruct (String.eqb_spec (py_strip s) ""); [done|]. by rewrite Hv. Qed.

Lemma authenticate_new users u p :
  Forall (fun v => username v <> username u) users -> password_hash u = make_password p ->
  is_active u = true -> authenticate (username u) p (users ++ [u]) = Some u.
Proof.
  intros Hu Hh Ha. unfold authenticate. rewrite filter_app, filter_none by done.
  rewrite filter_cons, decide_True by done. simpl.
  by rewrite Hh, check_password_make, String.eqb_refl, Ha.
Qed.

Lemma create_user_taken uname e p now users v :
  v ∈ users -> username v = uname -> uname <> "" -> String.length uname <= 150 ->
  create_user uname e p now users = inl IntegrityError.
Proof.
  intros Hv Hu Hne Hl. unfold create_user. destruct (String.eqb_spec uname ""); [done|].
  rewrite (proj2 (Nat.ltb_ge _ _) Hl).
  replace (existsb _ users) with true; [done|]. symmetry. apply existsb_exists.
  exists v. split; [by apply list_elem_of_In|]. rewrite Hu. apply String.eqb_refl.
Qed.

(** What a successful registration tells about its data: both fields
    validated, to the stripped email and password, and [create_user]
    made the new row. *)
Lemma register_ok_inv e p now users a r users' :
  register_view (mkRegisterData (Some e) (Some p)) now users = (AuthOk a r, users') ->
  exists u, create_user (py_strip e) (py_strip e) (py_strip p) now users = inr (u, users') /\
    register_email_field (Some e) = Value (py_strip e) /\
    register_password_field (Some p) = Value (py_strip p) /\
    py_strip e <> "" /\ email_errors (py_strip e) = [] /\ py_strip p <> "".
Proof.
  intros Hreg. destruct (register_view_ok _ _ _ _ _ _ Hreg) as (e' & p' & u & He & Hp & Hc & _ & _).
  pose proof He as He'. simpl in Hp, He.
  apply char_field_Value in He' as (? & [= <-] & <- & [[Hb _]|[Hne Hv]]);
    [by rewrite Hb in Hc; revert Hc; unfold create_user|].
  apply app_eq_nil in Hv as [_ Hv].
  pose proof Hp as Hp'. apply then_validate_Value in Hp'.
  apply char_field_Value in Hp' as (? & [= <-] & <- & [[_ ?]|[Hpne _]]); [done|].
  exists u. by split_and!.
Qed.

Lemma login_fields e p users :
  py_strip e <> "" -> email_errors (py_strip e) = [] -> py_strip p <> "" ->
  login_view (mkLoginData (Some e) (Some p)) users = login_validate (py_strip e) (py_strip p) users.
Proof.
  intros He Hv Hp. unfold login_view. cbn [ld_email ld_password].
  by rewrite !char_field_strip by done.
Qed.

Lemma get_user_by_email_many x users :
  2 <= length (filter (fun u => au_email u = x) users) ->
  get_user_by_email x users = inl MultipleObjectsReturned.
Proof. unfold get_user_by_email. destruct (filter _ users) as [|? [|? ?]]; simpl; [lia|lia|done]. Qed.

(** ** Theorems *)

(** A successful registration followed by a login with the same email
    and password logs the new user in, with the tokens of the
    registration, provided the email's domain is already in lower case
    (so that [normalize_email] keeps it) and no account has that email
    yet; [Users.v] states it for the HTTP requests. *)
Lemma register_then_login e p now users a r users' :
  register_view (mkRegisterData (Some e) (Some p)) now users = (AuthOk a r, users') ->
  normalize_email (py_strip e) = py_strip e ->
  Forall (fun v => au_email v <> py_strip e) users ->
  exists u, users' = users ++ [u] /\ username u = py_strip e /\
    login_view (mkLoginData (Some e) (Some p)) users' = AuthOk a r.
Proof.
  intros Hreg Hnorm Hfree.
  destruct (register_view_ok _ _ _ _ _ _ Hreg) as (e' & p' & u & He & Hp & Hc & -> & ->).
  destruct (create_user_inr _ _ _ _ _ _ _ Hc) as (-> & Hun & Hem & Hh & Ha & Hne & _ & Hus).
  apply char_field_Value in He as (? & [= <-] & <- & [[? ?]|[_ Hv]]); [done|].
  apply app_eq_nil in Hv as [_ Hv].
  apply then_validate_Value in Hp. simpl rd_password in Hp. pose proof Hp as Hp'.
  apply char_field_Value in Hp' as (? & [= <-] & <- & [[_ ?]|[Hpne _]]); [done|].
  exists u. split_and!; [done|done|]. unfold login_view, login_validate, get_user_by_email. simpl ld_email; simpl ld_password.
  rewrite char_field_strip, Hp by done.
  rewrite filter_app, filter_none by done. rewrite filter_cons, decide_True by congruence. simpl.
  rewrite authenticate_new; [|by rewrite Hun|done|done].
  unfold login_tokens. by destruct (for_user u).
Qed.

(** C38 (error).  What registration and login do on the inputs the
    specification does not describe.  After a successful registration,
    an email whose domain [normalize_email] changes (an upper-case
    domain) no longer logs in, answering "Invalid credentials" to the
    right password, and registering the same email again raises
    [IntegrityError] (a 500, not a 400), whatever the time.  With a valid
    password, a registration without an email raises [KeyError] and one
    with a blank email [ValueError].  Two registrations whose emails
    differ only in what [normalize_email] changes both succeed and store
    one email twice, so a login with it raises [MultipleObjectsReturned]. *)
Theorem register_login_failures :
  (forall e p now users a r users',
     register_view (mkRegisterData (Some e) (Some p)) now users = (AuthOk a r, users') ->
     (normalize_email (py_strip e) <> py_strip e -> Forall (fun v => au_email v <> py_strip e) users ->
        login_view (mkLoginData (Some e) (Some p)) users'
        = AuthErrors [("non_field_errors", [invalid_credentials])]) /\
     (forall now', register_view (mkRegisterData (Some e) (Some p)) now' users'
                   = (AuthRaised IntegrityError, users'))) /\
  (forall p v now users, register_password_field (Some p) = Value v ->
     register_view (mkRegisterData None (Some p)) now users = (AuthRaised (KeyError "email"), users) /\
     forall e, py_strip e = "" ->
       register_view (mkRegisterData (Some e) (Some p)) now users = (AuthRaised ValueError, users)) /\
  (forall e1 e2 p1 p2 now1 now2 users0 a1 r1 users1 a2 r2 users2 e p,
     register_view (mkRegisterData (Some e1) (Some p1)) now1 users0 = (AuthOk a1 r1, users1) ->
     register_view (mkRegisterData (Some e2) (Some p2)) now2 users1 = (AuthOk a2 r2, users2) ->
     normalize_email (py_strip e1) = normalize_email (py_strip e2) ->
     char_field true false email_errors (Some e) = Value (normalize_email (py_strip e1)) ->
     py_strip p <> "" ->
     login_view (mkLoginData (Some e) (Some p)) users2 = AuthRaised MultipleObjectsReturned).
Proof.
  split_and!.
  - intros e p now users a r users' Hreg.
    destruct (register_ok_inv _ _ _ _ _ _ _ Hreg) as (u & Hc & Hfe & Hfp & Hne & Hev & Hpne).
    destruct (create_user_inr _ _ _ _ _ _ _ Hc) as (-> & Hun & Hem & _ & _ & _ & Hlen & _). split.
    + intros Hnorm Hfree. rewrite login_fields by done. unfold login_validate, get_user_by_email.
      rewrite filter_app, filter_none by done. rewrite filter_cons, decide_False by congruence. done.
    + intros now'. unfold register_view. cbn [rd_email rd_password]. rewrite Hfe, Hfp. simpl.
      rewrite (create_user_taken _ _ _ _ _ u); [done|apply elem_of_app; right; constructor|done|done|done].
  - intros p v now users Hp. unfold register_view. cbn [rd_email rd_password]. rewrite Hp.
    split; [done|]. intros e He.
    replace (register_email_field (Some e)) with (Value "")
      by (unfold register_email_field, char_field; by rewrite He).
    done.
  - intros e1 e2 p1 p2 now1 now2 users0 a1 r1 users1 a2 r2 users2 e p Hr1 Hr2 Hx He Hp.
    destruct (register_ok_inv _ _ _ _ _ _ _ Hr1) as (u1 & Hc1 & _).
    destruct (register_ok_inv _ _ _ _ _ _ _ Hr2) as (u2 & Hc2 & _).
    destruct (create_user_inr _ _ _ _ _ _ _ Hc1) as (-> & _ & Hem1 & _).
    destruct (create_user_inr _ _ _ _ _ _ _ Hc2) as (-> & _ & Hem2 & _).
    pose proof He as (? & [= <-] & Hs & [[_ ?]|[Hne Hv]])%char_field_Value; [done|].
    unfold login_view. cbn [ld_email ld_password]. rewrite He, char_field_strip by done.
    unfold login_validate.
    rewrite get_user_by_email_many; [done|].
    rewrite !filter_app, !filter_cons, !decide_True by congruence. rewrite !length_app. simpl. lia.
Qed.

End AuthTheory.

(** ** Witnesses *)

Lemma register_login_failures_witness :
  login_view (mkLoginData (Some "walker@Example.com") (Some "secret123"))
    [mkAuthUser 1 "walker@Example.com" "walker@example.com" "pbkdf2$secret123" true 100]
  = AuthErrors [("non_field_errors", [invalid_credentials])] /\
  login_view (mkLoginData (Some "walker@example.com") (Some "secret123"))
    [mkAuthUser 1 "walker@Example.com" "walker@example.com" "pbkdf2$secret123" true 100;
     mkAuthUser 2 "walker@example.com" "walker@example.com" "pbkdf2$secret123" true 200]
  = AuthRaised MultipleObjectsReturned.
Proof.
  destruct register_login_failures as (Hcase & _ & Hshared). split.
  - apply (proj1 (Hcase "walker@Example.com" "secret123" 100%Z [] "access.walker@Example.com"
                    (Some "refresh.walker@Example.com")
                    [mkAuthUser 1 "walker@Example.com" "walker@example.com" "pbkdf2$secret123" true 100] ltac:(vm_compute; reflexivity)));
      [vm_compute; discriminate|constructor].
  - apply (Hshared "walker@Example.com" "walker@example.com" "secret123" "secret123" 100%Z 200%Z []
             "access.walker@Example.com" (Some "refresh.walker@Example.com")
             [mkAuthUser 1 "walker@Example.com" "walker@example.com" "pbkdf2$secret123" true 100]
             "access.walker@example.com" (Some "refresh.walker@example.com")
             [mkAuthUser 1 "walker@Example.com" "walker@example.com" "pbkdf2$secret123" true 100;
              mkAuthUser 2 "walker@example.com" "walker@example.com" "pbkdf2$secret123" true 200]
             "walker@example.com" "secret123");
      first [vm_compute; reflexivity|vm_compute; discriminate].
Defined.
