(* ===== verification/Admin.v ===== *)
(** * The admin site: registrations and the models' [__str__]

    [src/apps/routes/admin.py], [src/apps/articles/admin.py] and the
    declarative part of [src/apps/partners/admin.py] register one
    [ModelAdmin] per model.  A registration is data: the model it shows
    and its option lists.  Django reads each option name against the
    model: [list_display] names a field that is not many-to-many
    (admin.E109), or an attribute of the admin or of the model
    (admin.E108);
    [list_filter] names a field, following [__] lookups (E116);
    [filter_horizontal] names a many-to-many field (E020);
    [readonly_fields] and the fields of [fieldsets] name a field or an
    attribute (E035), a non-editable field being allowed in a fieldset
    only when it is read-only; [actions] name methods of the admin, an
    unknown name being dropped from the menu without a check; and a
    change-list search runs [<path>__icontains], which needs a path ending
    on a non-relational column (otherwise the search raises
    [FieldError]).  [admin_errors] collects the violations of one
    registration; the schemas of the models are written from
    [routes/models.py], [partners/models.py], [articles/models.py] and
    Django's [auth.User].

    The [__str__] methods of the models (the text of a row in the admin,
    and of a foreign key column in [list_display]) are translated as
    functions of the row and, where they follow a foreign key, of the
    database; a dangling key raises [DoesNotExist]. *)

From Stdlib Require Import String Ascii ZArith.
From stdpp Require Import base list strings pretty.
From S2P Require Import Prelude Model Catalogue.

(** ** Model schemas *)

Inductive FieldKind :=
| Plain (editable : bool)
| ForeignKey (target : string)
| ManyToMany (target : string).

(** A model: its name, its fields in declaration order, and the
    attributes that are not fields (methods such as [__str__]). *)
Record Schema := mkSchema { sc_name : string; sc_fields : list (string * FieldKind); sc_attrs : list string }.

Definition city_schema : Schema :=
  mkSchema "City" [("id", Plain true); ("name", Plain true); ("image_url", Plain true);
                   ("description", Plain true); ("latitude", Plain true); ("longitude", Plain true);
                   ("bbox", Plain true)] [].

Definition city_area_schema : Schema :=
  mkSchema "CityArea" [("id", Plain false); ("city", ForeignKey "City"); ("name", Plain true);
                       ("bbox", Plain true); ("latitude", Plain true); ("longitude", Plain true);
                       ("description", Plain true); ("image_url", Plain true)] [].

Definition interest_schema : Schema :=
  mkSchema "Interest" [("id", Plain true); ("label", Plain true); ("description", Plain true)] [].

Definition mood_schema : Schema :=
  mkSchema "Mood" [("id", Plain true); ("label", Plain true); ("description", Plain true)] [].

Definition point_schema : Schema :=
  mkSchema "Point"
    [("id", Plain true); ("name", Plain true); ("description", Plain true); ("tags", Plain true);
     ("image_url", Plain true); ("city", ForeignKey "City"); ("area", ForeignKey "CityArea");
     ("interests", ManyToMany "Interest"); ("moods", ManyToMany "Mood");
     ("coordinates_lat", Plain true); ("coordinates_lng", Plain true); ("address", Plain true);
     ("average_visit_duration", Plain true); ("average_cost", Plain true);
     ("is_partner", Plain true); ("partner_tier", Plain true); ("partner", ForeignKey "Partner");
     ("working_hours_json", Plain true); ("best_visit_time", Plain true);
     ("is_seasonal", Plain true); ("seasonal_months", Plain true); ("view_count", Plain true);
     ("success_rate", Plain true); ("last_viewed_at", Plain true)] [].

(** [updated_at] has [auto_now=True], hence is not editable. *)
Definition point_embedding_schema : Schema :=
  mkSchema "PointEmbedding" [("point", ForeignKey "Point"); ("embedding", Plain true);
                             ("updated_at", Plain false)] [].

Definition route_schema : Schema :=
  mkSchema "Route"
    [("id", Plain true); ("created_at", Plain false); ("total_duration", Plain true);
     ("total_cost", Plain true); ("city", ForeignKey "City"); ("description", Plain true);
     ("user", ForeignKey "User"); ("point_sequence", Plain true); ("points", ManyToMany "Point");
     ("status", Plain true)] [].

Definition feedback_schema : Schema :=
  mkSchema "Feedback"
    [("id", Plain true); ("route", ForeignKey "Route"); ("user", ForeignKey "User");
     ("rating", Plain true); ("comment", Plain true); ("going", Plain true);
     ("created_at", Plain false)] [].

Definition partner_schema : Schema :=
  mkSchema "Partner"
    [("id", Plain true); ("name", Plain true); ("email", Plain true); ("phone", Plain true);
     ("tier", Plain true); ("monthly_fee", Plain true); ("status", Plain true);
     ("total_impressions", Plain true); ("impressions_this_month", Plain true);
     ("last_impression_date", Plain true); ("created_at", Plain false)] [].

Definition article_schema : Schema :=
  mkSchema "Article"
    [("id", Plain false); ("title", Plain true); ("slug", Plain true); ("content", Plain true);
     ("cover", Plain true); ("seo_title", Plain true); ("seo_description", Plain true);
     ("seo_keywords", Plain true); ("created_at", Plain false); ("updated_at", Plain false);
     ("published_at", Plain true); ("is_published", Plain true)] [].

(** [get_user_model()]: Django's [auth.User]. *)
Definition user_schema : Schema :=
  mkSchema "User"
    [("id", Plain false); ("password", Plain true); ("last_login", Plain true);
     ("is_superuser", Plain true); ("username", Plain true); ("first_name", Plain true);
     ("last_name", Plain true); ("email", Plain true); ("is_staff", Plain true);
     ("is_active", Plain true); ("date_joined", Plain true)] [].

Definition schemas : list Schema :=
  [city_schema; city_area_schema; interest_schema; mood_schema; point_schema;
   point_embedding_schema; route_schema; feedback_schema; partner_schema; article_schema;
   user_schema].

Definition find_schema (name : string) : option Schema :=
  head (omap (fun sc => if String.eqb (sc_name sc) name then Some sc else None) schemas).

Definition field_kind (sc : Schema) (f : string) : option FieldKind :=
  head (omap (fun '(n, k) => if String.eqb n f then Some k else None) (sc_fields sc)).

(** [name.split("__")]: Django's [LOOKUP_SEP]. *)
Fixpoint split_dunder (s : string) : list string :=
  match s with
  | EmptyString => [""]
  | String "_"%char (String "_"%char rest) => "" :: split_dunder rest
  | String c rest =>
      match split_dunder rest with
      | w :: ws => String c w :: ws
      | [] => [String c ""]
      end
  end.

(** The field a lookup path [a__b__c] ends on, following relations. *)
Fixpoint resolve_path (sc : Schema) (path : list string) : option FieldKind :=
  match path with
  | [] => None
  | [f] => field_kind sc f
  | f :: rest =>
      match field_kind sc f with
      | Some (ForeignKey t) | Some (ManyToMany t) => find_schema t ≫= fun sc' => resolve_path sc' rest
      | _ => None
      end
  end.

Definition lookup_field (sc : Schema) (name : string) : option FieldKind :=
  resolve_path sc (split_dunder name).

(** ** Registrations *)

Record ModelAdmin := mkModelAdmin {
  ad_model : string;
  list_display : list string;
  search_fields : list string;
  list_filter : list string;
  filter_horizontal : list string;
  readonly_fields : list string;
  fieldsets : list (string * list string);
  actions : list string;
  ad_methods : list string
}.

Definition CityAdmin : ModelAdmin :=
  mkModelAdmin "City" ["id"; "name"; "latitude"; "longitude"] ["id"; "name"] ["name"] [] [] [] [] [].

Definition CityAreaAdmin : ModelAdmin :=
  mkModelAdmin "CityArea" ["name"; "city"; "latitude"; "longitude"] ["name"; "city__name"] ["city"]
    [] [] [] [] [].

Definition InterestAdmin : ModelAdmin :=
  mkModelAdmin "Interest" ["id"; "label"] ["id"; "label"] [] [] [] [] [] [].

Definition MoodAdmin : ModelAdmin :=
  mkModelAdmin "Mood" ["id"; "label"] ["id"; "label"] [] [] [] [] [] [].

Definition PointAdmin : ModelAdmin :=
  mkModelAdmin "Point"
    ["id"; "name"; "city"; "average_visit_duration"; "average_cost"; "is_partner"]
    ["id"; "name"; "city__name"] ["city"; "is_partner"; "partner_tier"] ["interests"; "moods"]
    [] [] [] [].

Definition PointEmbeddingAdmin : ModelAdmin :=
  mkModelAdmin "PointEmbedding" ["point"; "updated_at"] ["point__name"] [] [] [] [] [] [].

Definition RouteAdmin : ModelAdmin :=
  mkModelAdmin "Route" ["id"; "user"; "created_at"; "total_duration"; "total_cost"; "status"]
    ["id"; "user__username"] ["status"; "created_at"; "user"] ["points"] [] [] [] [].

Definition FeedbackAdmin : ModelAdmin :=
  mkModelAdmin "Feedback" ["id"; "route"; "going"; "created_at"] ["id"; "route__id"]
    ["going"; "created_at"] [] [] [] [] [].

(** [articles/admin.py] registers its class, also named [FeedbackAdmin],
    for [Article]. *)
Definition ArticleAdmin : ModelAdmin :=
  mkModelAdmin "Article" ["id"; "title"] [] [] [] [] [] [] [].

Definition PartnerAdmin : ModelAdmin :=
  mkModelAdmin "Partner"
    ["name"; "tier"; "status"; "monthly_fee"; "total_impressions"; "impressions_this_month";
     "conversion_rate"; "last_impression_date"]
    ["name"; "email"; "phone"] ["tier"; "status"; "created_at"] []
    ["total_impressions"; "impressions_this_month"; "last_impression_date"; "created_at";
     "conversion_rate"]
    [("Основная информация", ["name"; "email"; "phone"]);
     ("Тариф и статус", ["tier"; "monthly_fee"; "status"]);
     ("Статистика", ["total_impressions"; "impressions_this_month"; "last_impression_date";
                     "conversion_rate"; "created_at"])]
    ["activate_partners"; "pause_partners"; "reset_monthly_stats"]
    ["conversion_rate"; "activate_partners"; "pause_partners"; "reset_monthly_stats"].

(** Every [admin.register] of the repository. *)
Definition registrations : list ModelAdmin :=
  [CityAdmin; CityAreaAdmin; InterestAdmin; MoodAdmin; PointAdmin; PointEmbeddingAdmin;
   RouteAdmin; FeedbackAdmin; ArticleAdmin; PartnerAdmin].

(** ** What Django checks *)

Definition is_attr (ad : ModelAdmin) (sc : Schema) (n : string) : bool :=
  bool_decide (n ∈ ad_methods ad) || bool_decide (n ∈ sc_attrs sc).

(** [list_display]: a many-to-many field is refused (admin.E109), a
    name that is neither a field nor an attribute too (admin.E108). *)
Definition display_error (ad : ModelAdmin) (sc : Schema) (n : string) : option string :=
  match field_kind sc n with
  | Some (ManyToMany _) => Some "admin.E109"
  | Some _ => None
  | None => if is_attr ad sc n then None else Some "admin.E108"
  end.

Definition filter_ok (sc : Schema) (n : string) : bool := bool_decide (is_Some (lookup_field sc n)).

Definition horizontal_ok (sc : Schema) (n : string) : bool :=
  match field_kind sc n with Some (ManyToMany _) => true | _ => false end.

Definition readonly_ok (ad : ModelAdmin) (sc : Schema) (n : string) : bool :=
  bool_decide (is_Some (field_kind sc n)) || is_attr ad sc n.

(** A field of a fieldset is an editable field, or read-only. *)
Definition fieldset_field_ok (ad : ModelAdmin) (sc : Schema) (n : string) : bool :=
  bool_decide (n ∈ readonly_fields ad) && readonly_ok ad sc n ||
  match field_kind sc n with Some (Plain false) => false | Some _ => true | None => false end.

(** [<path>__icontains] needs a column, not a relation. *)
Definition search_ok (sc : Schema) (n : string) : bool :=
  match lookup_field sc n with Some (Plain _) => true | _ => false end.

(** [ModelAdmin._get_base_actions]: a name of [actions] becomes an
    entry of the action menu when it is a method of the admin (or an
    action of the site, none of which the repository registers); any
    other name is dropped without a check. *)
Definition menu_actions (ad : ModelAdmin) : list string :=
  filter (fun n => n ∈ ad_methods ad) (actions ad).

Definition errors_for (check : string -> bool) (code : string) (names : list string) : list string :=
  (fun n => code +:+ " " +:+ n) <$> filter (fun n => check n = false) names.

Definition admin_errors (ad : ModelAdmin) : list string :=
  match find_schema (ad_model ad) with
  | None => ["unregistered model " +:+ ad_model ad]
  | Some sc =>
      omap (fun n => (fun code => code +:+ " " +:+ n) <$> display_error ad sc n) (list_display ad) ++
      errors_for (search_ok sc) "FieldError" (search_fields ad) ++
      errors_for (filter_ok sc) "admin.E116" (list_filter ad) ++
      errors_for (horizontal_ok sc) "admin.E020" (filter_horizontal ad) ++
      errors_for (readonly_ok ad sc) "admin.E035" (readonly_fields ad) ++
      errors_for (fieldset_field_ok ad sc) "FieldError" (concat (snd <$> fieldsets ad))
  end.

(** ** The models' [__str__] *)

Definition city_str (c : City) : string := city_name c.

Definition related_city_name (db : DB) (k : string) : Exception + string :=
  match cities db !! k with Some c => inr (city_name c) | None => inl DoesNotExist end.

(** [f"{self.name} ({self.city.name})"]. *)
Definition city_area_str (db : DB) (a : CityArea) : Exception + string :=
  n <-? related_city_name db (area_city a) ;; inr (area_name a +:+ " (" +:+ n +:+ ")").

Definition interest_str (i : Interest) : string := interest_label i.
Definition mood_str (m : Mood) : string := mood_label m.

Definition point_str (db : DB) (p : Point) : Exception + string :=
  n <-? related_city_name db (point_city p) ;; inr (point_name p +:+ " (" +:+ n +:+ ")").

(** [f"Маршрут {self.id[:8]} ({self.total_duration} мин)"]. *)
Definition route_str (r : Route) : string :=
  "Маршрут " +:+ substring 0 8 (route_id r) +:+ " (" +:+ pretty (total_duration r) +:+ " мин)".

(** [f"Feedback {self.id} for Route {self.route.id}"]: [self.route]
    fetches the route row. *)
Definition feedback_str (db : DB) (f : Feedback) : Exception + string :=
  match routes db !! fb_route f with
  | Some r => inr ("Feedback " +:+ fb_id f +:+ " for Route " +:+ route_id r)
  | None => inl DoesNotExist
  end.

Definition tier_value (t : PartnerTier) : string :=
  match t with Basic => "basic" | Premium => "premium" | Vip => "vip" end.

(** [f"{self.name} ({self.tier})"]: the stored value of the tier. *)
Definition partner_str (p : Partner) : string := partner_name p +:+ " (" +:+ tier_value (tier p) +:+ ")".

Definition article_str (a : Article) : string := title a.
