(* ===== verification/Resolver.v ===== *)
(** * Django's URL resolution and DRF's dispatch

    What Django makes of a [urlpatterns] table and DRF of a request,
    written out for any type [V] of views: [path()]'s route strings are
    cut by [django.urls.resolvers._route_to_regex] into literal text and
    [<converter:name>] parameters (the [while] loop [route_to_regex_loop],
    run with fuel, with its [ImproperlyConfigured] errors); the
    converters of [django.urls.converters] give each parameter its
    characters and its Python value; the compiled pattern [^...\Z]
    matches a path by backtracking ([match_segments]); [resolve] tries
    the patterns in order and [reverse] substitutes keyword arguments,
    trying the possibilities of a name from the last pattern to the
    first and checking the result against the pattern; [api_dispatch]
    is [APIView.dispatch]: the permission classes first, then the
    handler of the method, [OPTIONS], or 405.

    This is library code the repository calls, not code of [src/]: it is
    written out because the tables of the repository mean what it does.
    The file proves that the route-parsing loop terminates within the
    fuel given, and, for tables whose routes are literal or of the
    form [P<str:x>/], match disjoint sets of paths and use each name
    once ([table_ok]), that [reverse] and [resolve] are inverse; [Urls.v]
    applies this to the repository's tables.  Strings are ASCII:
    [str.isidentifier] is read on ASCII letters, digits and underscore,
    and the percent-encoding [reverse] applies and the server undoes is
    left out, so [reverse] returns the path [resolve] receives. *)

From Stdlib Require Import String Ascii ZArith.
From stdpp Require Import base list strings gmap pretty.
From S2P Require Import Prelude Model.

(** ** Errors of the URL machinery *)

(** Why Django refuses a route string ([ImproperlyConfigured]). *)
Inductive ConfigFault :=
| WhitespaceInBrackets
| NotIdentifier (parameter : string)
| UnknownConverter (raw : string)
| DuplicateGroup (parameter : string).

Inductive UrlError :=
| ImproperlyConfigured (route : string) (fault : ConfigFault)
| Resolver404
| NoReverseMatch.

(** ** Characters *)

Definition ascii_between (lo hi a : ascii) : bool :=
  Nat.leb (nat_of_ascii lo) (nat_of_ascii a) && Nat.leb (nat_of_ascii a) (nat_of_ascii hi).

Definition is_digit (a : ascii) : bool := ascii_between "0" "9" a.
Definition is_ascii_letter (a : ascii) : bool := ascii_between "a" "z" a || ascii_between "A" "Z" a.
Definition is_hex_lower (a : ascii) : bool := is_digit a || ascii_between "a" "f" a.

(** [string.whitespace]: space, tab, line feed, carriage return,
    vertical tab and form feed. *)
Definition is_string_whitespace (a : ascii) : bool :=
  bool_decide (a ∈ [" "; "009"; "010"; "013"; "011"; "012"]%char).

(** [str.isidentifier] on ASCII text. *)
Definition is_identifier (l : list ascii) : bool :=
  match l with
  | [] => false
  | a :: l' => (is_ascii_letter a || bool_decide (a = "_"%char)) &&
               forallb (fun b => is_ascii_letter b || is_digit b || bool_decide (b = "_"%char)) l'
  end.

(** The longest prefix whose characters satisfy [p], and the rest. *)
Fixpoint span (p : ascii -> bool) (l : list ascii) : list ascii * list ascii :=
  match l with
  | a :: l' => if p a then let '(x, y) := span p l' in (a :: x, y) else ([], l)
  | [] => ([], [])
  end.

(** ** Converters ([django.urls.converters]) *)

Inductive Converter := ConvStr | ConvInt | ConvSlug | ConvPath | ConvUUID.

#[export] Instance Converter_eq_dec : EqDecision Converter.
Proof. solve_decision. Defined.

(** [get_converter]: the five converters Django registers. *)
Definition get_converter (raw : string) : option Converter :=
  if bool_decide (raw = "str") then Some ConvStr
  else if bool_decide (raw = "int") then Some ConvInt
  else if bool_decide (raw = "slug") then Some ConvSlug
  else if bool_decide (raw = "path") then Some ConvPath
  else if bool_decide (raw = "uuid") then Some ConvUUID
  else None.

(** The character class of [regex = "[^/]+"], ["[0-9]+"],
    ["[-a-zA-Z0-9_]+"] and [".+"] (no newline); the UUID converter has a
    fixed shape instead. *)
Definition conv_class (c : Converter) : option (ascii -> bool) :=
  match c with
  | ConvStr => Some (fun a => negb (bool_decide (a = "/"%char)))
  | ConvInt => Some is_digit
  | ConvSlug => Some (fun a => is_ascii_letter a || is_digit a || bool_decide (a ∈ ["-"; "_"]%char))
  | ConvPath => Some (fun a => negb (bool_decide (a = "010"%char)))
  | ConvUUID => None
  end.

(** [UUIDConverter.regex]: [[0-9a-f]{8}-[0-9a-f]{4}-[0-9a-f]{4}-[0-9a-f]{4}-[0-9a-f]{12}]. *)
Definition uuid_shape : list (ascii -> bool) :=
  let hex n := repeat is_hex_lower n in
  let dash := [fun a => bool_decide (a = "-"%char)] in
  hex 8 ++ dash ++ hex 4 ++ dash ++ hex 4 ++ dash ++ hex 4 ++ dash ++ hex 12.

Fixpoint fits (shape : list (ascii -> bool)) (l : list ascii) : bool :=
  match shape, l with
  | [], _ => true
  | p :: shape', a :: l' => p a && fits shape' l'
  | _ :: _, [] => false
  end.

(** The lengths the regex engine tries for one parameter at the start
    of [l], in its order: a greedy [+] tries the longest run first and
    backtracks one character at a time. *)
Definition conv_candidates (c : Converter) (l : list ascii) : list nat :=
  match conv_class c with
  | Some cls => reverse (seq 1 (length (span cls l).1))
  | None => if fits uuid_shape l then [36] else []
  end.

(** A keyword argument as the view receives it. *)
Inductive KwValue := KwStr (s : string) | KwInt (n : Z) | KwUUID (s : string).

#[export] Instance KwValue_eq_dec : EqDecision KwValue.
Proof. solve_decision. Defined.

(** [to_python]: [int(value)] for [int], [uuid.UUID(value)] (whose text
    is [value], lower-case by the regex) for [uuid], the text itself
    otherwise. *)
Definition to_python (c : Converter) (v : list ascii) : KwValue :=
  match c with
  | ConvInt => KwInt (foldl (fun n a => 10 * n + default 0 (digit_value a))%Z 0%Z v)
  | ConvUUID => KwUUID (string_of_list_ascii v)
  | _ => KwStr (string_of_list_ascii v)
  end.

(** [to_url] is [str(value)]. *)
Definition to_url (v : KwValue) : string :=
  match v with KwStr s => s | KwInt n => pretty n | KwUUID s => s end.

(** ** [_route_to_regex] *)

(** A compiled route: literal text (matched as [re.escape] makes it) and
    named parameters. *)
Inductive Segment := SLit (text : string) | SParam (conv : Converter) (name : string).

#[export] Instance Segment_eq_dec : EqDecision Segment.
Proof. solve_decision. Defined.

(** [_PATH_PARAMETER_COMPONENT_RE = r"<(?:(?P<converter>[^>:]+):)?(?P<parameter>[^>]+)>"]
    tried just after a ['<']: the optional converter group first, then
    without it when the rest fails.  It returns the converter, the
    parameter and the text after the closing ['>']. *)
Definition component_at (l : list ascii) : option (option (list ascii) * list ascii * list ascii) :=
  let not_gt a := negb (bool_decide (a = ">"%char)) in
  let without :=
    match span not_gt l with
    | (p :: ps, ">"%char :: r) => Some (None, p :: ps, r)
    | _ => None
    end in
  match span (fun a => not_gt a && negb (bool_decide (a = ":"%char))) l with
  | (c :: cs, ":"%char :: r) =>
      match span not_gt r with
      | (p :: ps, ">"%char :: r') => Some (Some (c :: cs), p :: ps, r')
      | _ => without
      end
  | _ => without
  end.

(** [re.search]: the leftmost ['<'] where the component matches; the
    text before it, the component, and the text after it. *)
Fixpoint search_component (l : list ascii)
    : option (list ascii * (option (list ascii) * list ascii) * list ascii) :=
  match l with
  | [] => None
  | a :: l' =>
      match (if bool_decide (a = "<"%char) then component_at l' else None) with
      | Some (c, p, r) => Some ([], (c, p), r)
      | None =>
          match search_component l' with
          | Some (pre, m, r) => Some (a :: pre, m, r)
          | None => None
          end
      end
  end.

(** The checks of one component, in Django's order: whitespace inside
    the brackets, a parameter that is not an identifier, an unknown
    converter ([raw_converter] defaults to ["str"]). *)
Definition route_param (route : string) (c : option (list ascii)) (p : list ascii)
    : UrlError + Segment :=
  if existsb is_string_whitespace (default [] c ++ p) then
    inl (ImproperlyConfigured route WhitespaceInBrackets)
  else if negb (is_identifier p) then
    inl (ImproperlyConfigured route (NotIdentifier (string_of_list_ascii p)))
  else
    let raw := default "str" (string_of_list_ascii <$> c) in
    match get_converter raw with
    | Some conv => inr (SParam conv (string_of_list_ascii p))
    | None => inl (ImproperlyConfigured route (UnknownConverter raw))
    end.

(** The [while True] loop: find the next component; none left appends
    the rest of the route and stops; otherwise append the text before it
    and the parameter, and go on after it.  [None] is running out of
    fuel. *)
Fixpoint route_to_regex_loop (route : string) (fuel : nat) (rest : list ascii)
    : option (UrlError + list Segment) :=
  match fuel with
  | O => None
  | S fuel' =>
      match search_component rest with
      | None => Some (inr [SLit (string_of_list_ascii rest)])
      | Some (pre, (c, p), rest') =>
          match route_param route c p with
          | inl e => Some (inl e)
          | inr seg =>
              match route_to_regex_loop route fuel' rest' with
              | Some (inr segs) => Some (inr (SLit (string_of_list_ascii pre) :: seg :: segs))
              | r => r
              end
          end
      end
  end.

Definition param_names (segs : list Segment) : list string :=
  omap (fun s => match s with SParam _ x => Some x | SLit _ => None end) segs.

(** [_route_to_regex] with fuel one more than the length of the route,
    which [route_to_regex_terminates] shows is enough (the default is
    never taken), followed by the compilation of the regex, which
    refuses a parameter name used twice. *)
Definition compile_route (route : string) : UrlError + list Segment :=
  let l := list_ascii_of_string route in
  segs <-? default (inr []) (route_to_regex_loop route (S (length l)) l) ;;
  match list_find (fun x => 1 < length (filter (String.eqb x) (param_names segs))) (param_names segs) with
  | Some (_, x) => inl (ImproperlyConfigured route (DuplicateGroup x))
  | None => inr segs
  end.

(** ** Matching a path: [RoutePattern.match] *)

Fixpoint strip_lit (lit l : list ascii) : option (list ascii) :=
  match lit, l with
  | [], _ => Some l
  | a :: lit', b :: l' => if bool_decide (a = b) then strip_lit lit' l' else None
  | _ :: _, [] => None
  end.

(** [self.regex.search(path)] on [^...\Z] and the [to_python] of every
    group: literal text must be there, a parameter takes the lengths of
    [conv_candidates] in turn until the rest matches, and [\Z] wants the
    path used up. *)
Fixpoint match_segments (segs : list Segment) (l : list ascii) : option (gmap string KwValue) :=
  match segs with
  | [] => match l with [] => Some ∅ | _ :: _ => None end
  | SLit t :: segs' =>
      match strip_lit (list_ascii_of_string t) l with
      | Some l' => match_segments segs' l'
      | None => None
      end
  | SParam c x :: segs' =>
      (fix try_lengths (ns : list nat) : option (gmap string KwValue) :=
         match ns with
         | [] => None
         | n :: ns' =>
             match match_segments segs' (drop n l) with
             | Some kw => Some (<[x := to_python c (take n l)]> kw)
             | None => try_lengths ns'
             end
         end) (conv_candidates c l)
  end.

(** ** [resolve] and [reverse] *)

(** [path(route, view, name=name)]: a route string bound to a view of
    type [V] under a URL name. *)
Record UrlPattern (V : Type) := path { up_route : string; up_view : V; up_name : string }.
Arguments path {V} _ _ _.
Arguments up_route {V} _.
Arguments up_view {V} _.
Arguments up_name {V} _.

Section Tables.
Context {V : Type}.


Record Compiled := mkCompiled { cp_segs : list Segment; cp_view : V; cp_name : string }.

(** The patterns are built when the URLconf is imported: one refused
    route string makes the whole table raise. *)
Fixpoint compile_table (t : list (UrlPattern V)) : UrlError + list Compiled :=
  match t with
  | [] => inr []
  | u :: t' =>
      segs <-? compile_route (up_route u) ;;
      cs <-? compile_table t' ;;
      inr (mkCompiled segs (up_view u) (up_name u) :: cs)
  end.

(** [ResolverMatch]: the view, its keyword arguments and the URL name. *)
Record ResolverMatch := mkResolverMatch {
  rm_view : V; rm_kwargs : gmap string KwValue; rm_name : string
}.

(** [URLResolver.resolve]: the first pattern that matches, or
    [Resolver404]. *)
Fixpoint resolve_compiled (cs : list Compiled) (l : list ascii) : UrlError + ResolverMatch :=
  match cs with
  | [] => inl Resolver404
  | c :: cs' =>
      match match_segments (cp_segs c) l with
      | Some kw => inr (mkResolverMatch (cp_view c) kw (cp_name c))
      | None => resolve_compiled cs' l
      end
  end.

Definition resolve (t : list (UrlPattern V)) (p : string) : UrlError + ResolverMatch :=
  cs <-? compile_table t ;; resolve_compiled cs (list_ascii_of_string p).

(** [candidate_pat % text_candidate_subs]: the route with every
    parameter replaced by the [to_url] of its argument. *)
Fixpoint subst (segs : list Segment) (kw : gmap string KwValue) : list ascii :=
  match segs with
  | [] => []
  | SLit t :: segs' => list_ascii_of_string t ++ subst segs' kw
  | SParam _ x :: segs' => list_ascii_of_string (default "" (to_url <$> kw !! x)) ++ subst segs' kw
  end.

(** One possibility of [_reverse_with_prefix]: the arguments must name
    exactly the parameters, and the substituted text must match the
    pattern ([re.search]). *)
Definition reverse_candidate (c : Compiled) (kw : gmap string KwValue) : option string :=
  if bool_decide (dom kw = list_to_set (param_names (cp_segs c))) then
    let text := subst (cp_segs c) kw in
    if is_Some_dec (match_segments (cp_segs c) text) then Some (string_of_list_ascii text) else None
  else None.

(** [reverse(name, kwargs=kw)]: the possibilities of the name are tried
    from the last pattern of the table to the first ([_populate] walks
    [reversed(self.url_patterns)]); none fits is [NoReverseMatch]. *)
Definition reverse (t : list (UrlPattern V)) (name : string) (kw : gmap string KwValue)
    : UrlError + string :=
  cs <-? compile_table t ;;
  match head (omap (fun c => if bool_decide (cp_name c = name) then reverse_candidate c kw else None)
                   (reverse cs)) with
  | Some p => inr p
  | None => inl NoReverseMatch
  end.

End Tables.

(** ** DRF's dispatch: permission classes and handlers *)

Inductive Permission := AllowAny | IsAuthenticated | IsAdminUser.

Inductive Method := GET | POST | PUT | PATCH | DELETE | HEAD | OPTIONS | TRACE.

#[export] Instance Method_eq_dec : EqDecision Method.
Proof. solve_decision. Defined.

Definition method_name (m : Method) : string :=
  match m with
  | GET => "GET" | POST => "POST" | PUT => "PUT" | PATCH => "PATCH" | DELETE => "DELETE"
  | HEAD => "HEAD" | OPTIONS => "OPTIONS" | TRACE => "TRACE"
  end.

Definition has_permission (p : Permission) (rq : Request) : bool :=
  match p with
  | AllowAny => true
  | IsAuthenticated => bool_decide (is_Some (req_user rq))
  | IsAdminUser => is_admin rq
  end.

(** [View._allowed_methods]: the methods of [http_method_names] the
    class has an attribute for, the [Allow] header of a 405. *)
Definition allowed_methods (handlers : list Method) : list Method :=
  filter (fun m => m ∈ handlers \/ m = OPTIONS \/ (m = HEAD /\ GET ∈ handlers))
    [GET; POST; PUT; PATCH; DELETE; HEAD; OPTIONS; TRACE].

(** What [APIView.dispatch] does with a request before any view code
    runs: refuse it, answer 405, answer [OPTIONS] with the view's
    metadata, or call a handler. *)
Inductive Dispatched :=
| DRefused (code : Z) (message : string)
| DNotAllowed (message : string)
| DOptions
| DHandler (m : Method).

Definition double_quote : string := String "034"%char EmptyString.

(** [MethodNotAllowed.default_detail]: [Method "{method}" not allowed.] *)
Definition method_not_allowed (m : Method) : string :=
  "Method " ++ double_quote ++ method_name m ++ double_quote ++ " not allowed.".

(** [self.initial(request)] checks the permission classes first, for
    every method; then the handler is [getattr(self, method.lower(),
    self.http_method_not_allowed)], where [options] is [APIView]'s own
    and [head] is [get] when the class has a [get] ([View.setup]). *)
Definition api_dispatch (perm : Permission) (handlers : list Method) (rq : Request) (m : Method)
    : Dispatched :=
  if has_permission perm rq then
    match m with
    | OPTIONS => DOptions
    | HEAD => if bool_decide (GET ∈ handlers) then DHandler GET else DNotAllowed (method_not_allowed m)
    | _ => if bool_decide (m ∈ handlers) then DHandler m else DNotAllowed (method_not_allowed m)
    end
  else
    match req_user rq with
    | None => DRefused 401 not_authenticated_msg
    | Some _ => DRefused 403 permission_denied_msg
    end.

(** ** Termination of the route-parsing loop *)

Lemma span_app p l : (span p l).1 ++ (span p l).2 = l.
Proof. induction l as [|a l IH]; [done|]. simpl. destruct (p a); [|done]. by destruct (span p l); simpl in *; rewrite IH. Qed.

Lemma span_length p l x y : span p l = (x, y) -> length l = length x + length y.
Proof. intros Hs. rewrite <- (span_app p l), Hs. apply length_app. Qed.

Lemma span_shorter p l x a r : span p l = (x, a :: r) -> length r < length l.
Proof. intros Hs. apply span_length in Hs. simpl in Hs. lia. Qed.

Lemma component_at_shorter l c p r : component_at l = Some (c, p, r) -> length r < length l.
Proof.
  unfold component_at. intros Hc.
  repeat (case_match; simplify_eq);
    repeat match goal with H : span _ _ = (_, _ :: _) |- _ => apply span_shorter in H end; lia.
Qed.

Lemma search_component_shorter l pre m r :
  search_component l = Some (pre, m, r) -> length r < length l.
Proof.
  revert pre. induction l as [|a l IH]; intros pre; [done|]. simpl.
  destruct (if bool_decide (a = "<"%char) then component_at l else None) as [[[c p] r']|] eqn:Hc.
  - intros [= <- <- <-]. case_bool_decide; [|done]. apply component_at_shorter in Hc. lia.
  - destruct (search_component l) as [[[pre' m'] r']|] eqn:Hs; [|done].
    intros [= <- <- <-]. specialize (IH _ eq_refl). lia.
Qed.

(** The [while True] loop of [_route_to_regex]
    stops: on every route string there is one result the loop returns
    for every fuel larger than the length of the text left to parse, so
    the fuel [compile_route] gives it is enough and its default is never
    taken. *)
Theorem route_to_regex_terminates route l :
  exists r, forall fuel, length l < fuel -> route_to_regex_loop route fuel l = Some r.
Proof.
  assert (Hsome : forall fuel l, length l < fuel -> is_Some (route_to_regex_loop route fuel l)).
  { induction fuel as [|fuel IH]; intros l' Hl; [lia|]. simpl.
    destruct (search_component l') as [[[pre [c p]] rest]|] eqn:Hs; [|by eexists].
    destruct (route_param route c p) as [e|seg]; [by eexists|].
    apply search_component_shorter in Hs.
    destruct (IH rest) as [[e|segs] ->]; [lia|by eexists|by eexists]. }
  assert (Hmono : forall fuel fuel' l r, route_to_regex_loop route fuel l = Some r -> fuel <= fuel' ->
                  route_to_regex_loop route fuel' l = Some r).
  { induction fuel as [|fuel IH]; intros fuel' l' r Hr Hle; [done|].
    destruct fuel' as [|fuel']; [lia|]. revert Hr. simpl.
    destruct (search_component l') as [[[pre [c p]] rest]|]; [|done].
    destruct (route_param route c p); [done|].
    destruct (route_to_regex_loop route fuel rest) as [x|] eqn:Hx; [|done].
    rewrite (IH fuel' rest x Hx) by lia. done. }
  destruct (Hsome (S (length l)) l) as [r Hr]; [lia|].
  exists r. intros fuel Hf. apply (Hmono _ _ _ _ Hr). lia.
Qed.

(** ** Matching the two shapes of the repository's routes *)

(** The tables only hold literal routes and routes [P<str:x>/]. *)
Definition shape_ok (segs : list Segment) : bool :=
  match segs with
  | [SLit _] => true
  | [SLit _; SParam ConvStr _; SLit t] => bool_decide (t = "/")
  | _ => false
  end.

Lemma shape_cases segs :
  shape_ok segs = true ->
  (exists t, segs = [SLit t]) \/ (exists t x, segs = [SLit t; SParam ConvStr x; SLit "/"]).
Proof.
  unfold shape_ok. intros H. repeat (case_match; simplify_eq/=; try discriminate).
  - left. by eexists.
  - apply bool_decide_eq_true in H as ->. right. by do 2 eexists.
Qed.

Lemma strip_lit_Some lit l l' : strip_lit lit l = Some l' <-> l = lit ++ l'.
Proof.
  revert l. induction lit as [|a lit IH]; intros [|b l]; simpl.
  - split; [by intros [= ->]|by intros ->].
  - split; [by intros [= ->]|by intros ->].
  - split; [done|discriminate].
  - case_bool_decide as Hab; [subst; rewrite IH; split; [by intros ->|by intros [= ->]]|].
    split; [done|by intros [= -> _]].
Qed.

Lemma match_lit_cons t segs l :
  match_segments (SLit t :: segs) l =
  match strip_lit (list_ascii_of_string t) l with Some l' => match_segments segs l' | None => None end.
Proof. done. Qed.

Lemma match_lit t l kw :
  match_segments [SLit t] l = Some kw <-> l = list_ascii_of_string t /\ kw = ∅.
Proof.
  simpl. destruct (strip_lit _ l) as [l'|] eqn:Hs.
  - apply strip_lit_Some in Hs as ->. destruct l' as [|a l'].
    + rewrite app_nil_r. split; [by intros [= <-]|by intros [_ ->]].
    + split; [done|]. intros [Hl _]. apply (f_equal length) in Hl. rewrite length_app in Hl. simpl in Hl. lia.
  - split; [done|]. intros [-> _].
    assert (strip_lit (list_ascii_of_string t) (list_ascii_of_string t ++ []) = Some [])
      as Hx by by apply strip_lit_Some.
    rewrite app_nil_r in Hx. congruence.
Qed.

Lemma match_param_Some c x segs l kw :
  match_segments (SParam c x :: segs) l = Some kw ->
  exists n kw', n ∈ conv_candidates c l /\ match_segments segs (drop n l) = Some kw' /\
    kw = <[x := to_python c (take n l)]> kw'.
Proof.
  simpl. induction (conv_candidates c l) as [|n ns IH]; [done|].
  destruct (match_segments segs (drop n l)) eqn:Hm.
  - intros [= <-]. exists n, g. split_and!; [set_solver|done|done].
  - intros Hr. destruct (IH Hr) as (n' & kw' & ? & ? & ?). exists n', kw'. split_and!; [set_solver|done|done].
Qed.

Lemma match_param_head c x segs l n ns kw' :
  conv_candidates c l = n :: ns -> match_segments segs (drop n l) = Some kw' ->
  match_segments (SParam c x :: segs) l = Some (<[x := to_python c (take n l)]> kw').
Proof. intros Hc Hm. simpl. rewrite Hc, Hm. done. Qed.

Lemma span_fst_forall p l : Forall (fun a => p a = true) (span p l).1.
Proof.
  induction l as [|a l IH]; simpl; [done|]. destruct (p a) eqn:Hp; [|done].
  destruct (span p l) as [x y]. simpl in *. by constructor.
Qed.

Lemma span_no_slash v r :
  Forall (fun a => a <> "/"%char) v ->
  span (fun a => negb (bool_decide (a = "/"%char))) (v ++ "/"%char :: r) = (v, "/"%char :: r).
Proof.
  induction 1 as [|a v Ha _ IH]; simpl; [done|].
  rewrite bool_decide_false by done. simpl. by rewrite IH.
Qed.

(** A route [P<str:x>/] matches exactly the paths [P v /] with [v] a
    non-empty text without a slash, and binds [x] to [v]. *)
Lemma match_param_shape t x l kw :
  match_segments [SLit t; SParam ConvStr x; SLit "/"] l = Some kw <->
  exists v, l = list_ascii_of_string t ++ v ++ ["/"%char] /\ v <> [] /\
    Forall (fun a => a <> "/"%char) v /\ kw = {[x := KwStr (string_of_list_ascii v)]}.
Proof.
  split.
  - rewrite match_lit_cons. destruct (strip_lit _ l) as [l'|] eqn:Hs; [|done].
    apply strip_lit_Some in Hs as ->. intros Hm.
    apply match_param_Some in Hm as (n & kw' & Hn & Hm & ->).
    apply match_lit in Hm as [Hd ->]. simpl in Hd.
    unfold conv_candidates in Hn. simpl in Hn.
    apply elem_of_reverse, elem_of_seq in Hn.
    pose proof (span_app (fun a => negb (bool_decide (a = "/"%char))) l') as Happ.
    pose proof (span_fst_forall (fun a => negb (bool_decide (a = "/"%char))) l') as Hall.
    exists (take n l'). split_and!.
    + rewrite <- (take_drop n l') at 1. by rewrite Hd.
    + intros Hnil. apply (f_equal length) in Hnil. rewrite length_take in Hnil. simpl in Hnil.
      assert (length (span (fun a => negb (bool_decide (a = "/"%char))) l').1 <= length l')
        by (rewrite <- Happ at 2; rewrite length_app; lia). lia.
    + rewrite <- Happ, take_app_le by lia. apply Forall_take.
      eapply Forall_impl; [exact Hall|]. intros a Ha. by apply negb_true_iff, bool_decide_eq_false in Ha.
    + by rewrite insert_empty.
  - intros (v & -> & Hne & Hv & ->). rewrite match_lit_cons.
    rewrite (proj2 (strip_lit_Some _ _ (v ++ ["/"%char])) eq_refl).
    destruct v as [|a v']; [done|].
    erewrite (match_param_head _ _ _ _ (length (a :: v')) _).
    + rewrite take_app_length. by rewrite insert_empty.
    + unfold conv_candidates. simpl conv_class. cbv beta iota.
      rewrite span_no_slash by done. cbn [fst length]. by rewrite seq_S, reverse_snoc.
    + rewrite drop_app_length. by apply match_lit.
Qed.

(** ** Resolving and reversing on the repository's kind of table *)

Definition lead (segs : list Segment) : list ascii :=
  match segs with SLit t :: _ => list_ascii_of_string t | _ => [] end.

(** No path is matched by both routes: two literal routes differ, and
    otherwise neither leading text is a prefix of the other. *)
Definition disjoint_patterns (s s' : list Segment) : bool :=
  match s, s' with
  | [SLit a], [SLit b] => bool_decide (a <> b)
  | _, _ => bool_decide (~ lead s `prefix_of` lead s' /\ ~ lead s' `prefix_of` lead s)
  end.

Section TableTheory.
Context {V : Type}.

Fixpoint pairwise_disjoint (cs : list (@Compiled V)) : bool :=
  match cs with
  | [] => true
  | c :: cs' => forallb (fun c' => disjoint_patterns (cp_segs c) (cp_segs c')) cs' && pairwise_disjoint cs'
  end.

Definition table_ok (cs : list (@Compiled V)) : bool :=
  forallb (fun c => shape_ok (cp_segs c)) cs && pairwise_disjoint cs &&
  bool_decide (NoDup (cp_name <$> cs)).

Definition all_str (kw : gmap string KwValue) : Prop := map_Forall (fun _ v => exists s, v = KwStr s) kw.

Lemma list_ascii_of_string_inj s s' : list_ascii_of_string s = list_ascii_of_string s' -> s = s'.
Proof. intros H. by rewrite <- (string_of_list_ascii_of_string s), H, string_of_list_ascii_of_string. Qed.

(** What a match of a route of either shape tells: the path is the
    route with the arguments put in, the arguments are strings naming
    exactly the parameters, and the path starts with the leading text. *)
Lemma match_shape_facts segs l kw :
  shape_ok segs = true -> match_segments segs l = Some kw ->
  l = subst segs kw /\ dom kw = list_to_set (param_names segs) /\ all_str kw /\
  lead segs `prefix_of` l.
Proof.
  intros Hs Hm. destruct (shape_cases _ Hs) as [[t ->]|(t & x & ->)].
  - apply match_lit in Hm as [-> ->]. simpl. rewrite app_nil_r, dom_empty_L.
    split_and!; [done|done|apply map_Forall_empty|done].
  - apply match_param_shape in Hm as (v & -> & _ & _ & ->). simpl.
    rewrite lookup_singleton_eq, dom_singleton_L, union_empty_r_L. simpl.
    rewrite list_ascii_of_string_of_list_ascii.
    split_and!; [done|done|apply map_Forall_singleton; by eexists|by eexists].
Qed.

Lemma subst_inj segs kw kw' :
  shape_ok segs = true -> all_str kw -> all_str kw' ->
  dom kw = list_to_set (param_names segs) -> dom kw' = list_to_set (param_names segs) ->
  subst segs kw = subst segs kw' -> kw = kw'.
Proof.
  intros Hs Ha Ha' Hd Hd'. destruct (shape_cases _ Hs) as [[t ->]|(t & x & ->)]; simpl in *.
  - apply dom_empty_inv_L in Hd as ->. by apply dom_empty_inv_L in Hd' as ->.
  - rewrite union_empty_r_L in Hd, Hd'.
    apply dom_singleton_inv_L in Hd as [v ->]. apply dom_singleton_inv_L in Hd' as [v' ->].
    destruct (Ha x v (lookup_singleton_eq _ _)) as [s ->].
    destruct (Ha' x v' (lookup_singleton_eq _ _)) as [s' ->].
    rewrite !lookup_singleton_eq. simpl. intros Heq.
    apply app_inv_head, app_inv_tail, list_ascii_of_string_inj in Heq. by subst.
Qed.

Lemma disjoint_no_overlap s s' l kw kw' :
  shape_ok s = true -> shape_ok s' = true -> disjoint_patterns s s' = true ->
  match_segments s l = Some kw -> match_segments s' l = Some kw' -> False.
Proof.
  intros Hs Hs' Hd Hm Hm'.
  pose proof (match_shape_facts _ _ _ Hs Hm) as (_ & _ & _ & Hp).
  pose proof (match_shape_facts _ _ _ Hs' Hm') as (_ & _ & _ & Hp').
  assert (Hno : ~ lead s `prefix_of` lead s' /\ ~ lead s' `prefix_of` lead s -> False).
  { intros [H1 H2]. by destruct (prefix_weak_total _ _ _ Hp Hp'). }
  destruct (shape_cases _ Hs) as [[a ->]|(a & x & ->)], (shape_cases _ Hs') as [[b ->]|(b & y & ->)];
    simpl in Hd; apply bool_decide_eq_true in Hd; try by apply Hno.
  apply match_lit in Hm as [-> _]. apply match_lit in Hm' as [Hl _].
  by apply Hd, list_ascii_of_string_inj.
Qed.

Lemma resolve_compiled_inv (cs : list (@Compiled V)) l rm :
  resolve_compiled cs l = inr rm ->
  exists c, c ∈ cs /\ match_segments (cp_segs c) l = Some (rm_kwargs rm) /\
    rm_view rm = cp_view c /\ rm_name rm = cp_name c.
Proof.
  induction cs as [|c cs IH]; simpl; [done|].
  destruct (match_segments (cp_segs c) l) eqn:Hm.
  - intros [= <-]. exists c. split_and!; [set_solver|done|done|done].
  - intros Hr. destruct (IH Hr) as (c' & ? & ?). exists c'. split; [set_solver|done].
Qed.

(** In a table whose routes match disjoint sets of paths, a path is
    resolved by the route that matches it. *)
Lemma resolve_compiled_elem (cs : list (@Compiled V)) l c kw :
  Forall (fun c => shape_ok (cp_segs c) = true) cs -> pairwise_disjoint cs = true ->
  c ∈ cs -> match_segments (cp_segs c) l = Some kw ->
  resolve_compiled cs l = inr (mkResolverMatch (cp_view c) kw (cp_name c)).
Proof.
  induction cs as [|c0 cs IH]; intros Hs Hd Hc Hm; [by apply elem_of_nil in Hc|].
  apply Forall_cons in Hs as [Hs0 Hs]. simpl in Hd. apply andb_true_iff in Hd as [Hd0 Hd].
  simpl. apply elem_of_cons in Hc as [->|Hc]; [by rewrite Hm|].
  destruct (match_segments (cp_segs c0) l) as [kw0|] eqn:Hm0; [|by apply IH].
  assert (disjoint_patterns (cp_segs c0) (cp_segs c) = true) as Hdc
    by (rewrite forallb_forall in Hd0; by apply Hd0, list_elem_of_In).
  rewrite Forall_forall in Hs.
  exfalso. eapply disjoint_no_overlap; [exact Hs0|by apply Hs|exact Hdc|exact Hm0|exact Hm].
Qed.

Lemma head_omap_Some {A B} (f : A -> option B) l p :
  head (omap f l) = Some p -> exists x, x ∈ l /\ f x = Some p.
Proof.
  induction l as [|x l IH]; simpl; [done|].
  destruct (f x) eqn:Hf; simpl; [intros [= <-]; exists x; split; [set_solver|done]|].
  intros Hh. destruct (IH Hh) as (y & ? & ?). exists y. split; [set_solver|done].
Qed.

Lemma head_omap_unique {A B} (f : A -> option B) l p :
  (forall y, y ∈ l -> f y = None \/ f y = Some p) -> (exists y, y ∈ l /\ f y = Some p) ->
  head (omap f l) = Some p.
Proof.
  induction l as [|x l IH]; intros Hall [y [Hy Hfy]]; [by apply elem_of_nil in Hy|].
  simpl. destruct (Hall x ltac:(set_solver)) as [Hx|Hx]; rewrite Hx; [|done].
  apply IH; [intros z Hz; apply Hall; set_solver|].
  apply elem_of_cons in Hy as [->|Hy]; [congruence|by exists y].
Qed.

Lemma NoDup_fmap_same {A B} (g : A -> B) l x y :
  NoDup (g <$> l) -> x ∈ l -> y ∈ l -> g x = g y -> x = y.
Proof.
  induction l as [|z l IH]; intros Hnd Hx Hy Hg; [by apply elem_of_nil in Hx|].
  rewrite fmap_cons in Hnd. apply NoDup_cons in Hnd as [Hz Hnd].
  apply elem_of_cons in Hx as [->|Hx], Hy as [->|Hy]; [done| | |by apply IH].
  - destruct Hz. rewrite Hg. by apply list_elem_of_fmap_2.
  - destruct Hz. rewrite <- Hg. by apply list_elem_of_fmap_2.
Qed.

Lemma compile_table_elem (t : list (UrlPattern V)) cs c :
  compile_table t = inr cs -> c ∈ cs ->
  exists u, u ∈ t /\ cp_view c = up_view u /\ cp_name c = up_name u.
Proof.
  revert cs. induction t as [|u t IH]; intros cs; simpl; [intros [= <-]; by intros ?%elem_of_nil|].
  destruct (compile_route (up_route u)); [done|]. destruct (compile_table t) as [|cs']; [done|].
  intros [= <-] [->|Hc]%elem_of_cons; [exists u; split; [set_solver|done]|].
  destruct (IH cs' eq_refl Hc) as (u' & ? & ?). exists u'. split; [set_solver|done].
Qed.

Lemma table_ok_parts (cs : list (@Compiled V)) :
  table_ok cs = true ->
  Forall (fun c => shape_ok (cp_segs c) = true) cs /\ pairwise_disjoint cs = true /\
  NoDup (cp_name <$> cs).
Proof.
  unfold table_ok. rewrite !andb_true_iff, bool_decide_eq_true, forallb_forall, Forall_forall.
  intros [[Hs Hd] Hn]. split_and!; [|done|done]. intros c Hc. by apply Hs, list_elem_of_In.
Qed.

(** The possibility of a route that matches a path gives that path back. *)
Lemma reverse_candidate_match (c : @Compiled V) l kw :
  shape_ok (cp_segs c) = true -> match_segments (cp_segs c) l = Some kw ->
  reverse_candidate c kw = Some (string_of_list_ascii l).
Proof.
  intros Hs Hm. destruct (match_shape_facts _ _ _ Hs Hm) as (Hl & Hd & _ & _).
  unfold reverse_candidate. rewrite bool_decide_eq_true_2 by done. cbv zeta.
  rewrite <- Hl, Hm. done.
Qed.

Lemma table_reverse_resolve (t : list (UrlPattern V)) cs name kw p :
  compile_table t = inr cs -> table_ok cs = true -> all_str kw -> reverse t name kw = inr p ->
  exists c, c ∈ cs /\ cp_name c = name /\ resolve t p = inr (mkResolverMatch (cp_view c) kw name).
Proof.
  intros Hc Hok Hkw. destruct (table_ok_parts _ Hok) as (Hs & Hd & _). rewrite Forall_forall in Hs.
  unfold reverse. rewrite Hc. cbv beta iota.
  destruct (head _) as [p'|] eqn:Hh; [intros [= <-]|done].
  apply head_omap_Some in Hh as (c & Hin & Hf). rewrite elem_of_reverse in Hin.
  case_bool_decide as Hn; [|done]. unfold reverse_candidate in Hf.
  case_bool_decide as Hdom; [|done]. cbv zeta in Hf.
  destruct (is_Some_dec _) as [[kw'' Hm]|]; [injection Hf as <-|done].
  destruct (match_shape_facts _ _ _ (Hs c Hin) Hm) as (Hl & Hd'' & Ha'' & _).
  assert (kw'' = kw) as ->.
  { symmetry. apply (subst_inj (cp_segs c)); [by apply Hs|done..]. }
  exists c. split_and!; [done|done|]. unfold resolve. rewrite Hc. cbv beta iota.
  rewrite list_ascii_of_string_of_list_ascii, <- Hn. apply resolve_compiled_elem; [by apply Forall_forall|done|done|done].
Qed.

Lemma table_resolve_reverse (t : list (UrlPattern V)) cs p rm :
  compile_table t = inr cs -> table_ok cs = true -> resolve t p = inr rm ->
  reverse t (rm_name rm) (rm_kwargs rm) = inr p.
Proof.
  intros Hc Hok. destruct (table_ok_parts _ Hok) as (Hs & _ & Hnd). rewrite Forall_forall in Hs.
  unfold resolve, reverse. rewrite Hc. cbv beta iota.
  intros (c & Hin & Hm & _ & ->)%resolve_compiled_inv.
  pose proof (reverse_candidate_match _ _ _ (Hs c Hin) Hm) as Hrc.
  rewrite string_of_list_ascii_of_string in Hrc.
  rewrite (head_omap_unique _ _ p); [done| |].
  - intros c' Hc'. rewrite elem_of_reverse in Hc'. case_bool_decide as Hn'; [|by left]. right.
    by rewrite (NoDup_fmap_same cp_name cs c' c).
  - exists c. split; [by rewrite elem_of_reverse|]. by rewrite bool_decide_eq_true_2.
Qed.

End TableTheory.

(** ** Which paths the route app answers with 404 *)

Lemma list_ascii_of_string_app s t :
  list_ascii_of_string (s +:+ t) = list_ascii_of_string s ++ list_ascii_of_string t.
Proof. induction s as [|a s IH]; simpl; [done|]. by rewrite IH. Qed.

Lemma no_char_Forall c s : no_char c s = true <-> Forall (fun a => a <> c) (list_ascii_of_string s).
Proof.
  induction s as [|a s IH]; simpl; [split; [constructor|done]|].
  rewrite andb_true_iff, negb_true_iff, Ascii.eqb_neq, Forall_cons, IH. done.
Qed.

Lemma match_lit_None t p : match_segments [SLit t] (list_ascii_of_string p) = None <-> p <> t.
Proof.
  split.
  - intros Hm ->. assert (is_Some (match_segments [SLit t] (list_ascii_of_string t))) as [kw Hkw]
      by (eexists; by apply match_lit). congruence.
  - intros Hne. destruct (match_segments _ _) as [kw|] eqn:Hm; [|done].
    apply match_lit in Hm as [Hp _]. by apply list_ascii_of_string_inj in Hp.
Qed.

Lemma match_param_None t x p :
  match_segments [SLit t; SParam ConvStr x; SLit "/"] (list_ascii_of_string p) = None <->
  ~ exists id, p = t +:+ id +:+ "/" /\ id <> "" /\ no_char "/" id = true.
Proof.
  rewrite eq_None_not_Some. apply not_iff_compat. split.
  - intros [kw (v & Hp & Hne & Hv & _)%match_param_shape].
    exists (string_of_list_ascii v). split_and!.
    + apply list_ascii_of_string_inj. by rewrite !list_ascii_of_string_app, list_ascii_of_string_of_list_ascii.
    + intros Hid. apply Hne. by rewrite <- (list_ascii_of_string_of_list_ascii v), Hid.
    + by rewrite no_char_Forall, list_ascii_of_string_of_list_ascii.
  - intros (id & -> & Hne & Hv). eexists. apply match_param_shape.
    exists (list_ascii_of_string id). split_and!.
    + by rewrite !list_ascii_of_string_app.
    + intros Hnil. apply Hne. by rewrite <- (string_of_list_ascii_of_string id), Hnil.
    + by apply no_char_Forall.
    + by rewrite string_of_list_ascii_of_string.
Qed.

Lemma resolve_compiled_404 {V} (cs : list (@Compiled V)) l :
  resolve_compiled cs l = inl Resolver404 <-> Forall (fun c => match_segments (cp_segs c) l = None) cs.
Proof.
  induction cs as [|c cs IH]; simpl; [split; [constructor|done]|].
  rewrite Forall_cons, <- IH. destruct (match_segments (cp_segs c) l); naive_solver.
Qed.



(** On a table of literal routes only, a path resolves to a route whose
    text it is, with no arguments. *)
Lemma resolve_compiled_lit {V} (cs : list (@Compiled V)) l rm :
  Forall (fun c => exists t, cp_segs c = [SLit t]) cs -> resolve_compiled cs l = inr rm ->
  exists c t, c ∈ cs /\ cp_segs c = [SLit t] /\ l = list_ascii_of_string t /\
    rm = mkResolverMatch (cp_view c) ∅ (cp_name c).
Proof.
  induction cs as [|c cs IH]; simpl; [done|]. intros [[t Ht] Hcs]%Forall_cons.
  destruct (match_segments (cp_segs c) l) as [kw|] eqn:Hm.
  - intros [= <-]. rewrite Ht in Hm. apply match_lit in Hm as [-> ->].
    exists c, t. split_and!; [by left|done|done|done].
  - intros Hr. destruct (IH Hcs Hr) as (c' & t' & ? & ? & ? & ?). exists c', t'. split_and!; [by right|done..].
Qed.
