(* ===== verification/Urls.v ===== *)
(** * The URL configuration of the repository

    The three [urlpatterns] tables of [src/apps/routes/urls.py],
    [src/apps/core/urls.py] and [src/apps/users/urls.py], verbatim, over
    the view classes they name, with each class's permission classes and
    handlers; [Resolver.v] gives them Django's and DRF's meaning.
    [serve_routes] composes the resolver, the dispatch and the views of
    the route app with [Lifecycle.handle], and [serve_core] the core
    app's table with the embedding views of [Embeddings.v].

    The file proves that [reverse] and [resolve] are inverse on the
    three tables, how an unknown path, a refused caller and an
    unsupported method are answered and in which order, that the steps
    of the database through HTTP requests to the route app are exactly
    the steps of [Lifecycle.route_step], and that any run of requests to
    the core app keeps the embedding table well formed.  Paths are those
    after the prefix under which the project's root URLconf includes
    each app (the root URLconf is not in [src/]). *)

From Stdlib Require Import String Ascii ZArith.
From stdpp Require Import base list strings gmap.
From S2P Require Import Prelude Model Routes Lifecycle Embeddings Resolver.

(** ** The tables *)

(** The view classes the tables name. *)
Inductive View :=
| FeedbackView | FormDataView | CityAreaView | GenerateRouteView | EditRouteStatusView
| CancelRouteView | RouteDetailView
| EmbedMissingPointsView | EmbedRefreshPointsView | EmbedUpdatePointView
| RegisterView | LoginView | RefreshView | UserView | UserRoutesListView | UserStatisticsView.

#[export] Instance View_eq_dec : EqDecision View.
Proof. solve_decision. Defined.


Definition routes_urlpatterns : list (UrlPattern View) := [
  path "feedback/" FeedbackView "route-feedback";
  path "form/" FormDataView "form-data-view";
  path "area/" CityAreaView "city-areas";
  path "generate/" GenerateRouteView "generate-route";
  path "edit-status/" EditRouteStatusView "edit-route-status";
  path "cancel/" CancelRouteView "cancel-route";
  path "show/<str:id_route>/" RouteDetailView "route-detail"
].

Definition core_urlpatterns : list (UrlPattern View) := [
  path "embed-missing/" EmbedMissingPointsView "embed-missing-points";
  path "embed-refresh/" EmbedRefreshPointsView "embed-refresh-points";
  path "embed-update/<str:point_id>/" EmbedUpdatePointView "embed-update-point"
].

Definition users_urlpatterns : list (UrlPattern View) := [
  path "auth/register" RegisterView "register";
  path "auth/login" LoginView "login";
  path "auth/refresh" RefreshView "token_refresh";
  path "user" UserView "user_info";
  path "user/list/" UserRoutesListView "user-routes-list";
  path "user/statistic/" UserStatisticsView "user-statistic"
].

(** ** Permission classes and handlers of the view classes *)

(** [permission_classes] of each class; [FormDataView] and
    [CityAreaView] declare none and get the default, [AllowAny] (the
    settings are not in [src/]; the specification calls both look-ups
    public). *)
Definition view_permission (v : View) : Permission :=
  match v with
  | FormDataView | CityAreaView | RegisterView | LoginView | RefreshView => AllowAny
  | EmbedMissingPointsView | EmbedRefreshPointsView | EmbedUpdatePointView => IsAdminUser
  | _ => IsAuthenticated
  end.

(** The methods each class defines ([def get] or [def post]). *)
Definition view_handlers (v : View) : list Method :=
  match v with
  | FormDataView | CityAreaView | RouteDetailView | UserView | UserRoutesListView
  | UserStatisticsView => [GET]
  | _ => [POST]
  end.

(** [APIView.dispatch] for a view class. *)
Definition dispatch (v : View) (rq : Request) (m : Method) : Dispatched :=
  api_dispatch (view_permission v) (view_handlers v) rq m.

(** ** Serving the route app *)

(** The parts of [request.data] the route views read. *)
Record RouteBody := mkRouteBody {
  body_route_id : option string;
  body_status : option string;
  body_reason : option string;
  body_rating : Json;
  body_comment : option string;
  body_generate : GenerateInput
}.

(** The handler call [handler(request, *args, **kwargs)] of a route-app
    view, as a request of [Lifecycle]; the two look-ups, which read and
    never write, are left out. *)
Definition view_call (v : View) (kw : gmap string KwValue) (b : RouteBody) : option RouteRequest :=
  match v with
  | GenerateRouteView => Some (RqGenerate (body_generate b))
  | EditRouteStatusView => Some (RqEditStatus (body_route_id b) (body_status b))
  | CancelRouteView => Some (RqCancel (body_route_id b) (body_reason b))
  | FeedbackView => Some (RqFeedback (body_route_id b) (body_rating b) (body_comment b))
  | RouteDetailView =>
      match kw !! "id_route" with Some (KwStr id) => Some (RqDetail id) | _ => None end
  | _ => None
  end.

(** One HTTP request to the route app: resolve the path, dispatch, run
    the handler; the database afterwards. *)
Definition serve_routes `{RouteGenerator} (rq : Request) (m : Method) (p : string)
    (b : RouteBody) (db : DB) : DB :=
  match resolve routes_urlpatterns p with
  | inr rm =>
      match dispatch (rm_view rm) rq m with
      | DHandler _ =>
          match view_call (rm_view rm) (rm_kwargs rm) b with
          | Some req => handle rq req db
          | None => db
          end
      | _ => db
      end
  | inl _ => db
  end.

Inductive http_step `{RouteGenerator} : relation DB :=
| http_step_serve rq m p b db : http_step db (serve_routes rq m p b db).

(** ** Serving the core app *)

(** One HTTP request to the core app: the three embedding views, the
    update view receiving [point_id] from the path. *)
Definition serve_core `{EmbeddingClient} (compose : DB -> Point -> Exception + string)
    (rq : Request) (m : Method) (p : string) (db : DB) : DB :=
  match resolve core_urlpatterns p with
  | inr rm =>
      match dispatch (rm_view rm) rq m with
      | DHandler _ =>
          match rm_view rm, rm_kwargs rm !! "point_id" with
          | EmbedMissingPointsView, _ => snd (embed_missing compose rq db)
          | EmbedRefreshPointsView, _ => snd (embed_refresh compose rq db)
          | EmbedUpdatePointView, Some (KwStr pid) => snd (embed_update compose rq pid db)
          | _, _ => db
          end
      | _ => db
      end
  | inl _ => db
  end.

Inductive core_step `{EmbeddingClient} (compose : DB -> Point -> Exception + string) : relation DB :=
| core_step_serve rq m p db : core_step compose db (serve_core compose rq m p db).

(** C8 (roundtrip).  On each of the repository's three URL tables,
    [reverse] and [resolve] are inverse: a path [reverse] builds from a
    URL name and string arguments resolves to a route of that name, with
    its view, and exactly those arguments; and every path that resolves
    is the one [reverse] builds from the name and arguments it resolved
    to. *)
Theorem reverse_resolve_roundtrip t :
  t ∈ [routes_urlpatterns; core_urlpatterns; users_urlpatterns] ->
  (forall name kw p, all_str kw -> reverse t name kw = inr p ->
     exists u, u ∈ t /\ up_name u = name /\ resolve t p = inr (mkResolverMatch (up_view u) kw name)) /\
  (forall p rm, resolve t p = inr rm -> reverse t (rm_name rm) (rm_kwargs rm) = inr p).
Proof.
  intros Ht.
  assert (exists cs, compile_table t = inr cs /\ table_ok cs = true) as (cs & Hc & Hok).
  { repeat apply elem_of_cons in Ht as [->|Ht]; [..|by apply elem_of_nil in Ht];
      eexists; split; vm_compute; reflexivity. }
  split.
  - intros name kw p Hkw Hr.
    destruct (table_reverse_resolve _ _ _ _ _ Hc Hok Hkw Hr) as (c & Hin & Hn & Hres).
    destruct (compile_table_elem _ _ _ Hc Hin) as (u & Hu & Hv & Hn').
    exists u. split_and!; [done|congruence|by rewrite <- Hv].
  - intros p rm. by apply table_resolve_reverse with cs.
Qed.

(** C7 (error).  What the route app answers before the code of a view
    runs.  A path is answered 404 exactly when it is none of the six
    literal routes and not [show/<id>/] with a non-empty id without a
    slash (so [show//] and [show/a/b/] are 404).  On a path that
    resolves, the permission classes come first: a caller they refuse
    is answered 401 without credentials and 403 with them, whatever the
    method; a permitted caller is answered 405, naming the method,
    exactly when the method is not among the view's allowed methods. *)
Theorem route_app_errors p rq m :
  (resolve routes_urlpatterns p = inl Resolver404 <->
     p ∉ ["feedback/"; "form/"; "area/"; "generate/"; "edit-status/"; "cancel/"] /\
     ~ exists id, p = "show/" +:+ id +:+ "/" /\ id <> "" /\ no_char "/" id = true) /\
  (forall rm, resolve routes_urlpatterns p = inr rm ->
     (has_permission (view_permission (rm_view rm)) rq = false ->
        dispatch (rm_view rm) rq m =
        if bool_decide (is_Some (req_user rq)) then DRefused 403 permission_denied_msg
        else DRefused 401 not_authenticated_msg) /\
     (has_permission (view_permission (rm_view rm)) rq = true ->
        (dispatch (rm_view rm) rq m = DNotAllowed (method_not_allowed m) <->
         m ∉ allowed_methods (view_handlers (rm_view rm))))).
Proof.
  split.
  - unfold resolve.
    assert (compile_table routes_urlpatterns = inr [
      mkCompiled [SLit "feedback/"] FeedbackView "route-feedback";
      mkCompiled [SLit "form/"] FormDataView "form-data-view";
      mkCompiled [SLit "area/"] CityAreaView "city-areas";
      mkCompiled [SLit "generate/"] GenerateRouteView "generate-route";
      mkCompiled [SLit "edit-status/"] EditRouteStatusView "edit-route-status";
      mkCompiled [SLit "cancel/"] CancelRouteView "cancel-route";
      mkCompiled [SLit "show/"; SParam ConvStr "id_route"; SLit "/"] RouteDetailView "route-detail"])
      as -> by (vm_compute; reflexivity).
    cbv beta iota.
    rewrite resolve_compiled_404, !Forall_cons. cbn [cp_segs].
    rewrite !match_lit_None, match_param_None, !not_elem_of_cons.
    pose proof (Forall_nil (fun c : @Compiled View => match_segments (cp_segs c) (list_ascii_of_string p) = None)).
    pose proof (not_elem_of_nil p). naive_solver.
  - intros rm _. unfold dispatch, api_dispatch. split; intros Hp; rewrite Hp.
    + by destruct (req_user rq).
    + destruct (rm_view rm), m; vm_compute;
        first [split; [discriminate|intros Hn; exfalso; apply Hn; set_solver]
              |split; [intros _; set_solver|done]].
Qed.

(** ** HTTP requests and the lifecycle *)

Section Serve.
Context `{RouteGenerator}.

Lemma handle_anonymous rq req db : req_user rq = None -> handle rq req db = db.
Proof.
  intros Hu. destruct req; simpl;
    unfold generate_route_view, edit_route_status, cancel_route, feedback_view; by rewrite ?Hu.
Qed.

Lemma route_step_refl db : route_step db db.
Proof. exact (route_step_handle (mkRequest None 0 "") (RqDetail "") db). Qed.

Lemma serve_routes_step rq m p b db : route_step db (serve_routes rq m p b db).
Proof. unfold serve_routes. repeat case_match; first [apply route_step_refl|apply route_step_handle]. Qed.

Lemma authenticated_permission rq u : req_user rq = Some u -> has_permission IsAuthenticated rq = true.
Proof. intros Hu. simpl. rewrite Hu. by apply bool_decide_eq_true_2. Qed.

(** A request whose path resolves to a view the caller may use, with a
    method the view handles, runs the view's handler. *)
Lemma http_step_of_view rq m p b db rm req :
  resolve routes_urlpatterns p = inr rm -> has_permission (view_permission (rm_view rm)) rq = true ->
  m ∈ view_handlers (rm_view rm) -> m <> OPTIONS -> m <> HEAD ->
  view_call (rm_view rm) (rm_kwargs rm) b = Some req -> http_step db (handle rq req db).
Proof.
  intros Hr Hp Hm Ho Hh Hv. replace (handle rq req db) with (serve_routes rq m p b db); [constructor|].
  unfold serve_routes, dispatch, api_dispatch. rewrite Hr. rewrite ?Hp, ?bool_decide_eq_true_2 by done.
  destruct m; try done; by rewrite Hv.
Qed.

Lemma serve_unknown_path rq m b db : serve_routes rq m "" b db = db.
Proof. vm_compute. reflexivity. Qed.

End Serve.

(** C6 (equivalence).  The database moves through HTTP requests to the
    route app ([resolve] on [routes/urls.py], DRF's dispatch, then the
    view) exactly as through the requests of [Lifecycle]: every served
    request is a step of [route_step], and every step of [route_step] is
    the effect of some request to some path of the table.  So the
    invariant, the history and the refinement theorems of [Lifecycle]
    hold for the database as the URL configuration exposes it. *)
Theorem http_steps_are_route_steps `{RouteGenerator} db db' :
  http_step db db' <-> route_step db db'.
Proof.
  split; [intros []; apply serve_routes_step|].
  intros [rq req db0].
  destruct (req_user rq) as [u|] eqn:Hu;
    [|rewrite handle_anonymous by done;
      rewrite <- (serve_unknown_path rq GET (mkRouteBody None None None JNull None sample_generate_input) db0) at 2;
      constructor].
  pose proof (authenticated_permission _ _ Hu) as Hp.
  destruct req as [inp|rid s|rid r|id|rid j c].
  - apply (http_step_of_view rq POST "generate/" (mkRouteBody None None None JNull None inp) db0
             (mkResolverMatch GenerateRouteView ∅ "generate-route"));
      [vm_compute; reflexivity|done|set_solver|done|done|done].
  - apply (http_step_of_view rq POST "edit-status/" (mkRouteBody rid s None JNull None sample_generate_input)
             db0 (mkResolverMatch EditRouteStatusView ∅ "edit-route-status"));
      [vm_compute; reflexivity|done|set_solver|done|done|done].
  - apply (http_step_of_view rq POST "cancel/" (mkRouteBody rid None r JNull None sample_generate_input)
             db0 (mkResolverMatch CancelRouteView ∅ "cancel-route"));
      [vm_compute; reflexivity|done|set_solver|done|done|done].
  - rewrite <- (serve_unknown_path rq GET (mkRouteBody None None None JNull None sample_generate_input) db0) at 2.
    constructor.
  - apply (http_step_of_view rq POST "feedback/" (mkRouteBody rid None None j c sample_generate_input)
             db0 (mkResolverMatch FeedbackView ∅ "route-feedback"));
      [vm_compute; reflexivity|done|set_solver|done|done|done].
Qed.

(** ** Witnesses *)

Lemma reverse_resolve_roundtrip_witness :
  routes_urlpatterns ∈ [routes_urlpatterns; core_urlpatterns; users_urlpatterns] /\
  exists u, u ∈ routes_urlpatterns /\ up_name u = "route-detail" /\
    resolve routes_urlpatterns "show/r1/"
    = inr (mkResolverMatch (up_view u) {[ "id_route" := KwStr "r1" ]} "route-detail").
Proof.
  assert (routes_urlpatterns ∈ [routes_urlpatterns; core_urlpatterns; users_urlpatterns]) as Ht
    by constructor.
  split; [exact Ht|].
  apply (proj1 (reverse_resolve_roundtrip routes_urlpatterns Ht) "route-detail"
           {[ "id_route" := KwStr "r1" ]} "show/r1/").
  - apply map_Forall_singleton. by eexists.
  - vm_compute. reflexivity.
Defined.

(** ** The core app keeps the embedding table well formed *)

Section Core.
Context {client : EmbeddingClient} (compose : DB -> Point -> Exception + string).

Lemma serve_core_cases rq m p db :
  serve_core compose rq m p db = db \/
  serve_core compose rq m p db = snd (embed_missing compose rq db) \/
  serve_core compose rq m p db = snd (embed_refresh compose rq db) \/
  exists pid, serve_core compose rq m p db = snd (embed_update compose rq pid db).
Proof. unfold serve_core. repeat case_match; eauto. Qed.

Lemma embedding_views_points rq pid db :
  points (snd (embed_missing compose rq db)) = points db /\
  points (snd (embed_refresh compose rq db)) = points db /\
  points (snd (embed_update compose rq pid db)) = points db.
Proof.
  unfold embed_missing, embed_refresh, embed_update.
  split_and!; repeat case_match; simplify_eq/=; try done; apply set_embeddings_points.
Qed.

(** A caller who is not staff changes nothing: [IsAdminUser] refuses
    the request, and each view checks it again. *)
Lemma serve_core_not_admin rq m p db : is_admin rq = false -> serve_core compose rq m p db = db.
Proof.
  intros Ha. unfold serve_core, embed_missing, embed_refresh, embed_update.
  rewrite Ha. repeat case_match; done.
Qed.

(** C27 (invariant).  Along any sequence of HTTP requests to the core
    app (any paths, methods and callers, with any text composer and any
    embedding client) every embedding row stays keyed by an existing
    point and the points do not change; and a request of a caller who is
    not staff changes nothing. *)
Theorem core_requests_preserve_wf db db' :
  points_keyed db -> embeddings_wf db -> rtc (core_step compose) db db' ->
  embeddings_wf db' /\ points db' = points db /\
  (forall rq m p, is_admin rq = false -> serve_core compose rq m p db' = db').
Proof.
  intros Hk Hwf Hrtc.
  assert (Hinv : forall x y, core_step compose x y -> points_keyed x -> embeddings_wf x ->
            points_keyed y /\ embeddings_wf y /\ points y = points x).
  { intros x y [rq m p x0] Hk' Hwf'.
    destruct (embedding_views_preserve_wf compose rq "" x0 Hk' Hwf') as (W1 & W2 & _).
    destruct (embedding_views_points rq "" x0) as (P1 & P2 & _).
    destruct (serve_core_cases rq m p x0) as [->|[->|[->|[pid ->]]]]; [done|..];
      [| |destruct (embedding_views_preserve_wf compose rq pid x0 Hk' Hwf') as (_ & _ & W3);
          destruct (embedding_views_points rq pid x0) as (_ & _ & P3)];
      unfold points_keyed; (split_and!; [|done|done]);
      first [rewrite P1|rewrite P2|rewrite P3]; exact Hk'. }
  assert (embeddings_wf db' /\ points db' = points db) as [Hw Hp].
  { clear -Hinv Hk Hwf Hrtc. revert Hk Hwf.
    induction Hrtc as [x|x y z Hxy _ IH]; intros Hk Hwf; [done|].
    destruct (Hinv x y Hxy Hk Hwf) as (Hk' & Hwf' & Hxy'). destruct (IH Hk' Hwf') as [? Hz].
    split; [done|congruence]. }
  split_and!; [done|done|intros; by apply serve_core_not_admin].
Qed.

End Core.

Lemma core_requests_preserve_wf_witness :
  embeddings_wf (@serve_core sample_client label_text admin_rq POST "embed-update/2/" sample_db_embedded) /\
  points (@serve_core sample_client label_text admin_rq POST "embed-update/2/" sample_db_embedded)
    = points sample_db_embedded /\
  (forall rq m p, is_admin rq = false ->
     @serve_core sample_client label_text rq m p
       (@serve_core sample_client label_text admin_rq POST "embed-update/2/" sample_db_embedded)
     = @serve_core sample_client label_text admin_rq POST "embed-update/2/" sample_db_embedded).
Proof.
  apply (core_requests_preserve_wf (client := sample_client) label_text sample_db_embedded).
  - apply map_Forall_to_list. vm_compute. repeat constructor.
  - apply map_Forall_to_list. vm_compute. repeat (constructor || eexists).
  - apply rtc_once. constructor.
Defined.
