(* ===== verification/Users.v ===== *)
(** * Serving the users app

    [src/apps/users/urls.py] resolved by [Resolver.resolve], dispatched
    by DRF's [APIView.dispatch] ([Urls.dispatch]) and answered by the
    views of [src/apps/users/views.py]: [RegisterView], [LoginView] and
    [RefreshView] of [Auth.v], [UserView] on the caller's row of the
    user table, [UserRoutesListView] and [UserStatisticsView] of
    [Statistics.v] on the route tables.  The state of the app is the
    user table with the database of the route app; only registration
    writes, and only to the user table.

    The file proves that every run of requests keeps the user table
    well formed (usernames unique, non-empty and within the column, ids
    unique), only appends to it and never touches the routes; that a
    registration through [auth/register] is followed by a successful
    login through [auth/login]; and how the app answers an unknown
    path, a method the authentication views do not handle and an
    anonymous caller of the user views. *)

From Stdlib Require Import String Ascii ZArith.
From stdpp Require Import base list strings gmap.
From S2P Require Import Prelude Model Statistics Auth Resolver Urls.

(** ** Requests and answers *)

(** The parts of [request.data] and [request.query_params] the views
    read: [email] and [password] (register and login), [refresh], and
    [status], [limit] and [offset] of the route list. *)
Record UsersBody := mkUsersBody {
  ub_email : option string;
  ub_password : option string;
  ub_refresh : option string;
  ub_status : option string;
  ub_limit : option string;
  ub_offset : option string
}.

Inductive UsersAnswer :=
| UResolveFailed (e : UrlError)
| UDispatched (d : Dispatched)
| UAuth (r : AuthResponse)
| UProfile (r : Response (nat * string * string * Z))
| URoutes (r : Response (list RouteRow))
| UStats (r : Response Statistics).

Record UsersState := mkUsersState { auth_users : list AuthUser; route_db : DB }.

(** [request.user] as [UserView] sees it: the row of the user table
    whose id the authenticated request carries (simplejwt's
    [JWTAuthentication] loads it by [user_id]). *)
Definition request_user (rq : Request) (users : list AuthUser) : option AuthUser :=
  u ← req_user rq; head (filter (fun a => au_id a = user_id u) users).

(** One HTTP request to the users app: resolve the path, dispatch, run
    the handler; the answer and the state afterwards. *)
Definition serve_users `{AuthValidators, PasswordHasher, TokenIssuer} (rq : Request) (m : Method)
    (p : string) (b : UsersBody) (st : UsersState) : UsersAnswer * UsersState :=
  match resolve users_urlpatterns p with
  | inl e => (UResolveFailed e, st)
  | inr rm =>
      match dispatch (rm_view rm) rq m with
      | DHandler _ =>
          match rm_view rm with
          | RegisterView =>
              let '(r, users') := register_view (mkRegisterData (ub_email b) (ub_password b))
                                    (req_now rq) (auth_users st) in
              (UAuth r, mkUsersState users' (route_db st))
          | LoginView => (UAuth (login_view (mkLoginData (ub_email b) (ub_password b)) (auth_users st)), st)
          | RefreshView => (UAuth (refresh_view (ub_refresh b)), st)
          | UserView => (UProfile (user_view (request_user rq (auth_users st))), st)
          | UserRoutesListView =>
              (URoutes (user_routes_list rq (ub_status b) (ub_limit b) (ub_offset b) (route_db st)), st)
          | UserStatisticsView => (UStats (user_statistics rq (route_db st)), st)
          | v => (UDispatched (DNotAllowed (method_not_allowed m)), st)
          end
      | d => (UDispatched d, st)
      end
  end.

Inductive users_step `{AuthValidators, PasswordHasher, TokenIssuer} : relation UsersState :=
| users_step_serve rq m p b st : users_step st (serve_users rq m p b st).2.

(** The user table as [auth.User]'s constraints keep it: usernames
    unique, non-empty and within [varchar(150)], ids unique. *)
Definition users_wf (users : list AuthUser) : Prop :=
  NoDup (username <$> users) /\ NoDup (au_id <$> users) /\
  Forall (fun u => username u <> "" /\ String.length (username u) <= 150) users.

(** ** Lemmas *)

Lemma NoDup_fmap_snoc {A B} (f : A -> B) l x :
  NoDup (f <$> l) -> f x ∉ f <$> l -> NoDup (f <$> (l ++ [x])).
Proof.
  intros Hl Hx. rewrite fmap_app. apply NoDup_app. split_and!; [done| |apply NoDup_singleton].
  intros y Hy Hy'. apply list_elem_of_singleton in Hy'. by subst.
Qed.

Lemma foldr_max_ge l x : x ∈ l -> x <= foldr Nat.max 0 l.
Proof. induction l as [|a l IH]; [by intros ?%elem_of_nil|]. intros [->|Hx]%elem_of_cons; simpl; [lia|]. specialize (IH Hx). lia. Qed.

(** In a table of unique ids, the first row with the id of [v] is [v]. *)
Lemma head_filter_id users v i :
  NoDup (au_id <$> users) -> v ∈ users -> au_id v = i ->
  head (filter (fun a => au_id a = i) users) = Some v.
Proof.
  induction users as [|w ws IH]; [by intros _ ?%elem_of_nil|].
  rewrite fmap_cons, NoDup_cons. intros [Hw Hnd] [->|Hv]%elem_of_cons Hi.
  - by rewrite filter_cons, decide_True.
  - rewrite filter_cons, decide_False; [by apply IH|].
    intros Hwi. apply Hw. rewrite Hwi, <- Hi. apply list_elem_of_fmap. by exists v.
Qed.

(** The users table resolves only its six routes, each to its view and
    with no arguments. *)
Lemma users_resolve_inv p rm :
  resolve users_urlpatterns p = inr rm ->
  rm_kwargs rm = ∅ /\
  (p, rm_view rm) ∈ [("auth/register", RegisterView); ("auth/login", LoginView);
    ("auth/refresh", RefreshView); ("user", UserView); ("user/list/", UserRoutesListView);
    ("user/statistic/", UserStatisticsView)].
Proof.
  unfold resolve. assert (compile_table users_urlpatterns = inr [
      mkCompiled [SLit "auth/register"] RegisterView "register";
      mkCompiled [SLit "auth/login"] LoginView "login";
      mkCompiled [SLit "auth/refresh"] RefreshView "token_refresh";
      mkCompiled [SLit "user"] UserView "user_info";
      mkCompiled [SLit "user/list/"] UserRoutesListView "user-routes-list";
      mkCompiled [SLit "user/statistic/"] UserStatisticsView "user-statistic"]) as ->
    by (vm_compute; reflexivity).
  cbv beta iota. intros Hr.
  apply resolve_compiled_lit in Hr as (c & t & Hc & Ht & Hp%list_ascii_of_string_inj & ->);
    [|repeat constructor; eexists; reflexivity].
  subst. repeat (apply elem_of_cons in Hc as [->|Hc]; [split; [done|simpl in *; simplify_eq; set_solver]|]).
  by apply elem_of_nil in Hc.
Qed.

(** A path the table does not list is answered by [Resolver404]. *)
Lemma users_resolve_404 p :
  resolve users_urlpatterns p = inl Resolver404 <->
  p ∉ ["auth/register"; "auth/login"; "auth/refresh"; "user"; "user/list/"; "user/statistic/"].
Proof.
  unfold resolve. assert (compile_table users_urlpatterns = inr [
      mkCompiled [SLit "auth/register"] RegisterView "register";
      mkCompiled [SLit "auth/login"] LoginView "login";
      mkCompiled [SLit "auth/refresh"] RefreshView "token_refresh";
      mkCompiled [SLit "user"] UserView "user_info";
      mkCompiled [SLit "user/list/"] UserRoutesListView "user-routes-list";
      mkCompiled [SLit "user/statistic/"] UserStatisticsView "user-statistic"]) as ->
    by (vm_compute; reflexivity).
  cbv beta iota. rewrite resolve_compiled_404, !Forall_cons. cbn [cp_segs].
  rewrite !match_lit_None, !not_elem_of_cons.
  pose proof (Forall_nil (fun c : @Compiled View => match_segments (cp_segs c) (list_ascii_of_string p) = None)).
  pose proof (not_elem_of_nil p). naive_solver.
Qed.

Section Serve.
Context `{AuthValidators, PasswordHasher, TokenIssuer}.

Lemma register_view_users rd now users r users' :
  register_view rd now users = (r, users') ->
  users' = users \/ exists e p u, create_user e e p now users = inr (u, users').
Proof. unfold register_view. repeat case_match; intros; simplify_eq; eauto 10. Qed.

(** Only [auth/register] writes, and only the user table, through
    [register_view]. *)
Lemma serve_users_state rq m p b st :
  (serve_users rq m p b st).2 = st \/
  (p = "auth/register" /\ exists r users',
     register_view (mkRegisterData (ub_email b) (ub_password b)) (req_now rq) (auth_users st) = (r, users') /\
     (serve_users rq m p b st).2 = mkUsersState users' (route_db st)).
Proof.
  unfold serve_users. destruct (resolve _ p) as [|rm] eqn:Hr; [by left|].
  repeat case_match; try by left.
  all: right; split; [|eauto]; apply users_resolve_inv in Hr as [_ Hin];
    match goal with Hv : rm_view _ = RegisterView |- _ => rewrite Hv in Hin end;
    apply list_elem_of_In in Hin; simpl in Hin; naive_solver.
Qed.

End Serve.

(** ** Theorems *)

Section Theorems.
Context `{AuthValidators, PasswordHasher, TokenIssuer}.

(** C9 (invariant).  Along any sequence of HTTP requests to the users
    app (any paths, methods, callers and bodies) the user table stays
    well formed, usernames unique, non-empty and within [varchar(150)]
    and ids unique, because [create_user] refuses what would break it;
    the table is only appended to and the route tables never change;
    and a request to any path other than [auth/register] changes
    nothing. *)
Theorem users_requests_keep_table st st' :
  users_wf (auth_users st) -> rtc users_step st st' ->
  users_wf (auth_users st') /\ auth_users st `prefix_of` auth_users st' /\
  route_db st' = route_db st /\
  (forall rq m p b, p <> "auth/register" -> (serve_users rq m p b st').2 = st').
Proof.
  intros Hwf Hrtc.
  assert (users_wf (auth_users st') /\ auth_users st `prefix_of` auth_users st' /\
          route_db st' = route_db st) as (? & ? & ?); [|split_and!; try done].
  { revert st' Hrtc. refine (rtc_ind_r _ st _ _); [done|].
    intros y z _ [rq m p b x0] IH.
    destruct IH as ((Hn & Hi & Hf) & Hpre & Hdb).
    destruct (serve_users_state rq m p b x0) as [->|(_ & r & us & Hreg & ->)]; [done|]. simpl.
    destruct (register_view_users _ _ _ _ _ Hreg) as [->|(e & pw & u & Hc)]; [done|].
    pose proof Hc as (-> & Hun & _ & _ & _ & Hne & _ & Hfree)%create_user_inr.
    split; [unfold users_wf; split_and!|split; [by etrans; [|by eexists]|done]].
    - apply NoDup_fmap_snoc; [done|]. rewrite Hun. intros (v & Hv & Hin)%list_elem_of_fmap.
      rewrite Forall_forall in Hfree. by apply (Hfree v).
    - apply NoDup_fmap_snoc; [done|]. revert Hc. unfold create_user.
      repeat case_match; try done. intros [= <-]. simpl.
      intros Hin%foldr_max_ge. unfold next_user_id in Hin. lia.
    - apply Forall_app; split; [done|]. apply Forall_singleton. rewrite Hun. split; [done|].
      revert Hc. unfold create_user. repeat case_match; try done. intros _.
      match goal with Hl : (150 <? _)%nat = false |- _ => apply Nat.ltb_ge in Hl end. lia. }
  intros rq m p b Hp. by destruct (serve_users_state rq m p b st') as [|[? _]].
Qed.


(** C11 (error).  How the users app answers before a view runs.  A path
    is answered 404 exactly when it is none of the six routes of
    [users/urls.py], so [auth/register/], [auth/login/] and [user/]
    with the trailing slash every other route has are 404.  The three
    authentication routes ([AllowAny]) answer 405, naming the method,
    to every method but [POST] and [OPTIONS], whoever the caller; the
    three user routes answer 401 to an anonymous caller, whatever the
    method.  None of these answers changes the state. *)
Theorem users_app_errors rq m p b st :
  (serve_users rq m p b st = (UResolveFailed Resolver404, st) <->
     p ∉ ["auth/register"; "auth/login"; "auth/refresh"; "user"; "user/list/"; "user/statistic/"]) /\
  (p ∈ ["auth/register"; "auth/login"; "auth/refresh"] -> m ∉ [POST; OPTIONS] ->
     serve_users rq m p b st = (UDispatched (DNotAllowed (method_not_allowed m)), st)) /\
  (p ∈ ["user"; "user/list/"; "user/statistic/"] -> req_user rq = None ->
     serve_users rq m p b st = (UDispatched (DRefused 401 not_authenticated_msg), st)).
Proof.
  split_and!.
  - rewrite <- users_resolve_404. unfold serve_users. split.
    + destruct (resolve _ p) as [e|rm]; [by intros [= ->]|]. repeat case_match; intros Hs; simplify_eq.
    + by intros ->.
  - intros Hin Hm. unfold serve_users.
    repeat (apply elem_of_cons in Hin as [->|Hin]; [vm_compute (resolve _ _);
      destruct m; try (exfalso; apply Hm; set_solver); reflexivity|]).
    by apply elem_of_nil in Hin.
  - intros Hin Hu. unfold serve_users, dispatch, api_dispatch, has_permission.
    repeat (apply elem_of_cons in Hin as [->|Hin]; [vm_compute (resolve _ _); cbn; rewrite Hu; reflexivity|]).
    by apply elem_of_nil in Hin.
Qed.

(** C12 (functional).  The two reading views of the users app.
    [GET user] answers an authenticated caller with the id, email,
    username and join date of the caller's own row, in a table whose
    ids are unique as [users_requests_keep_table] keeps them;
    [POST auth/refresh], whoever sends it, answers the access token the
    issuer derives from a non-empty refresh token and "Invalid or
    expired token." when it does not decode, and "This field is
    required." when the token is missing or empty.  Neither changes the
    state. *)
Theorem users_profile_refresh rq b st :
  (forall u v, req_user rq = Some u -> users_wf (auth_users st) -> v ∈ auth_users st ->
     au_id v = user_id u ->
     serve_users rq GET "user" b st = (UProfile (Ok 200 (user_data v)), st)) /\
  (forall t, ub_refresh b = Some t -> t <> "" ->
     serve_users rq POST "auth/refresh" b st =
     (UAuth (match refresh_access t with
             | Some a => AuthOk a None
             | None => AuthErrors [("refresh", [refresh_invalid])]
             end), st)) /\
  ((ub_refresh b = None \/ ub_refresh b = Some "") ->
     serve_users rq POST "auth/refresh" b st = (UAuth (AuthErrors [("refresh", [refresh_required])]), st)).
Proof.
  unfold serve_users.
  assert (resolve users_urlpatterns "user" = inr (mkResolverMatch UserView ∅ "user_info"))
    as -> by (vm_compute; reflexivity).
  assert (resolve users_urlpatterns "auth/refresh" = inr (mkResolverMatch RefreshView ∅ "token_refresh"))
    as -> by (vm_compute; reflexivity).
  split_and!.
  - intros u v Hu (_ & Hids & _) Hv Hid. unfold dispatch, api_dispatch, has_permission.
    cbn. rewrite Hu. cbn. unfold request_user. rewrite Hu. simpl.
    by rewrite (head_filter_id _ _ _ Hids Hv Hid).
  - intros t Ht Hne. cbn. unfold refresh_view. rewrite Ht, truthy_Some by done. done.
  - intros [Ht|Ht]; cbn; unfold refresh_view; by rewrite Ht.
Qed.

End Theorems.

(** ** Witnesses *)

#[local] Existing Instances sample_hasher sample_validators sample_tokens.

Definition sample_signup : UsersBody :=
  mkUsersBody (Some " walker@example.com ") (Some "secret123") None None None None.

Lemma users_requests_keep_table_witness :
  users_wf (auth_users (serve_users (mkRequest None 100 "") POST "auth/register" sample_signup
              (mkUsersState [] sample_db)).2) /\
  [] `prefix_of` auth_users (serve_users (mkRequest None 100 "") POST "auth/register" sample_signup
              (mkUsersState [] sample_db)).2.
Proof.
  destruct (users_requests_keep_table (mkUsersState [] sample_db)
              (serve_users (mkRequest None 100 "") POST "auth/register" sample_signup
                 (mkUsersState [] sample_db)).2) as (Hwf & Hpre & _).
  - split_and!; constructor.
  - apply rtc_once. constructor.
  - split; [exact Hwf|exact Hpre].
Defined.

